(** * The pull-request review pipeline: a shallow embedding and its properties

    The development follows the JavaScript sources:
    - [middleware/webhookAuth.js]      ([validateWebhookSignature]),
    - [routes/webhook.js]              (the [POST /github] route),
    - [services/webhookHandler.js]     ([WebhookHandler]),
    - [services/pullRequestHandler.js] ([PullRequestHandler]),
    - [services/codeAnalysisService.js] ([CodeAnalysisService]),
    - [services/aiService.js]          ([AIService]),
    - [services/githubService.js]      ([GitHubService]),
    - [routes/health.js]               (the [checks] of the health report).

    Conventions.  A JavaScript string is represented by the Rocq [string] of
    its UTF-8 bytes, so [Buffer.from(s)] and [update(s, 'utf8')] are the
    identity on well-formed text.  Integers that the code only compares or
    counts with (line counts, limits, pull-request numbers) are [Z]; numbers
    inside decoded JSON are IEEE binary64 values ([spec_float]). *)

From Stdlib Require Import ZArith List String Ascii Bool Lia DecimalString SpecFloat.
Import ListNotations.

Open Scope string_scope.
Open Scope Z_scope.

#[local] Set Warnings "-register-all".

(** ** Platform primitives: strings *)

Module Js.

Definition byte_of (c : ascii) : Z := Z.of_nat (nat_of_ascii c).
Definition chr (n : Z) : ascii := ascii_of_nat (Z.to_nat n).
Definition str1 (n : Z) : string := String (chr n) EmptyString.

(** The double quote, spelled by its code. *)
Definition dq : string := str1 34.

Definition strlen (s : string) : Z := Z.of_nat (String.length s).

(** [s.startsWith(p)] *)
Fixpoint startsWith (p s : string) : bool :=
  match p, s with
  | EmptyString, _ => true
  | String a p', String b s' => Ascii.eqb a b && startsWith p' s'
  | String _ _, EmptyString => false
  end.

(** [s.includes(needle)], also the meaning of an unanchored literal regex. *)
Fixpoint includes (needle s : string) : bool :=
  startsWith needle s ||
  match s with
  | EmptyString => false
  | String _ s' => includes needle s'
  end.

(** [s.endsWith(suffix)], also the meaning of a literal regex closed by [$]
    (without the [m] flag [$] matches at the end of the input only). *)
Fixpoint endsWith (suffix s : string) : bool :=
  String.eqb s suffix ||
  match s with
  | EmptyString => false
  | String _ s' => endsWith suffix s'
  end.

(** [s.lastIndexOf(c)] for a one-character [c]; [-1] when absent. *)
Fixpoint lastIndexOf_from (c : ascii) (s : string) (i : Z) (found : Z) : Z :=
  match s with
  | EmptyString => found
  | String a s' => lastIndexOf_from c s' (i + 1) (if Ascii.eqb a c then i else found)
  end.
Definition lastIndexOf (c : ascii) (s : string) : Z := lastIndexOf_from c s 0 (-1).

(** [s.substring(start)] with [0 <= start]. *)
Fixpoint drop (n : nat) (s : string) : string :=
  match n, s with
  | O, _ => s
  | S n', String _ s' => drop n' s'
  | S _, EmptyString => EmptyString
  end.
Definition substring_from (start : Z) (s : string) : string :=
  drop (Z.to_nat (Z.max 0 start)) s.

(** [s.toLowerCase()].  ASCII capitals are lowered; KELVIN SIGN (U+212A)
    becomes [k] and LATIN CAPITAL LETTER I WITH DOT ABOVE (U+0130) becomes
    [i] followed by U+0307.  These are the only code points whose lower-case
    form contains an ASCII character; every other code point lowers to
    non-ASCII text and is left as it is, which no comparison against an
    ASCII extension can tell apart. *)
Definition lower_ascii (c : ascii) : ascii :=
  let n := byte_of c in
  if (65 <=? n) && (n <=? 90) then chr (n + 32) else c.

Fixpoint toLowerCase (s : string) : string :=
  match s with
  | EmptyString => EmptyString
  | String a r =>
      match byte_of a, r with
      | 226, String b (String c r') =>
          if (byte_of b =? 132) && (byte_of c =? 170)
          then String "k" (toLowerCase r')
          else String a (toLowerCase r)
      | 196, String b r' =>
          if byte_of b =? 176
          then String "i" (String (chr 204) (String (chr 135) (toLowerCase r')))
          else String a (toLowerCase r)
      | _, _ => String (lower_ascii a) (toLowerCase r)
      end
  end.

(** *** [parseInt(string)] with no radix argument

    [None] stands for [NaN].  The result is the mathematical integer; it
    equals the Number that JavaScript returns on the safe-integer range,
    and every comparison made with it is against a count in that range. *)

(** Leading white space ([StrWhiteSpaceChar]) in UTF-8. *)
Definition ws1 (n : Z) : bool :=
  (n =? 9) || (n =? 10) || (n =? 11) || (n =? 12) || (n =? 13) || (n =? 32).

Definition skip_ws_once (s : string) : option string :=
  match s with
  | String a r =>
      if ws1 (byte_of a) then Some r
      else match byte_of a, r with
           | 194, String b r' => if byte_of b =? 160 then Some r' else None
           | 225, String b (String c r') =>
               if (byte_of b =? 154) && (byte_of c =? 128) then Some r' else None
           | 226, String b (String c r') =>
               let b := byte_of b in let c := byte_of c in
               if ((b =? 128) && (((128 <=? c) && (c <=? 138)) || (c =? 168) || (c =? 169) || (c =? 175)))
                  || ((b =? 129) && (c =? 159))
               then Some r' else None
           | 227, String b (String c r') =>
               if (byte_of b =? 128) && (byte_of c =? 128) then Some r' else None
           | 239, String b (String c r') =>
               if (byte_of b =? 187) && (byte_of c =? 191) then Some r' else None
           | _, _ => None
           end
  | EmptyString => None
  end.

Fixpoint skip_ws_fuel (fuel : nat) (s : string) : string :=
  match fuel with
  | O => s
  | S fuel' => match skip_ws_once s with
               | Some r => skip_ws_fuel fuel' r
               | None => s
               end
  end.
Definition skip_ws (s : string) : string := skip_ws_fuel (String.length s) s.

Definition digit_val (radix : Z) (c : ascii) : option Z :=
  let n := byte_of c in
  let v := if (48 <=? n) && (n <=? 57) then n - 48
           else if (97 <=? n) && (n <=? 122) then n - 87
           else if (65 <=? n) && (n <=? 90) then n - 55
           else 99 in
  if v <? radix then Some v else None.

(** The longest prefix of digits, read in [radix]; [None] when it is empty. *)
Fixpoint read_digits (radix : Z) (s : string) (acc : option Z) : option Z :=
  match s with
  | EmptyString => acc
  | String a r =>
      match digit_val radix a with
      | Some d => read_digits radix r (Some (match acc with Some v => v * radix + d | None => d end))
      | None => acc
      end
  end.

Definition parseInt (input : option string) : option Z :=
  let s := skip_ws (match input with Some s => s | None => "undefined" end) in
  let '(neg, s) :=
    match s with
    | String "-" r => (true, r)
    | String "+" r => (false, r)
    | _ => (false, s)
    end in
  let '(radix, s) :=
    if startsWith "0x" s || startsWith "0X" s then (16, drop 2 s) else (10, s) in
  match read_digits radix s None with
  | Some v => Some (if neg then - v else v)
  | None => None
  end.

(** [parseInt(x) || dflt]: [NaN] and zero are falsy. *)
Definition parseInt_or (input : option string) (dflt : Z) : Z :=
  match parseInt input with
  | Some n => if n =? 0 then dflt else n
  | None => dflt
  end.

(** *** [Array.prototype.slice(start, end)] *)
Definition clamp_index (len i : Z) : Z :=
  if i <? 0 then Z.max (len + i) 0 else Z.min i len.

Definition slice {A : Type} (start end_ : Z) (l : list A) : list A :=
  let len := Z.of_nat (List.length l) in
  let k := clamp_index len start in
  let final := clamp_index len end_ in
  firstn (Z.to_nat (Z.max (final - k) 0)) (skipn (Z.to_nat k) l).

(** [Array.prototype.some], [includes] on arrays of strings. *)
Definition some {A : Type} (p : A -> bool) (l : list A) : bool := existsb p l.
Definition array_includes (x : string) (l : list string) : bool :=
  existsb (String.eqb x) l.

End Js.

(** ** Platform primitives: JSON values, [JSON.parse] and [JSON.stringify] *)

Module Json.

Inductive value :=
| JNull
| JBool (b : bool)
| JNumber (x : spec_float)
| JString (s : string)
| JArray (items : list value)
| JObject (props : list (string * value)).

(** *** Numbers: binary64 *)

Definition prec : Z := 53.
Definition emax : Z := 1024.

Definition double_of_Z (z : Z) : spec_float := binary_normalize prec emax z 0 false.

(** The Number nearest to [(-1)^neg * m * 10^e10] (ties to even), [0 <= m].
    A negative exponent divides exactly, keeps sixty extra bits of the
    quotient and a sticky bit, and rounds once. *)
Definition double_of_decimal (neg : bool) (m e10 : Z) : spec_float :=
  if m =? 0 then S754_zero neg
  else if 0 <=? e10 then
    binary_normalize prec emax ((if neg then - m else m) * 10 ^ e10) 0 false
  else
    let d := 10 ^ (- e10) in
    let sh := Z.max 0 (Z.log2 d + 60 - Z.log2 m) in
    let q := (m * 2 ^ sh) / d in
    let r := (m * 2 ^ sh) mod d in
    let q' := 2 * q + (if r =? 0 then 0 else 1) in
    binary_normalize prec emax (if neg then - q' else q') (- sh - 1) false.

Definition double_eqb (x y : spec_float) : bool :=
  match x, y with
  | S754_zero a, S754_zero b => Bool.eqb a b
  | S754_infinity a, S754_infinity b => Bool.eqb a b
  | S754_finite a m e, S754_finite b m' e' => Bool.eqb a b && Pos.eqb m m' && (e =? e')
  | _, _ => false
  end.

Definition decimal (z : Z) : string := NilZero.string_of_uint (N.to_uint (Z.to_N z)).
Definition ndigits (z : Z) : Z := Js.strlen (decimal z).

Fixpoint zeros (n : nat) : string :=
  match n with O => "" | S n' => String "0" (zeros n') end.

Fixpoint take (n : nat) (s : string) : string :=
  match n, s with
  | S n', String a r => String a (take n' r)
  | _, _ => ""
  end.

(** A positive rational [num / den] scaled by a power of ten. *)
Definition scale10 (v : Z * Z) (j : Z) : Z * Z :=
  let '(num, den) := v in
  if 0 <=? j then (num * 10 ^ j, den) else (num, den * 10 ^ (- j)).

(** The [n] with [10^(n-1) <= num/den < 10^n]. *)
Definition decimal_exponent (v : Z * Z) : Z :=
  let '(num, den) := v in
  let est := ndigits num - ndigits den in
  let '(a, b) := scale10 v (- est) in
  if b <=? a then est + 1 else est.

(** The [k]-digit candidates for [x]: the decimals just below and just
    above it that read back as [x]; the closer one wins, the even one on a
    tie. *)
Definition shortest_at (x : spec_float) (v : Z * Z) (n k : Z) : option Z :=
  let '(a, b) := scale10 v (k - n) in
  let lo := a / b in
  let r := a mod b in
  let hi := lo + 1 in
  let back s := double_eqb (double_of_decimal false s (n - k)) x in
  if r =? 0 then Some lo
  else match back lo, back hi with
       | true, true =>
           match 2 * r ?= b with
           | Lt => Some lo
           | Gt => Some hi
           | Eq => Some (if Z.even lo then lo else hi)
           end
       | true, false => Some lo
       | false, true => Some hi
       | false, false => None
       end.

Fixpoint shortest_from (fuel : nat) (x : spec_float) (v : Z * Z) (n k : Z) : Z * Z :=
  match fuel with
  | O => (fst (scale10 v (k - n)) / snd (scale10 v (k - n)), k)
  | S fuel' =>
      match shortest_at x v n k with
      | Some s => (s, k)
      | None => shortest_from fuel' x v n (k + 1)
      end
  end.

Fixpoint strip_zeros_fuel (fuel : nat) (s : Z) : Z :=
  match fuel with
  | O => s
  | S fuel' => if (s mod 10 =? 0) && negb (s =? 0) then strip_zeros_fuel fuel' (s / 10) else s
  end.

(** [Number::toString(x)] for a finite positive [x = m * 2^e]. *)
Definition positive_to_string (m : positive) (e : Z) : string :=
  let x := S754_finite false m e in
  let v := if 0 <=? e then (Zpos m * 2 ^ e, 1) else (Zpos m, 2 ^ (- e)) in
  let n0 := decimal_exponent v in
  let '(s0, k0) := shortest_from 17 x v n0 1 in
  let s := strip_zeros_fuel 20 s0 in
  let ds := decimal s in
  let k := Js.strlen ds in
  let n := n0 + (ndigits s0 - k0) in
  if (k <=? n) && (n <=? 21) then ds ++ zeros (Z.to_nat (n - k))
  else if (0 <? n) && (n <=? 21) then take (Z.to_nat n) ds ++ "." ++ Js.drop (Z.to_nat n) ds
  else if (-6 <? n) && (n <=? 0) then "0." ++ zeros (Z.to_nat (- n)) ++ ds
  else
    let ex := n - 1 in
    let expo := (if ex <? 0 then "e-" else "e+") ++ decimal (Z.abs ex) in
    if k =? 1 then ds ++ expo
    else take 1 ds ++ "." ++ Js.drop 1 ds ++ expo.

(** A Number inside [JSON.stringify]: non-finite values print as [null]. *)
Definition number_to_json (x : spec_float) : string :=
  match x with
  | S754_zero _ => "0"
  | S754_finite s m e => (if s then "-" else "") ++ positive_to_string m e
  | S754_infinity _ | S754_nan => "null"
  end.

(** *** Truthiness and property access *)

Definition truthy (v : value) : bool :=
  match v with
  | JNull => false
  | JBool b => b
  | JNumber (S754_zero _) | JNumber S754_nan => false
  | JNumber _ => true
  | JString s => negb (String.eqb s "")
  | JArray _ | JObject _ => true
  end.

Fixpoint assoc (k : string) (props : list (string * value)) : option value :=
  match props with
  | [] => None
  | (k', v) :: rest => if String.eqb k k' then Some v else assoc k rest
  end.

(** Defining a property: an existing key keeps its place and takes the
    new value, a new key goes last. *)
Fixpoint define (k : string) (v : value) (props : list (string * value)) : list (string * value) :=
  match props with
  | [] => [(k, v)]
  | (k', v') :: rest =>
      if String.eqb k k' then (k, v) :: rest else (k', v') :: define k v rest
  end.

Definition isArray (v : value) : bool :=
  match v with JArray _ => true | _ => false end.

(** *** [JSON.stringify(value)] *)

Definition hex_digit (n : Z) : string :=
  Js.str1 (if n <? 10 then 48 + n else 87 + n).

Definition hex4 (n : Z) : string :=
  hex_digit (n / 4096 mod 16) ++ hex_digit (n / 256 mod 16)
  ++ hex_digit (n / 16 mod 16) ++ hex_digit (n mod 16).

(** [QuoteJSONString] without the surrounding quotes.  A lone surrogate,
    three bytes [ED A0..BF xx], is written as a [\u] escape. *)
Fixpoint quote_body (s : string) : string :=
  match s with
  | EmptyString => ""
  | String a r =>
      let n := Js.byte_of a in
      match n, r with
      | 237, String b (String c r') =>
          if 160 <=? Js.byte_of b
          then "\u" ++ hex4 (53248 + (Js.byte_of b mod 64) * 64 + Js.byte_of c mod 64)
               ++ quote_body r'
          else String a (quote_body r)
      | _, _ =>
          (if n =? 34 then "\" ++ Js.dq
           else if n =? 92 then "\\"
           else if n =? 8 then "\b"
           else if n =? 12 then "\f"
           else if n =? 10 then "\n"
           else if n =? 13 then "\r"
           else if n =? 9 then "\t"
           else if n <? 32 then "\u" ++ hex4 n
           else String a "") ++ quote_body r
      end
  end.

Definition quote (s : string) : string := Js.dq ++ quote_body s ++ Js.dq.

(** An array index: the canonical decimal of an integer below [2^32 - 1]. *)
Definition array_index (k : string) : option Z :=
  match Js.read_digits 10 k None with
  | Some n => if String.eqb (decimal n) k && (n <? 4294967295) then Some n else None
  | None => None
  end.

Fixpoint insert_by_index {A : Type} (i : Z) (x : A) (l : list (Z * A)) : list (Z * A) :=
  match l with
  | [] => [(i, x)]
  | (j, y) :: rest => if i <? j then (i, x) :: l else (j, y) :: insert_by_index i x rest
  end.

(** [OrdinaryOwnPropertyKeys]: array indices in ascending order, then the
    other keys in the order of their creation. *)
Definition own_property_order {A : Type} (props : list (string * A)) : list (string * A) :=
  let indexed :=
    fold_left (fun acc kv => match array_index (fst kv) with
                             | Some i => insert_by_index i kv acc
                             | None => acc
                             end) props [] in
  map snd indexed
  ++ filter (fun kv => match array_index (fst kv) with Some _ => false | None => true end) props.

Fixpoint stringify (v : value) : string :=
  match v with
  | JNull => "null"
  | JBool true => "true"
  | JBool false => "false"
  | JNumber x => number_to_json x
  | JString s => quote s
  | JArray items => "[" ++ String.concat "," (map stringify items) ++ "]"
  | JObject props =>
      let rendered := map (fun kv => let '(k, v) := kv in (k, stringify v)) props in
      "{" ++ String.concat ","
               (map (fun kv => quote (fst kv) ++ ":" ++ snd kv) (own_property_order rendered))
      ++ "}"
  end.

(** *** [JSON.parse(text)] *)

Definition json_ws (n : Z) : bool :=
  (n =? 32) || (n =? 9) || (n =? 10) || (n =? 13).

Fixpoint skip_ws (s : string) : string :=
  match s with
  | String a r => if json_ws (Js.byte_of a) then skip_ws r else s
  | EmptyString => s
  end.

(** A string under construction: raw bytes and [\uXXXX] code units. *)
Inductive piece :=
| Raw (a : ascii)
| Unit16 (u : Z).

Definition hex_val (a : ascii) : option Z := Js.digit_val 16 a.

Definition hex4_val (a b c d : ascii) : option Z :=
  match hex_val a, hex_val b, hex_val c, hex_val d with
  | Some x, Some y, Some z, Some w => Some (((x * 16 + y) * 16 + z) * 16 + w)
  | _, _, _, _ => None
  end.

(** The characters after an opening quote, up to the closing one. *)
Fixpoint string_pieces (s : string) (acc : list piece) : option (list piece * string) :=
  match s with
  | EmptyString => None
  | String a r =>
      let n := Js.byte_of a in
      if n =? 34 then Some (rev acc, r)
      else if n <? 32 then None
      else if n =? 92 then
        match r with
        | String e r' =>
            let m := Js.byte_of e in
            if m =? 34 then string_pieces r' (Raw e :: acc)
            else if m =? 92 then string_pieces r' (Raw e :: acc)
            else if m =? 47 then string_pieces r' (Raw e :: acc)
            else if m =? 98 then string_pieces r' (Raw (Js.chr 8) :: acc)
            else if m =? 102 then string_pieces r' (Raw (Js.chr 12) :: acc)
            else if m =? 110 then string_pieces r' (Raw (Js.chr 10) :: acc)
            else if m =? 114 then string_pieces r' (Raw (Js.chr 13) :: acc)
            else if m =? 116 then string_pieces r' (Raw (Js.chr 9) :: acc)
            else if m =? 117 then
              match r' with
              | String h1 (String h2 (String h3 (String h4 r''))) =>
                  match hex4_val h1 h2 h3 h4 with
                  | Some u => string_pieces r'' (Unit16 u :: acc)
                  | None => None
                  end
              | _ => None
              end
            else None
        | EmptyString => None
        end
      else string_pieces r (Raw a :: acc)
  end.

(** UTF-8 of a code point (a lone surrogate takes the three-byte form). *)
Definition utf8 (cp : Z) : string :=
  if cp <? 128 then Js.str1 cp
  else if cp <? 2048 then Js.str1 (192 + cp / 64) ++ Js.str1 (128 + cp mod 64)
  else if cp <? 65536 then
    Js.str1 (224 + cp / 4096) ++ Js.str1 (128 + cp / 64 mod 64) ++ Js.str1 (128 + cp mod 64)
  else
    Js.str1 (240 + cp / 262144) ++ Js.str1 (128 + cp / 4096 mod 64)
    ++ Js.str1 (128 + cp / 64 mod 64) ++ Js.str1 (128 + cp mod 64).

Definition high_surrogate (u : Z) : bool := (55296 <=? u) && (u <=? 56319).
Definition low_surrogate (u : Z) : bool := (56320 <=? u) && (u <=? 57343).

Fixpoint assemble (ps : list piece) : string :=
  match ps with
  | [] => ""
  | Raw a :: rest => String a (assemble rest)
  | Unit16 u :: rest =>
      match rest with
      | Unit16 w :: rest' =>
          if high_surrogate u && low_surrogate w
          then utf8 (65536 + (u - 55296) * 1024 + (w - 56320)) ++ assemble rest'
          else utf8 u ++ assemble rest
      | _ => utf8 u ++ assemble rest
      end
  end.

(** The longest prefix of decimal digits: how many, their value, the rest. *)
Fixpoint take_digits (s : string) (count value : Z) : Z * Z * string :=
  match s with
  | String a r =>
      let n := Js.byte_of a in
      if (48 <=? n) && (n <=? 57) then take_digits r (count + 1) (value * 10 + (n - 48))
      else (count, value, s)
  | EmptyString => (count, value, s)
  end.

(** What follows the character of code [n] at the head of [s]. *)
Definition after (n : Z) (s : string) : option string :=
  match s with
  | String a r => if Js.byte_of a =? n then Some r else None
  | EmptyString => None
  end.

(** A number: an optional minus, an integer part without a leading zero
    (or a single zero), an optional fraction, an optional exponent. *)
Definition number_literal (s : string) : option (spec_float * string) :=
  let '(neg, s1) := match after 45 s with
                    | Some r => (true, r)
                    | None => (false, s)
                    end in
  let '(ci, vi, s2) := take_digits s1 0 0 in
  if (ci =? 0) || ((1 <? ci) && Js.startsWith "0" s1) then None
  else
    let frac := match after 46 s2 with
                | Some r =>
                    let '(cf, vf, s3) := take_digits r 0 vi in
                    if cf =? 0 then None else Some (cf, vf, s3)
                | None => Some (0, vi, s2)
                end in
    match frac with
    | None => None
    | Some (cf, m, s3) =>
        let expo := match after 101 s3, after 69 s3 with
                    | Some r, _ | None, Some r =>
                        let '(eneg, r1) := match after 45 r, after 43 r with
                                           | Some r', _ => (true, r')
                                           | None, Some r' => (false, r')
                                           | None, None => (false, r)
                                           end in
                        let '(ce, ve, s4) := take_digits r1 0 0 in
                        if ce =? 0 then None
                        else Some ((if eneg then - ve else ve), s4)
                    | None, None => Some (0, s3)
                    end in
        match expo with
        | None => None
        | Some (e, s4) => Some (double_of_decimal neg m (e - cf), s4)
        end
    end.

Inductive parsed (A : Type) :=
| Parsed (x : A) (rest : string)
| Malformed
| OutOfFuel.
Arguments Parsed {A} x rest.
Arguments Malformed {A}.
Arguments OutOfFuel {A}.

Definition string_literal (s : string) : parsed string :=
  match string_pieces s [] with
  | Some (ps, rest) => Parsed (assemble ps) rest
  | None => Malformed
  end.

(** A value that is neither an object nor an array. *)
Definition scalar (s : string) : parsed value :=
  match after 34 s with
  | Some r =>
      match string_literal r with
      | Parsed str rest => Parsed (JString str) rest
      | Malformed => Malformed
      | OutOfFuel => OutOfFuel
      end
  | None =>
      if Js.startsWith "true" s then Parsed (JBool true) (Js.drop 4 s)
      else if Js.startsWith "false" s then Parsed (JBool false) (Js.drop 5 s)
      else if Js.startsWith "null" s then Parsed JNull (Js.drop 4 s)
      else match number_literal s with
           | Some (x, rest) => Parsed (JNumber x) rest
           | None => Malformed
           end
  end.

(** Recursive descent.  [parse_value] reads one value; [parse_elements]
    reads the elements of an array after its opening bracket or a comma;
    [parse_members] reads the members of an object likewise. *)
Fixpoint parse_value (fuel : nat) (s : string) {struct fuel} : parsed value :=
  match fuel with
  | O => OutOfFuel
  | S fuel' =>
      let s := skip_ws s in
      match after 123 s, after 91 s with
      | Some r, _ =>
          match after 125 (skip_ws r) with
          | Some r' => Parsed (JObject []) r'
          | None => parse_members fuel' r []
          end
      | None, Some r =>
          match after 93 (skip_ws r) with
          | Some r' => Parsed (JArray []) r'
          | None => parse_elements fuel' r []
          end
      | None, None => scalar s
      end
  end
with parse_elements (fuel : nat) (s : string) (acc : list value) {struct fuel} : parsed value :=
  match fuel with
  | O => OutOfFuel
  | S fuel' =>
      match parse_value fuel' s with
      | Parsed v rest =>
          match after 44 (skip_ws rest), after 93 (skip_ws rest) with
          | Some r, _ => parse_elements fuel' r (acc ++ [v])
          | None, Some r => Parsed (JArray (acc ++ [v])) r
          | None, None => Malformed
          end
      | Malformed => Malformed
      | OutOfFuel => OutOfFuel
      end
  end
with parse_members (fuel : nat) (s : string) (acc : list (string * value)) {struct fuel} : parsed value :=
  match fuel with
  | O => OutOfFuel
  | S fuel' =>
      match after 34 (skip_ws s) with
      | Some r =>
          match string_literal r with
          | Parsed k rest =>
              match after 58 (skip_ws rest) with
              | Some r1 =>
                  match parse_value fuel' r1 with
                  | Parsed v rest1 =>
                      match after 44 (skip_ws rest1), after 125 (skip_ws rest1) with
                      | Some r2, _ => parse_members fuel' r2 (define k v acc)
                      | None, Some r2 => Parsed (JObject (define k v acc)) r2
                      | None, None => Malformed
                      end
                  | Malformed => Malformed
                  | OutOfFuel => OutOfFuel
                  end
              | None => Malformed
              end
          | Malformed => Malformed
          | OutOfFuel => OutOfFuel
          end
      | None => Malformed
      end
  end.

(** [JSON.parse(text)]: [None] is the [SyntaxError] it throws.  The fuel is
    enough for every text (see [parse_value_fuel]). *)
Definition parse (text : string) : option value :=
  match parse_value (2 * String.length text + 1) text with
  | Parsed v rest => if String.eqb (skip_ws rest) "" then Some v else None
  | _ => None
  end.

End Json.

(** ** Platform primitives: exceptions *)

Inductive exn :=
| TypeError (message : string)
| RangeError (message : string)
| SyntaxError (message : string)
| Error (message : string).

(** ** Platform primitives: [crypto] *)

Module Crypto.

Definition bytes := list Z.

Definition bytes_of_string (s : string) : bytes :=
  map Js.byte_of (list_ascii_of_string s).

Definition w32 (x : Z) : Z := x mod 4294967296.
Definition add32 (x y : Z) : Z := w32 (x + y).
Definition rotr (n x : Z) : Z := w32 (Z.lor (Z.shiftr x n) (Z.shiftl x (32 - n))).
Definition not32 (x : Z) : Z := Z.lxor x 4294967295.

Definition Ch (x y z : Z) : Z := Z.lxor (Z.land x y) (Z.land (not32 x) z).
Definition Maj (x y z : Z) : Z := Z.lxor (Z.lxor (Z.land x y) (Z.land x z)) (Z.land y z).
Definition Sigma0 (x : Z) : Z := Z.lxor (Z.lxor (rotr 2 x) (rotr 13 x)) (rotr 22 x).
Definition Sigma1 (x : Z) : Z := Z.lxor (Z.lxor (rotr 6 x) (rotr 11 x)) (rotr 25 x).
Definition sigma0 (x : Z) : Z := Z.lxor (Z.lxor (rotr 7 x) (rotr 18 x)) (Z.shiftr x 3).
Definition sigma1 (x : Z) : Z := Z.lxor (Z.lxor (rotr 17 x) (rotr 19 x)) (Z.shiftr x 10).

(** The round constants are the first thirty-two bits of the fractional
    parts of the cube roots of the first sixty-four primes; the initial hash
    value takes the square roots of the first eight. *)
Definition primes : list Z :=
  [ 2; 3; 5; 7; 11; 13; 17; 19; 23; 29; 31; 37; 41; 43; 47; 53;
    59; 61; 67; 71; 73; 79; 83; 89; 97; 101; 103; 107; 109; 113; 127; 131;
    137; 139; 149; 151; 157; 163; 167; 173; 179; 181; 191; 193; 197; 199; 211; 223;
    227; 229; 233; 239; 241; 251; 257; 263; 269; 271; 277; 281; 283; 293; 307; 311 ].

(** The integer cube root, one bit at a time from bit [bits - 1] down. *)
Fixpoint cube_root (bits : nat) (n acc : Z) : Z :=
  match bits with
  | O => acc
  | S b =>
      let c := acc + 2 ^ Z.of_nat b in
      cube_root b n (if c * c * c <=? n then c else acc)
  end.

Definition K : list Z :=
  map (fun p => w32 (cube_root 40 (p * 2 ^ 96) 0)) primes.

Definition H0 : list Z :=
  map (fun p => w32 (Z.sqrt (p * 2 ^ 64))) (firstn 8 primes).

(** Padding: a [0x80] byte, zeros up to 56 modulo 64, the bit length on
    eight bytes. *)
Definition be_bytes (width : nat) (x : Z) : bytes :=
  map (fun i => (x / 256 ^ Z.of_nat i) mod 256) (rev (seq 0 width)).

Definition pad (msg : bytes) : bytes :=
  let len := Z.of_nat (List.length msg) in
  let zeros := (55 - len) mod 64 in
  (msg ++ [128] ++ repeat 0 (Z.to_nat zeros) ++ be_bytes 8 (8 * len))%list.

Fixpoint words (fuel : nat) (bs : bytes) : list Z :=
  match fuel, bs with
  | S fuel', a :: b :: c :: d :: rest =>
      (((a * 256 + b) * 256 + c) * 256 + d) :: words fuel' rest
  | _, _ => []
  end.

(** The message schedule, most recent word first. *)
Fixpoint schedule (n : nat) (recent : list Z) : list Z :=
  match n with
  | O => recent
  | S n' =>
      let w := add32 (add32 (sigma1 (nth 1 recent 0)) (nth 6 recent 0))
                     (add32 (sigma0 (nth 14 recent 0)) (nth 15 recent 0)) in
      schedule n' (w :: recent)
  end.

Definition round (st : list Z) (kw : Z * Z) : list Z :=
  match st with
  | [a; b; c; d; e; f; g; h] =>
      let t1 := add32 (add32 (add32 h (Sigma1 e)) (add32 (Ch e f g) (fst kw))) (snd kw) in
      let t2 := add32 (Sigma0 a) (Maj a b c) in
      [add32 t1 t2; a; b; c; add32 d t1; e; f; g]
  | _ => st
  end.

Definition compress (h : list Z) (block : list Z) : list Z :=
  let w := rev (schedule 48 (rev block)) in
  let st := fold_left round (combine K w) h in
  map (fun p => add32 (fst p) (snd p)) (combine h st).

Fixpoint blocks (fuel : nat) (ws : list Z) (h : list Z) : list Z :=
  match fuel, ws with
  | S fuel', _ :: _ => blocks fuel' (skipn 16 ws) (compress h (firstn 16 ws))
  | _, _ => h
  end.

Definition sha256 (msg : bytes) : bytes :=
  let padded := pad msg in
  let ws := words (List.length padded) padded in
  flat_map (be_bytes 4) (blocks (List.length ws) ws H0).

Definition hmac_sha256 (key msg : bytes) : bytes :=
  let k := if 64 <? Z.of_nat (List.length key) then sha256 key else key in
  let k := (k ++ repeat 0 (64 - List.length k))%list in
  sha256 (map (Z.lxor 0x5c) k ++ sha256 (map (Z.lxor 0x36) k ++ msg))%list.

Definition hex (bs : bytes) : string :=
  String.concat "" (map (fun b => Json.hex_digit (b / 16) ++ Json.hex_digit (b mod 16)) bs).

(** [crypto.createHmac('sha256', secret).update(payload, 'utf8').digest('hex')];
    [update] throws when its argument is [undefined]. *)
Definition createHmac_update_digest (secret : string) (payload : option string) : exn + string :=
  match payload with
  | None => inl (TypeError ("The " ++ Js.dq ++ "data" ++ Js.dq ++ " argument must be of type string or an instance of Buffer, TypedArray, or DataView. Received undefined"))
  | Some p => inr (hex (hmac_sha256 (bytes_of_string secret) (bytes_of_string p)))
  end.

(** [crypto.timingSafeEqual(Buffer.from(a), Buffer.from(b))]: buffers of
    different byte lengths raise a [RangeError]. *)
Definition timingSafeEqual (a b : string) : exn + bool :=
  if Nat.eqb (String.length a) (String.length b)
  then inr (String.eqb a b)
  else inl (RangeError "Input buffers must have the same byte length").

End Crypto.

(** ** Process environment *)

Record Env := {
  GITHUB_WEBHOOK_SECRET : option string;
  MAX_FILES_TO_REVIEW : option string;
  MAX_LINES_PER_FILE : option string;
  REVIEW_TIMEOUT_MS : option string;
  OPENAI_API_KEY : option string;
  ANTHROPIC_API_KEY : option string
}.

Definition empty_env : Env :=
  {| GITHUB_WEBHOOK_SECRET := None; MAX_FILES_TO_REVIEW := None;
     MAX_LINES_PER_FILE := None; REVIEW_TIMEOUT_MS := None;
     OPENAI_API_KEY := None; ANTHROPIC_API_KEY := None |}.

(** ** Data model *)

(** A file of a pull request, as the repository service lists it. *)
Record ChangedFile := {
  filename : string;
  status : string;
  additions : Z;
  deletions : Z;
  changes : Z;
  patch : option string;
  binary : bool
}.

(** A review comment produced by the analysis.  [line], [body] and
    [suggestion] are copied from the decoded comment and may be [undefined]
    ([None]). *)
Record Finding := {
  path : string;
  line : option Json.value;
  body : option Json.value;
  severity : Json.value;
  category : Json.value;
  suggestion : option Json.value
}.

(** The pull-request webhook payload, with the fields the handlers read. *)
Record User := { login : string; user_type : string }.
Record PullRequest := {
  number : Z;
  title : string;
  pr_body : option string;
  draft : bool;
  user : User
}.
Record Repository := { full_name : string; owner_login : string; name : string }.
Record Payload := {
  action : string;
  pull_request : PullRequest;
  repository : Repository
}.
Record Metadata := { delivery : option string; signature : option string }.

(** The [context] object [PullRequestHandler.handle] gives to the analysis. *)
Record Context := {
  ctx_repository : string;
  ctx_pr_number : Z;
  ctx_pr_title : string;
  ctx_pr_description : option string
}.

(** The object built by [buildAnalysisPrompt]. *)
Record Prompt := {
  prompt_filename : string;
  language : string;
  prompt_status : string;
  prompt_additions : Z;
  prompt_deletions : Z;
  content : option string;
  prompt_patch : option string;
  isNewFile : bool;
  prompt_repository : string;
  prompt_pr_title : string;
  prompt_pr_description : option string
}.

Inductive provider := openai | anthropic | mock.

(** ** Effects

    A computation reads the world (the environment and the remote
    collaborators), appends to the trace of observable events, and returns a
    value or throws.  [await] is sequencing: within one run the code is
    sequential. *)

Inductive level := debug | info | warn | error.

Inductive event :=
| Log (lvl : level) (msg : string)
| ListFiles (owner repo : string) (pull_number : Z)
| GetContent (owner : string) (repo : option string) (file_path ref : string)
| Post (pr : provider) (prompt : Prompt)
| Timer (ms : Z)
| PostReviewComments (owner repo : string) (pull_number : Z) (comments : list Finding).

Definition trace := list event.

(** What [octokit.repos.getContent] answers: the entry type and its text,
    already decoded from base64. *)
Record ContentData := { data_type : string; data_content : string }.

(** The remote collaborators.  Each answer may depend on everything that
    happened before. *)
Record World := {
  process_env : Env;
  octokit_listFiles : trace -> string -> string -> Z -> exn + list ChangedFile;
  octokit_getContent : trace -> string -> option string -> string -> string -> exn + ContentData;
  openai_completion : trace -> Prompt -> exn + string;
  anthropic_message : trace -> Prompt -> exn + string;
  reviewComment_post : trace -> string -> string -> Z -> list Finding -> exn + unit
}.

Definition M (A : Type) : Type := World -> trace -> (exn + A) * trace.

Definition ret {A : Type} (x : A) : M A := fun _ tr => (inr x, tr).

Definition bind {A B : Type} (m : M A) (k : A -> M B) : M B :=
  fun w tr =>
    match m w tr with
    | (inr x, tr') => k x w tr'
    | (inl e, tr') => (inl e, tr')
    end.

Definition throw {A : Type} (e : exn) : M A := fun _ tr => (inl e, tr).

(** [try { m } catch (error) { h error }] *)
Definition try_catch {A : Type} (m : M A) (h : exn -> M A) : M A :=
  fun w tr =>
    match m w tr with
    | (inr x, tr') => (inr x, tr')
    | (inl e, tr') => h e w tr'
    end.

Definition emit (ev : event) : M unit := fun _ tr => (inr tt, (tr ++ [ev])%list).

(** [logger.<level>(message, meta)]; the trace keeps the level and the message. *)
Definition log (lvl : level) (msg : string) : M unit := emit (Log lvl msg).

Definition env : M Env := fun w tr => (inr (process_env w), tr).

(** A remote call: the event is recorded, then the world answers. *)
Definition remote {A : Type} (ev : event) (answer : World -> trace -> exn + A) : M A :=
  fun w tr => (answer w tr, (tr ++ [ev])%list).

Definition lift {A : Type} (r : exn + A) : M A :=
  match r with
  | inr x => ret x
  | inl e => throw e
  end.

Declare Scope monad_scope.
Delimit Scope monad_scope with monad.
Notation "x <- m ;; k" := (bind m (fun x => k))
  (at level 61, m at next level, right associativity) : monad_scope.
Notation "m ;; k" := (bind m (fun _ => k))
  (at level 61, right associativity) : monad_scope.
Open Scope monad_scope.

(** ** [services/githubService.js] *)

Module GitHubService.

Definition getPullRequestFiles (owner repo : string) (pullNumber : Z) : M (list ChangedFile) :=
  try_catch
    (log debug "Fetching PR files" ;;
     files <- remote (ListFiles owner repo pullNumber)
                (fun w tr => octokit_listFiles w tr owner repo pullNumber) ;;
     log debug "Fetched PR files" ;;
     ret files)
    (fun e => log error "Failed to fetch PR files" ;; throw e).

Definition getFileContent (owner : string) (repo : option string) (file_path ref : string) : M string :=
  try_catch
    (log debug "Fetching file content" ;;
     data <- remote (GetContent owner repo file_path ref)
               (fun w tr => octokit_getContent w tr owner repo file_path ref) ;;
     if negb (String.eqb (data_type data) "file")
     then throw (Error ("Path " ++ file_path ++ " is not a file"))
     else
       log debug "Fetched file content" ;;
       ret (data_content data))
    (fun e => log error "Failed to fetch file content" ;; throw e).

End GitHubService.

(** ** The comment publisher *)

Module ReviewCommentService.

(** Modelled from the spec: [services/reviewCommentService.js] is not among
    the sources.  Section 4.3 has the pipeline invoke the comment-publishing
    collaborator once with the full batch; section 6 makes it a fallible
    remote call without retry. *)
Definition postReviewComments (owner repo : string) (pullNumber : Z) (results : list Finding) : M unit :=
  remote (PostReviewComments owner repo pullNumber results)
    (fun w tr => reviewComment_post w tr owner repo pullNumber results).

End ReviewCommentService.

(** ** [services/aiService.js] *)

Module AIService.

Definition nonempty (v : option string) : bool :=
  match v with
  | Some s => negb (String.eqb s "")
  | None => false
  end.

Definition detectProvider (e : Env) : provider :=
  if nonempty (OPENAI_API_KEY e) then openai
  else if nonempty (ANTHROPIC_API_KEY e) then anthropic
  else mock.

(** [axios.post] to the chat-completions endpoint, then
    [response.data.choices[0].message.content]; the world answers with that
    text, or with the error of the call (a timeout included).  The request
    is recorded by the prompt object it is built from; the wording of the
    system and user prompts is not part of the model. *)
Definition analyzeWithOpenAI (prompt : Prompt) : M string :=
  remote (Post openai prompt) (fun w tr => openai_completion w tr prompt).

Definition analyzeWithAnthropic (prompt : Prompt) : M string :=
  remote (Post anthropic prompt) (fun w tr => anthropic_message w tr prompt).

Definition mockComment : Json.value :=
  Json.JObject
    [ ("line", Json.JNumber (Json.double_of_Z 10));
      ("body", Json.JString "ðŸ¤– **Mock Review Comment**\n\nThis is a mock review comment for testing purposes. In a real implementation, this would contain AI-generated feedback about the code.");
      ("severity", Json.JString "info");
      ("category", Json.JString "general");
      ("suggestion", Json.JString "This is a mock suggestion for improvement.") ].

Definition analyzeWithMock (prompt : Prompt) : M string :=
  log info "Using mock AI response" ;;
  emit (Timer 1000) ;;
  ret (Json.stringify (Json.JObject [("comments", Json.JArray [mockComment])])).

(** The constructor fixes [this.provider] from the environment once; the
    environment does not change during a run, so reading it here gives the
    same provider. *)
Definition analyzeCode (prompt : Prompt) : M string :=
  e <- env ;;
  log debug "Starting AI code analysis" ;;
  try_catch
    (response <- match detectProvider e with
                 | openai => analyzeWithOpenAI prompt
                 | anthropic => analyzeWithAnthropic prompt
                 | mock => analyzeWithMock prompt
                 end ;;
     log debug "AI analysis completed" ;;
     ret response)
    (fun err => log error "AI analysis failed" ;; throw err).

End AIService.

(** ** [services/codeAnalysisService.js] *)

Module CodeAnalysisService.

Record FileData := {
  fd_content : option string;
  fd_patch : option string;
  fd_isNewFile : bool
}.

Definition getFileExtension (filename : string) : string :=
  let lastDot := Js.lastIndexOf "." filename in
  if lastDot =? -1 then "" else Js.toLowerCase (Js.substring_from lastDot filename).

Definition binaryExtensions : list string :=
  [ ".png"; ".jpg"; ".jpeg"; ".gif"; ".bmp"; ".ico";
    ".pdf"; ".zip"; ".tar"; ".gz"; ".rar";
    ".exe"; ".dll"; ".so"; ".dylib";
    ".woff"; ".woff2"; ".ttf"; ".eot" ].

Definition isBinaryFile (file : ChangedFile) : bool :=
  let extension := getFileExtension (filename file) in
  Js.array_includes extension binaryExtensions || binary file.

Definition languageMap : list (string * string) :=
  [ (".js", "javascript"); (".jsx", "javascript");
    (".ts", "typescript"); (".tsx", "typescript");
    (".py", "python"); (".java", "java"); (".go", "go"); (".rs", "rust");
    (".php", "php"); (".rb", "ruby"); (".swift", "swift"); (".kt", "kotlin");
    (".c", "c"); (".cpp", "cpp"); (".h", "c"); (".hpp", "cpp");
    (".cs", "csharp"); (".scala", "scala"); (".clj", "clojure") ].

Definition getLanguageFromExtension (extension : string) : string :=
  match find (fun kv => String.eqb (fst kv) extension) languageMap with
  | Some (_, lang) => lang
  | None => "text"
  end.

(** [s.split('/')] *)
Fixpoint split_slash (s : string) (current : string) : list string :=
  match s with
  | EmptyString => [current]
  | String a r =>
      if Ascii.eqb a "/" then current :: split_slash r ""
      else split_slash r (current ++ String a "")
  end.

Definition getFileData (file : ChangedFile) (context : Context) : M (option FileData) :=
  try_catch
    (let parts := split_slash (ctx_repository context) "" in
     let owner := nth 0 parts "" in
     let repo := nth_error parts 1 in
     if String.eqb (status file) "added" then
       ret (Some {| fd_content := None; fd_patch := patch file; fd_isNewFile := true |})
     else
       content <- try_catch
                    (c <- GitHubService.getFileContent owner repo (filename file) "HEAD" ;;
                     ret (Some c))
                    (fun _ =>
                       log warn "Could not fetch file content, using patch only" ;;
                       ret None) ;;
       ret (Some {| fd_content := content; fd_patch := patch file; fd_isNewFile := false |}))
    (fun _ => log error "Failed to get file data" ;; ret None).

Definition buildAnalysisPrompt (file : ChangedFile) (fileData : FileData) (context : Context) : Prompt :=
  let fileExtension := getFileExtension (filename file) in
  let language := getLanguageFromExtension fileExtension in
  {| prompt_filename := filename file;
     language := language;
     prompt_status := status file;
     prompt_additions := additions file;
     prompt_deletions := deletions file;
     content := fd_content fileData;
     prompt_patch := fd_patch fileData;
     isNewFile := fd_isNewFile fileData;
     prompt_repository := ctx_repository context;
     prompt_pr_title := ctx_pr_title context;
     prompt_pr_description := ctx_pr_description context |}.

(** [value.key] for the keys the parser reads ([comments], [line], [body],
    [severity], [category], [suggestion]): an object answers with its own
    property, [null] throws, and no other value has such a property, own
    or inherited.  [None] is [undefined]. *)
Definition member (v : Json.value) (key : string) : exn + option Json.value :=
  match v with
  | Json.JNull =>
      inl (TypeError ("Cannot read properties of null (reading '" ++ key ++ "')"))
  | Json.JObject props => inr (Json.assoc key props)
  | _ => inr None
  end.

Definition truthy (v : option Json.value) : bool :=
  match v with
  | Some x => Json.truthy x
  | None => false
  end.

(** [v || dflt] *)
Definition or_default (v : option Json.value) (dflt : string) : Json.value :=
  match v with
  | Some x => if Json.truthy x then x else Json.JString dflt
  | None => Json.JString dflt
  end.

Definition isArray (v : option Json.value) : bool :=
  match v with
  | Some x => Json.isArray x
  | None => false
  end.

(** The callback of [parsed.comments.map]. *)
Definition toFinding (file : ChangedFile) (comment : Json.value) : exn + Finding :=
  match member comment "line" with
  | inl e => inl e
  | inr line =>
  match member comment "body" with
  | inl e => inl e
  | inr body =>
  match member comment "severity" with
  | inl e => inl e
  | inr severity =>
  match member comment "category" with
  | inl e => inl e
  | inr category =>
  match member comment "suggestion" with
  | inl e => inl e
  | inr suggestion =>
      inr {| path := filename file;
             line := line;
             body := body;
             severity := or_default severity "info";
             category := or_default category "general";
             suggestion := suggestion |}
  end end end end end.

(** [array.map(f)] for a callback that may throw. *)
Fixpoint map_throwing {A B : Type} (f : A -> exn + B) (l : list A) : exn + list B :=
  match l with
  | [] => inr []
  | x :: rest =>
      match f x with
      | inl e => inl e
      | inr y =>
          match map_throwing f rest with
          | inl e => inl e
          | inr ys => inr (y :: ys)
          end
      end
  end.

Definition JSON_parse (text : string) : exn + Json.value :=
  match Json.parse text with
  | Some v => inr v
  | None => inl (SyntaxError "Unexpected token in JSON")
  end.

Definition parseAIResponse (aiResponse : string) (file : ChangedFile) : M (list Finding) :=
  try_catch
    (parsed <- lift (JSON_parse aiResponse) ;;
     comments <- lift (member parsed "comments") ;;
     if negb (truthy comments) || negb (isArray comments) then
       log warn "Invalid AI response format" ;;
       ret []
     else
       match comments with
       | Some (Json.JArray items) => lift (map_throwing (toFinding file) items)
       | _ => ret []
       end)
    (fun _ => log error "Failed to parse AI response" ;; ret []).

Definition analyzeFile (file : ChangedFile) (context : Context) : M (list Finding) :=
  log debug "Analyzing file" ;;
  if isBinaryFile file then
    log debug "Skipping binary file" ;;
    ret []
  else
    fileData <- getFileData file context ;;
    match fileData with
    | None => ret []
    | Some fileData =>
        let analysisPrompt := buildAnalysisPrompt file fileData context in
        aiResponse <- AIService.analyzeCode analysisPrompt ;;
        comments <- parseAIResponse aiResponse file ;;
        log debug "File analysis completed" ;;
        ret comments
    end.

(** The body of [for (const file of files)], with [results] threaded. *)
Definition analyzeFiles_step (context : Context) (file : ChangedFile) (results : list Finding) : M (list Finding) :=
  try_catch
    (analysis <- analyzeFile file context ;;
     if 0 <? Z.of_nat (List.length analysis)
     then ret (results ++ analysis)%list
     else ret results)
    (fun _ => log error "Failed to analyze file" ;; ret results).

Fixpoint analyzeFiles_loop (context : Context) (files : list ChangedFile) (results : list Finding) : M (list Finding) :=
  match files with
  | [] => ret results
  | file :: rest =>
      results' <- analyzeFiles_step context file results ;;
      analyzeFiles_loop context rest results'
  end.

Definition analyzeFiles (files : list ChangedFile) (context : Context) : M (list Finding) :=
  log info "Starting code analysis" ;;
  results <- analyzeFiles_loop context files [] ;;
  log info "Code analysis completed" ;;
  ret results.

End CodeAnalysisService.

(** ** [services/pullRequestHandler.js] *)

Module PullRequestHandler.

(** The literal regular expressions of [skipPatterns]. *)
Inductive pattern :=
| Anywhere (lit : string)
| AtEnd (lit : string).

Definition test (p : pattern) (s : string) : bool :=
  match p with
  | Anywhere lit => Js.includes lit s
  | AtEnd lit => Js.endsWith lit s
  end.

Definition maxFiles (e : Env) : Z := Js.parseInt_or (MAX_FILES_TO_REVIEW e) 20.
Definition maxLinesPerFile (e : Env) : Z := Js.parseInt_or (MAX_LINES_PER_FILE e) 1000.

Definition reviewableExtensions : list string :=
  [ ".js"; ".jsx"; ".ts"; ".tsx";
    ".py"; ".java"; ".go"; ".rs";
    ".php"; ".rb"; ".swift"; ".kt";
    ".c"; ".cpp"; ".h"; ".hpp";
    ".cs"; ".scala"; ".clj" ].

Definition skipPatterns : list pattern :=
  [ Anywhere "node_modules";
    Anywhere ".min.";
    Anywhere ".bundle.";
    AtEnd ".lock";
    AtEnd "package-lock.json";
    AtEnd "yarn.lock";
    AtEnd ".log";
    AtEnd ".md";
    AtEnd ".txt";
    AtEnd ".json";
    AtEnd ".xml";
    AtEnd ".yml";
    AtEnd ".yaml" ].

Definition hasReviewableExtension (file : ChangedFile) : bool :=
  Js.some (fun ext => Js.endsWith ext (Js.toLowerCase (filename file))) reviewableExtensions.

(** The callback given to [files.filter]: its result. *)
Definition keep (maxLines : Z) (file : ChangedFile) : bool :=
  if String.eqb (status file) "removed" then false
  else if Js.some (fun p => test p (filename file)) skipPatterns then false
  else if negb (hasReviewableExtension file) then false
  else if changes file >? maxLines then false
  else true.

(** The callback given to [files.filter]: whether it logs
    [Skipping large file]. *)
Definition tooLarge (maxLines : Z) (file : ChangedFile) : bool :=
  if String.eqb (status file) "removed" then false
  else if Js.some (fun p => test p (filename file)) skipPatterns then false
  else if negb (hasReviewableExtension file) then false
  else changes file >? maxLines.

Definition filterReviewableFiles (e : Env) (files : list ChangedFile) : list ChangedFile :=
  Js.slice 0 (maxFiles e) (filter (keep (maxLinesPerFile e)) files).

Fixpoint log_all (lvl : level) (msgs : list string) : M unit :=
  match msgs with
  | [] => ret tt
  | m :: rest => log lvl m ;; log_all lvl rest
  end.

(** [filterReviewableFiles] as [handle] runs it: the warnings, then the
    selection. *)
Definition filterReviewableFiles_logged (files : list ChangedFile) : M (list ChangedFile) :=
  e <- env ;;
  log_all warn (map (fun _ => "Skipping large file") (filter (tooLarge (maxLinesPerFile e)) files)) ;;
  ret (filterReviewableFiles e files).

Definition handle (payload : Payload) (metadata : Metadata) : M unit :=
  let pr := pull_request payload in
  let repository := repository payload in
  if negb (Js.array_includes (action payload) ["opened"; "synchronize"]) then
    log info ("Ignoring PR action: " ++ action payload) ;;
    ret tt
  else
    log info "Processing pull request" ;;
    try_catch
      (if draft pr then
         log info "Skipping draft PR" ;;
         ret tt
       else if String.eqb (user_type (user pr)) "Bot" then
         log info "Skipping bot PR" ;;
         ret tt
       else
         files <- GitHubService.getPullRequestFiles
                    (owner_login repository) (name repository) (number pr) ;;
         if Z.of_nat (List.length files) =? 0 then
           log info "No files to review" ;;
           ret tt
         else
           reviewableFiles <- filterReviewableFiles_logged files ;;
           if Z.of_nat (List.length reviewableFiles) =? 0 then
             log info "No reviewable files found" ;;
             ret tt
           else
             log info "Starting code analysis" ;;
             analysisResults <- CodeAnalysisService.analyzeFiles reviewableFiles
                                  {| ctx_repository := full_name repository;
                                     ctx_pr_number := number pr;
                                     ctx_pr_title := title pr;
                                     ctx_pr_description := pr_body pr |} ;;
             ReviewCommentService.postReviewComments
               (owner_login repository) (name repository) (number pr) analysisResults ;;
             log info "Pull request review completed" ;;
             ret tt)
      (fun e => log error "Failed to process pull request" ;; throw e).

End PullRequestHandler.

(** ** [services/webhookHandler.js] *)

Module WebhookHandler.

(** What [this.handlers[event]] can be. *)
Inductive slot :=
| Function (f : Payload -> Metadata -> M unit)
| NotCallable
| Undefined.

Definition handlePullRequestReview (payload : Payload) (metadata : Metadata) : M unit :=
  log info "Pull request review event received".

Definition handlePullRequestReviewComment (payload : Payload) (metadata : Metadata) : M unit :=
  log info "Pull request review comment event received".

(** Members that the table inherits from [Object.prototype], called as
    [handler(payload, metadata)] with no receiver: [constructor] and
    [toString] return; the others convert the missing receiver to an
    object and throw. *)
Definition returning_builtins : list string := [ "constructor"; "toString" ].

Definition throwing_builtins : list string :=
  [ "hasOwnProperty"; "isPrototypeOf"; "propertyIsEnumerable"; "toLocaleString";
    "valueOf"; "__defineGetter__"; "__defineSetter__"; "__lookupGetter__";
    "__lookupSetter__" ].

(** The table built by the constructor.  Under [pull_request] it holds
    [pullRequestHandler], the instance exported by [pullRequestHandler.js]:
    an object with a [handle] method, not a function.  The two other
    entries are bound methods. *)
Definition handlers (event : string) : slot :=
  if String.eqb event "pull_request" then NotCallable
  else if String.eqb event "pull_request_review" then Function handlePullRequestReview
  else if String.eqb event "pull_request_review_comment" then Function handlePullRequestReviewComment
  else if Js.array_includes event returning_builtins then Function (fun _ _ => ret tt)
  else if Js.array_includes event throwing_builtins then
    Function (fun _ _ => throw (TypeError "Cannot convert undefined or null to object"))
  else if String.eqb event "__proto__" then NotCallable
  else Undefined.

(** [`${event}`] *)
Definition show (event : option string) : string :=
  match event with
  | Some s => s
  | None => "undefined"
  end.

(** [handler(payload, metadata)] *)
Definition call (handler : slot) (payload : Payload) (metadata : Metadata) : M unit :=
  match handler with
  | Function f => f payload metadata
  | NotCallable | Undefined => throw (TypeError "handler is not a function")
  end.

Definition handle (event : option string) (payload : Payload) (metadata : Metadata) : M unit :=
  let handler := handlers (show event) in
  match handler with
  | Undefined =>
      log info ("No handler for event: " ++ show event) ;;
      ret tt
  | _ =>
      try_catch
        (call handler payload metadata ;;
         log info ("Successfully handled " ++ show event ++ " event"))
        (fun e =>
           log error ("Failed to handle " ++ show event ++ " event") ;;
           throw e)
  end.

End WebhookHandler.

(** ** The HTTP boundary *)

Record Request := {
  x_hub_signature_256 : option string;
  x_github_event : option string;
  x_github_delivery : option string;
  req_body : option Json.value
}.

Record Response := {
  statusCode : Z;
  json : list (string * option string)
}.

Inductive middleware_result :=
| Next
| Respond (res : Response).

(** ** [middleware/webhookAuth.js] *)

Module WebhookAuth.

(** [JSON.stringify(req.body)]; [undefined] stays [undefined]. *)
Definition JSON_stringify (body : option Json.value) : option string :=
  option_map Json.stringify body.

Definition validateWebhookSignature (req : Request) : M middleware_result :=
  e <- env ;;
  let signature := x_hub_signature_256 req in
  let payload := JSON_stringify (req_body req) in
  let secret := GITHUB_WEBHOOK_SECRET e in
  match secret with
  | None | Some "" =>
      log warn "Webhook secret not configured, skipping signature validation" ;;
      ret Next
  | Some secret =>
      match signature with
      | None | Some "" =>
          log error "Missing webhook signature" ;;
          ret (Respond {| statusCode := 401; json := [("error", Some "Missing signature")] |})
      | Some signature =>
          try_catch
            (digest <- lift (Crypto.createHmac_update_digest secret payload) ;;
             let expectedSignature := "sha256=" ++ digest in
             isValid <- lift (Crypto.timingSafeEqual signature expectedSignature) ;;
             if negb isValid then
               log error "Invalid webhook signature" ;;
               ret (Respond {| statusCode := 401; json := [("error", Some "Invalid signature")] |})
             else
               log debug "Webhook signature validated successfully" ;;
               ret Next)
            (fun _ =>
               log error "Signature validation error" ;;
               ret (Respond {| statusCode := 401;
                               json := [("error", Some "Signature validation failed")] |}))
      end
  end.

End WebhookAuth.

(** ** [index.js] and [routes/webhook.js] *)

Module Express.

(** [express.json()] on the raw body of a JSON request: an empty body
    gives the empty object; otherwise the text must start (after white
    space) with a brace or a bracket and be valid JSON.  [None] is the 400
    that the parser answers without calling the route. *)
Definition json_body (raw : string) : option Json.value :=
  if String.eqb raw "" then Some (Json.JObject [])
  else if Js.startsWith "{" (Json.skip_ws raw) || Js.startsWith "[" (Json.skip_ws raw)
       then Json.parse raw
       else None.

End Express.

Module WebhookRoute.

Definition text (v : option Json.value) : string :=
  match v with
  | Some (Json.JString s) => s
  | _ => ""
  end.

Definition field (v : option Json.value) (key : string) : option Json.value :=
  match v with
  | Some (Json.JObject props) => Json.assoc key props
  | _ => None
  end.

Definition integer (v : option Json.value) : Z :=
  match v with
  | Some (Json.JNumber (S754_finite s m e)) =>
      let z := if 0 <=? e then Zpos m * 2 ^ e else Zpos m / 2 ^ (- e) in
      if s then - z else z
  | _ => 0
  end.

(** The view of a delivered body that the handlers work on; it is exact
    for a body of the shape GitHub sends with a pull-request event. *)
Definition payload_of (body : Json.value) : Payload :=
  let b := Some body in
  let pr := field b "pull_request" in
  let repo := field b "repository" in
  {| action := text (field b "action");
     pull_request :=
       {| number := integer (field pr "number");
          title := text (field pr "title");
          pr_body := match field pr "body" with
                     | Some (Json.JString s) => Some s
                     | _ => None
                     end;
          draft := CodeAnalysisService.truthy (field pr "draft");
          user := {| login := text (field (field pr "user") "login");
                     user_type := text (field (field pr "user") "type") |} |};
     repository :=
       {| full_name := text (field repo "full_name");
          owner_login := text (field (field repo "owner") "login");
          name := text (field repo "name") |} |}.

(** The handler of [router.post('/github', validateWebhookSignature, ...)],
    after the middleware. *)
Definition route (req : Request) : M Response :=
  try_catch
    (let event := x_github_event req in
     let delivery := x_github_delivery req in
     body <- match req_body req with
             | Some b => ret b
             | None => throw (TypeError "Cannot read properties of undefined (reading 'action')")
             end ;;
     log info "Webhook received" ;;
     WebhookHandler.handle event (payload_of body)
       {| delivery := delivery; signature := x_hub_signature_256 req |} ;;
     ret {| statusCode := 200;
            json := [("message", Some "Webhook processed successfully"); ("delivery", delivery)] |})
    (fun _ =>
       log error "Webhook processing failed" ;;
       ret {| statusCode := 500;
              json := [("error", Some "Webhook processing failed");
                       ("delivery", x_github_delivery req)] |}).

(** [POST /webhook/github]: the middleware, then the route. *)
Definition post_github (req : Request) : M Response :=
  v <- WebhookAuth.validateWebhookSignature req ;;
  match v with
  | Respond res => ret res
  | Next => route req
  end.

End WebhookRoute.

(** ** Vocabulary of the properties *)

(** An order-preserving selection of elements. *)
Inductive subseq {A : Type} : list A -> list A -> Prop :=
| subseq_nil : subseq [] []
| subseq_skip x l1 l2 : subseq l1 l2 -> subseq l1 (x :: l2)
| subseq_take x l1 l2 : subseq l1 l2 -> subseq (x :: l1) (x :: l2).

(** What triage promises about its output [out] for the input [files]:
    no removed file, at most [maxFiles] entries, no file over the line
    limit, and the first [maxFiles] survivors of the filter in their
    original order. *)
Definition triage_postcondition (e : Env) (files out : list ChangedFile) : Prop :=
  Forall (fun f => status f <> "removed") out
  /\ Z.of_nat (List.length out) <= PullRequestHandler.maxFiles e
  /\ Forall (fun f => changes f <= PullRequestHandler.maxLinesPerFile e) out
  /\ subseq out files
  /\ out = firstn (Z.to_nat (PullRequestHandler.maxFiles e))
                 (filter (PullRequestHandler.keep (PullRequestHandler.maxLinesPerFile e)) files).

(** Selecting again from a selection changes nothing. *)
Definition triage_idempotent (e : Env) (files : list ChangedFile) : Prop :=
  PullRequestHandler.filterReviewableFiles e (PullRequestHandler.filterReviewableFiles e files)
  = PullRequestHandler.filterReviewableFiles e files.

(** The selection depends on the environment through the two limits only. *)
Definition triage_deterministic (e : Env) (files : list ChangedFile) : Prop :=
  forall e',
    PullRequestHandler.maxFiles e' = PullRequestHandler.maxFiles e ->
    PullRequestHandler.maxLinesPerFile e' = PullRequestHandler.maxLinesPerFile e ->
    PullRequestHandler.filterReviewableFiles e' files
    = PullRequestHandler.filterReviewableFiles e files.

(** The own property [key] of a decoded value; only objects have one. *)
Definition own (v : Json.value) (key : string) : option Json.value :=
  match v with
  | Json.JObject props => Json.assoc key props
  | _ => None
  end.

(** A backend text without a usable [comments] array: not JSON, or JSON
    without a [comments] key, or JSON whose [comments] is not an array. *)
Definition unusable_response (text : string) : Prop :=
  Json.parse text = None
  \/ (exists v, Json.parse text = Some v /\ own v "comments" = None)
  \/ (exists v c, Json.parse text = Some v /\ own v "comments" = Some c /\ Json.isArray c = false).

(** [x || dflt] on a property that may be absent. *)
Definition defaulted (x : option Json.value) (dflt : string) : Json.value :=
  match x with
  | Some v => if Json.truthy v then v else Json.JString dflt
  | None => Json.JString dflt
  end.

(** Finding [f] is the decoded comment [c] bound to [file]. *)
Definition renders (file : ChangedFile) (c : Json.value) (f : Finding) : Prop :=
  path f = filename file
  /\ line f = own c "line"
  /\ body f = own c "body"
  /\ severity f = defaulted (own c "severity") "info"
  /\ category f = defaulted (own c "category") "general"
  /\ suggestion f = own c "suggestion".

(** The parser returns one finding per element of the [comments] array of
    [text], whatever the elements are. *)
Definition returns_every_comment (text : string) (file : ChangedFile) : Prop :=
  forall props items w tr,
    Json.parse text = Some (Json.JObject props) ->
    Json.assoc "comments" props = Some (Json.JArray items) ->
    exists out tr',
      CodeAnalysisService.parseAIResponse text file w tr = (inr out, tr')
      /\ List.length out = List.length items.

(** The invocations of the text-generation backend recorded in a trace:
    [aiService.analyzeCode] announces each one. *)
Definition is_backend_call (ev : event) : bool :=
  match ev with
  | Log debug msg => String.eqb msg "Starting AI code analysis"
  | _ => false
  end.

Definition backend_calls (tr : trace) : nat := List.length (filter is_backend_call tr).

(** What each file of [files] contributes when the per-file analysis runs on
    them in order from the trace [tr], and the trace afterwards: a file
    whose analysis throws contributes nothing and leaves one error entry. *)
Fixpoint contributions (context : Context) (w : World) (files : list ChangedFile) (tr : trace)
    : list (list Finding) * trace :=
  match files with
  | [] => ([], tr)
  | file :: rest =>
      match CodeAnalysisService.analyzeFile file context w tr with
      | (inr found, tr1) =>
          let '(cs, tr2) := contributions context w rest tr1 in
          (found :: cs, tr2)
      | (inl _, tr1) =>
          let '(cs, tr2) :=
            contributions context w rest (tr1 ++ [Log error "Failed to analyze file"])%list in
          ([] :: cs, tr2)
      end
  end.

(** The signature computation or the comparison throws. *)
Definition signature_check_raises (secret signature : string) (payload : option string) : Prop :=
  match Crypto.createHmac_update_digest secret payload with
  | inl _ => True
  | inr digest => exists e, Crypto.timingSafeEqual signature ("sha256=" ++ digest) = inl e
  end.

(** ["sha256=" + hex(HMAC-SHA256(secret, text))] *)
Definition sign (secret text : string) : string :=
  "sha256=" ++ Crypto.hex (Crypto.hmac_sha256 (Crypto.bytes_of_string secret)
                                               (Crypto.bytes_of_string text)).

Definition unauthorized (reason : string) : Response :=
  {| statusCode := 401; json := [("error", Some reason)] |}.

(** The verifier answers 401 with [reason] and logs [entry]. *)
Definition rejected (reason : string) (entry : string) (tr : trace)
    : (exn + middleware_result) * trace :=
  (inr (Respond (unauthorized reason)), (tr ++ [Log error entry])%list).

Definition is_fetch (ev : event) : bool :=
  match ev with ListFiles _ _ _ => true | _ => false end.

Definition is_publication (ev : event) : bool :=
  match ev with PostReviewComments _ _ _ _ => true | _ => false end.

Definition fetches (tr : trace) : nat := List.length (filter is_fetch tr).
Definition publications (tr : trace) : nat := List.length (filter is_publication tr).

(** ** Sample data *)

Module Sample.

Definition file (name st : string) (added removed : Z) : ChangedFile :=
  {| filename := name; status := st; additions := added; deletions := removed;
     changes := added + removed; patch := Some "@@ -1 +1 @@"; binary := false |}.

Definition app_js : ChangedFile := file "app.js" "added" 12 0.
Definition main_py : ChangedFile := file "main.py" "modified" 3 1.
Definition util_go : ChangedFile := file "util.go" "modified" 5 5.
Definition readme_md : ChangedFile := file "README.md" "modified" 2 0.
Definition old_js : ChangedFile := file "old.js" "removed" 0 40.
Definition huge_ts : ChangedFile := file "huge.ts" "modified" 900 200.
Definition logo_png : ChangedFile := file "assets/Logo.PNG" "added" 0 0.

(** [MAX_FILES_TO_REVIEW=-1] *)
Definition env_negative_limit : Env :=
  {| GITHUB_WEBHOOK_SECRET := None; MAX_FILES_TO_REVIEW := Some "-1";
     MAX_LINES_PER_FILE := None; REVIEW_TIMEOUT_MS := None;
     OPENAI_API_KEY := None; ANTHROPIC_API_KEY := None |}.

(** A world with the environment [e] where the repository lists [files],
    serves [text] as every file content, and the configured backend answers
    a prompt with [answer]. *)
Definition world (e : Env) (files : list ChangedFile) (text : string)
    (answer : Prompt -> exn + string) : World :=
  {| process_env := e;
     octokit_listFiles := fun _ _ _ _ => inr files;
     octokit_getContent := fun _ _ _ _ _ => inr {| data_type := "file"; data_content := text |};
     openai_completion := fun _ p => answer p;
     anthropic_message := fun _ p => answer p;
     reviewComment_post := fun _ _ _ _ _ => inr tt |}.

Definition quiet_world : World :=
  world empty_env [] "" (fun _ => inl (Error "no backend")).

(** [{"comments":[null]}] *)
Definition comments_null : string :=
  "{" ++ Js.dq ++ "comments" ++ Js.dq ++ ":[null]}".

(** [{"comments":"none"}] *)
Definition comments_text : string :=
  "{" ++ Js.dq ++ "comments" ++ Js.dq ++ ":" ++ Js.dq ++ "none" ++ Js.dq ++ "}".

(** [{"findings":[]}] *)
Definition no_comments_key : string :=
  "{" ++ Js.dq ++ "findings" ++ Js.dq ++ ":[]}".

(** [{"comments":[{"line":3,"body":"unused variable","severity":"warning"}]}] *)
Definition one_comment : string :=
  "{" ++ Js.dq ++ "comments" ++ Js.dq ++ ":[{" ++ Js.dq ++ "line" ++ Js.dq ++ ":3,"
  ++ Js.dq ++ "body" ++ Js.dq ++ ":" ++ Js.dq ++ "unused variable" ++ Js.dq ++ ","
  ++ Js.dq ++ "severity" ++ Js.dq ++ ":" ++ Js.dq ++ "warning" ++ Js.dq ++ "}]}".

(** Six comments, more than the backends are told to give:
    [{"comments":[{"line":1},{"line":2,"severity":"error"},{"severity":""},7,"x",[]]}] *)
Definition six_comments : string :=
  "{" ++ Js.dq ++ "comments" ++ Js.dq ++ ":[{" ++ Js.dq ++ "line" ++ Js.dq ++ ":1},{"
  ++ Js.dq ++ "line" ++ Js.dq ++ ":2," ++ Js.dq ++ "severity" ++ Js.dq ++ ":"
  ++ Js.dq ++ "error" ++ Js.dq ++ "},{" ++ Js.dq ++ "severity" ++ Js.dq ++ ":"
  ++ Js.dq ++ Js.dq ++ "},7," ++ Js.dq ++ "x" ++ Js.dq ++ ",[]]}".

(** What [six_comments] decodes to. *)
Definition six_items : list Json.value :=
  [ Json.JObject [("line", Json.JNumber (Json.double_of_Z 1))];
    Json.JObject [("line", Json.JNumber (Json.double_of_Z 2)); ("severity", Json.JString "error")];
    Json.JObject [("severity", Json.JString "")];
    Json.JNumber (Json.double_of_Z 7);
    Json.JString "x";
    Json.JArray [] ].

Definition context : Context :=
  {| ctx_repository := "octo/demo"; ctx_pr_number := 7;
     ctx_pr_title := "Add app"; ctx_pr_description := None |}.

(** [OPENAI_API_KEY] is set. *)
Definition env_openai : Env :=
  {| GITHUB_WEBHOOK_SECRET := None; MAX_FILES_TO_REVIEW := None;
     MAX_LINES_PER_FILE := None; REVIEW_TIMEOUT_MS := None;
     OPENAI_API_KEY := Some "sk-test"; ANTHROPIC_API_KEY := None |}.

(** The backend times out on [main.py] and answers [one_comment] otherwise. *)
Definition world_timeout_main_py : World :=
  world env_openai [main_py; app_js] "print(1)"
    (fun p => if String.eqb (prompt_filename p) "main.py"
              then inl (Error "timeout of 30000ms exceeded")
              else inr one_comment).

(** [GITHUB_WEBHOOK_SECRET=s3cr3t] *)
Definition env_secret : Env :=
  {| GITHUB_WEBHOOK_SECRET := Some "s3cr3t"; MAX_FILES_TO_REVIEW := None;
     MAX_LINES_PER_FILE := None; REVIEW_TIMEOUT_MS := None;
     OPENAI_API_KEY := None; ANTHROPIC_API_KEY := None |}.

Definition world_secret : World :=
  world env_secret [app_js] "" (fun _ => inr one_comment).

(** The raw body [{"action": "opened"}], with a space after the colon. *)
Definition raw_opened : string :=
  "{" ++ Js.dq ++ "action" ++ Js.dq ++ ": " ++ Js.dq ++ "opened" ++ Js.dq ++ "}".

(** A delivery of [raw] whose signature header is the HMAC of [raw] under
    [secret]. *)
Definition signed_delivery (secret raw : string) : Request :=
  {| x_hub_signature_256 := Some (sign secret raw);
     x_github_event := Some "pull_request";
     x_github_delivery := Some "72d3162e-cc78-11e3-81ab-4c9367dc0958";
     req_body := Express.json_body raw |}.

(** A delivery whose signature header is shorter than any digest. *)
Definition short_signature : Request :=
  {| x_hub_signature_256 := Some "sha256=abc";
     x_github_event := Some "pull_request";
     x_github_delivery := None;
     req_body := Some (Json.JObject []) |}.

(** A delivery without a body and with a malformed signature header. *)
Definition unsigned : Request :=
  {| x_hub_signature_256 := Some "not-a-signature";
     x_github_event := Some "pull_request";
     x_github_delivery := None;
     req_body := None |}.

(** Scenario A: [opened], not a draft, a human author. *)
Definition scenario_A : Payload :=
  {| action := "opened";
     pull_request := {| number := 7; title := "Add app"; pr_body := None; draft := false;
                        user := {| login := "alice"; user_type := "User" |} |};
     repository := {| full_name := "octo/demo"; owner_login := "octo"; name := "demo" |} |}.

(** The decoded body of the Scenario A delivery. *)
Definition body_A : Json.value :=
  Json.JObject
    [ ("action", Json.JString "opened");
      ("pull_request",
       Json.JObject
         [ ("number", Json.JNumber (Json.double_of_Z 7));
           ("title", Json.JString "Add app");
           ("body", Json.JNull);
           ("draft", Json.JBool false);
           ("user", Json.JObject [("login", Json.JString "alice"); ("type", Json.JString "User")]) ]);
      ("repository",
       Json.JObject
         [ ("full_name", Json.JString "octo/demo");
           ("owner", Json.JObject [("login", Json.JString "octo")]);
           ("name", Json.JString "demo") ]) ].

Definition delivery_A : Request :=
  {| x_hub_signature_256 := None;
     x_github_event := Some "pull_request";
     x_github_delivery := Some "72d3162e-cc78-11e3-81ab-4c9367dc0958";
     req_body := Some body_A |}.

Definition metadata : Metadata :=
  {| delivery := Some "72d3162e-cc78-11e3-81ab-4c9367dc0958"; signature := None |}.

(** No backend key is configured (the mock answers); the repository lists
    [app.js]. *)
Definition world_A : World :=
  world empty_env [app_js] "" (fun _ => inl (Error "no backend")).

End Sample.

(** ** Bookkeeping of effects *)

(** The events of a trace that satisfy [p]. *)
Definition count (p : event -> bool) (tr : trace) : nat := List.length (filter p tr).

(** Whatever the world answers and whether it returns or throws, [m] only
    appends to the trace, and exactly [k] of the appended events satisfy [p]. *)
Inductive adds {A : Type} (p : event -> bool) (m : M A) (k : nat) : Prop :=
| adds_intro :
    (forall w tr, exists evs, snd (m w tr) = (tr ++ evs)%list /\ count p evs = k) ->
    adds p m k.

Inductive never_throws {A : Type} (m : M A) : Prop :=
| never_throws_intro : (forall w tr, exists x, fst (m w tr) = inr x) -> never_throws m.

Definition is_content_request (ev : event) : bool :=
  match ev with GetContent _ _ _ _ => true | _ => false end.

Definition is_post (ev : event) : bool :=
  match ev with Post _ _ => true | _ => false end.

Definition is_log (ev : event) : bool :=
  match ev with Log _ _ => true | _ => false end.

Definition analysed (file : ChangedFile) : bool :=
  negb (CodeAnalysisService.isBinaryFile file).


(** The repository that [getFileData] asks for: [context.repository] split
    at its slashes, the first piece as owner and the second, when there is
    one, as name. *)
Definition content_owner (context : Context) : string :=
  nth 0 (CodeAnalysisService.split_slash (ctx_repository context) "") "".

Definition content_repo (context : Context) : option string :=
  nth_error (CodeAnalysisService.split_slash (ctx_repository context) "") 1.

Definition content_request (file : ChangedFile) (context : Context) : event :=
  GetContent (content_owner context) (content_repo context) (filename file) "HEAD".

(** What a content request made from the trace [tr] yields to the analysis:
    the text of a file, and nothing when the call fails or when the entry
    is not a file. *)
Definition content_answer (w : World) (tr : trace) (file : ChangedFile) (context : Context)
    : option string :=
  match octokit_getContent w (tr ++ [Log debug "Fetching file content"])%list
          (content_owner context) (content_repo context) (filename file) "HEAD" with
  | inr data => if String.eqb (data_type data) "file" then Some (data_content data) else None
  | inl _ => None
  end.

(** A finding as the parser always makes it: bound to [file], with a truthy
    severity and a truthy category. *)
Definition well_formed (file : ChangedFile) (f : Finding) : Prop :=
  path f = filename file
  /\ Json.truthy (severity f) = true
  /\ Json.truthy (category f) = true.


(** The gates of the pipeline are open: the action is [opened] or
    [synchronize], the pull request is not a draft, its author is not a
    [Bot]. *)
Definition gates_open (payload : Payload) : bool :=
  Js.array_includes (action payload) ["opened"; "synchronize"]
  && negb (draft (pull_request payload))
  && negb (String.eqb (user_type (user (pull_request payload))) "Bot").

(** What the repository answers when the pipeline, started from the trace
    [tr], lists the files of the pull request. *)
Definition listing (w : World) (tr : trace) (payload : Payload) : exn + list ChangedFile :=
  octokit_listFiles w
    (tr ++ [Log info "Processing pull request"; Log debug "Fetching PR files"])%list
    (owner_login (repository payload)) (name (repository payload))
    (number (pull_request payload)).

Definition list_request (payload : Payload) : event :=
  ListFiles (owner_login (repository payload)) (name (repository payload))
            (number (pull_request payload)).

(** The context that the pipeline gives to the analysis. *)
Definition context_of (payload : Payload) : Context :=
  {| ctx_repository := full_name (repository payload);
     ctx_pr_number := number (pull_request payload);
     ctx_pr_title := title (pull_request payload);
     ctx_pr_description := pr_body (pull_request payload) |}.

(** The warnings of triage: one for each file that only its size excludes. *)
Definition size_warnings (e : Env) (files : list ChangedFile) : trace :=
  map (fun _ => Log warn "Skipping large file")
      (filter (PullRequestHandler.tooLarge (PullRequestHandler.maxLinesPerFile e)) files).

(** The trace when the analysis of the triaged files begins. *)
Definition analysis_start (w : World) (tr : trace) (payload : Payload) (files : list ChangedFile)
    : trace :=
  (tr ++ [Log info "Processing pull request"; Log debug "Fetching PR files";
          list_request payload; Log debug "Fetched PR files"]
      ++ size_warnings (process_env w) files
      ++ [Log info "Starting code analysis"; Log info "Starting code analysis"])%list.

Definition publication (payload : Payload) (batch : list Finding) : event :=
  PostReviewComments (owner_login (repository payload)) (name (repository payload))
                     (number (pull_request payload)) batch.


(** The event names on which the dispatcher throws: [pull_request], whose
    entry is not a function, and the members inherited from
    [Object.prototype] that cannot be called without a receiver. *)
Definition raising_events : list string :=
  "pull_request" :: "__proto__" :: WebhookHandler.throwing_builtins.

(** Every name under which the table of handlers answers. *)
Definition answering_events : list string :=
  ("pull_request_review" :: "pull_request_review_comment"
   :: WebhookHandler.returning_builtins ++ raising_events)%list.

(** No dot occurs in [s]. *)
Fixpoint dotless (s : string) : bool :=
  match s with
  | EmptyString => true
  | String a r => negb (Ascii.eqb a ".") && dotless r
  end.

(** The language that the prompt of [file] names. *)
Definition language_of (file : ChangedFile) : string :=
  CodeAnalysisService.getLanguageFromExtension
    (CodeAnalysisService.getFileExtension (filename file)).

(** What the backend that the environment selects answers to [prompt] when
    it is asked from the trace [tr]. *)
Definition backend_answer (w : World) (tr : trace) (prompt : Prompt) : exn + string :=
  match AIService.detectProvider (process_env w) with
  | openai => openai_completion w tr prompt
  | anthropic => anthropic_message w tr prompt
  | mock => inr (Json.stringify (Json.JObject [("comments", Json.JArray [AIService.mockComment])]))
  end.

(** The requests that a run sends to the selected provider. *)
Definition provider_requests (e : Env) (prompt : Prompt) : trace :=
  match AIService.detectProvider e with
  | mock => []
  | p => [Post p prompt]
  end.

(** ** [routes/health.js] *)

Module HealthRoute.

(** [!!value] for an environment variable: set and not empty. *)
Definition truthy (v : option string) : bool :=
  match v with
  | Some s => negb (String.eqb s "")
  | None => false
  end.




End HealthRoute.

(** The route answers 500 to [req]: the body is missing, or the dispatcher
    throws on the event. *)
Definition fails (req : Request) : bool :=
  match req_body req with
  | None => true
  | Some _ => Js.array_includes (WebhookHandler.show (x_github_event req)) raising_events
  end.

(** ** More sample data *)

Module Fixture.

(** Scenario C: the pull request of Scenario A, closed. *)
Definition closed : Payload :=
  {| action := "closed";
     pull_request := pull_request Sample.scenario_A;
     repository := repository Sample.scenario_A |}.

(** The repository service answers every listing with [Not Found]. *)
Definition unreachable : World :=
  {| process_env := empty_env;
     octokit_listFiles := fun _ _ _ _ => inl (Error "Not Found");
     octokit_getContent := octokit_getContent Sample.world_A;
     openai_completion := openai_completion Sample.world_A;
     anthropic_message := anthropic_message Sample.world_A;
     reviewComment_post := reviewComment_post Sample.world_A |}.

(** The pull request changes [README.md] only. *)
Definition docs_only : World :=
  Sample.world empty_env [Sample.readme_md] "" (fun _ => inl (Error "no backend")).

(** The Scenario A delivery, signed under [s3cr3t] over the serialization
    of its decoded body. *)
Definition signed_A : Request :=
  {| x_hub_signature_256 := Some (sign "s3cr3t" (Json.stringify Sample.body_A));
     x_github_event := Some "pull_request";
     x_github_delivery := Some "72d3162e-cc78-11e3-81ab-4c9367dc0958";
     req_body := Some Sample.body_A |}.

End Fixture.

(** * Properties *)

(** ** The JSON parser has fuel enough *)

Section ParserFuel.
Import Json.
Lemma skip_ws_length s : (String.length (skip_ws s) <= String.length s)%nat.
Proof.
  induction s as [|a r IH]; cbn; [lia|].
  destruct (json_ws (Js.byte_of a)); cbn; lia.
Qed.

Lemma after_length n s r : after n s = Some r -> String.length s = S (String.length r).
Proof.
  destruct s as [|a s]; cbn; [discriminate|].
  destruct (Js.byte_of a =? n); [|discriminate].
  intros [= ->]. reflexivity.
Qed.

Lemma drop_length n s : (String.length (Js.drop n s) = String.length s - n)%nat.
Proof.
  revert s. induction n as [|n IH]; intros [|a s]; cbn; try lia. apply IH.
Qed.

Lemma startsWith_length p s : Js.startsWith p s = true -> (String.length p <= String.length s)%nat.
Proof.
  revert s. induction p as [|a p IH]; intros [|b s]; cbn; try lia; try discriminate.
  intros H. apply andb_prop in H. destruct H as [_ H]. apply IH in H. lia.
Qed.

Lemma take_digits_length s : forall c v c' v' r,
  take_digits s c v = (c', v', r) ->
  c <= c' /\ Z.of_nat (String.length s) = Z.of_nat (String.length r) + (c' - c).
Proof.
  induction s as [|a s IH]; intros c v c' v' r H; cbn in H.
  - injection H as <- <- <-. cbn. lia.
  - destruct ((48 <=? Js.byte_of a) && (Js.byte_of a <=? 57)).
    + apply IH in H. cbn [String.length]. lia.
    + injection H as <- <- <-. lia.
Qed.

Lemma string_pieces_shorter n : forall s acc ps rest,
  (String.length s <= n)%nat -> string_pieces s acc = Some (ps, rest) -> (String.length rest < String.length s)%nat.
Proof.
  induction n as [|n IH]; intros s acc ps rest Hn H.
  - destruct s; [discriminate | cbn in Hn; lia].
  - destruct s as [|a r]; [discriminate|].
    cbn [string_pieces] in H.
    repeat match type of H with
           | (if ?b then _ else _) = _ => destruct b
           | match ?x with _ => _ end = _ => destruct x eqn:?
           end;
      try discriminate;
      try (injection H as <- <-; cbn; lia);
      try (apply IH in H; cbn [String.length] in *; lia).
Qed.

Lemma string_literal_shorter s k rest :
  string_literal s = Parsed k rest -> (String.length rest < String.length s)%nat.
Proof.
  unfold string_literal.
  destruct (string_pieces s []) as [[ps r]|] eqn:E; [|discriminate].
  intros [= _ <-]. eapply string_pieces_shorter; [reflexivity | exact E].
Qed.

Lemma string_literal_fuel s : string_literal s <> OutOfFuel.
Proof. unfold string_literal. destruct (string_pieces s []) as [[ps r]|]; discriminate. Qed.

Lemma number_literal_shorter s x rest :
  number_literal s = Some (x, rest) -> (String.length rest < String.length s)%nat.
Proof.
  unfold number_literal.
  destruct (after 45 s) as [r|] eqn:Hneg.
  all: match goal with |- context [take_digits ?t 0 0] =>
         destruct (take_digits t 0 0) as [[ci vi] s2] eqn:Hint end.
  all: apply take_digits_length in Hint.
  all: destruct ((ci =? 0) || _) eqn:Hci; [discriminate|].
  all: apply orb_false_iff in Hci; destruct Hci as [Hci _]; apply Z.eqb_neq in Hci.
  all: try apply after_length in Hneg.
  all: destruct (after 46 s2) as [rf|] eqn:Hdot.
  all: try apply after_length in Hdot.
  all: repeat match goal with
         | |- context [take_digits ?t ?c ?v] =>
             let E := fresh "E" in
             destruct (take_digits t c v) as [[? ?] ?] eqn:E; apply take_digits_length in E
         | |- context [after ?n ?t] =>
             let E := fresh "E" in
             destruct (after n t) eqn:E; [apply after_length in E|]
         | |- context [if ?b then _ else _] => destruct b
         end; try discriminate.
  all: intros [= _ <-]; lia.
Qed.

Lemma scalar_shorter s v rest : scalar s = Parsed v rest -> (String.length rest < String.length s)%nat.
Proof.
  unfold scalar.
  destruct (after 34 s) as [r|] eqn:Hq.
  - apply after_length in Hq.
    destruct (string_literal r) as [k rest'| |] eqn:E; try discriminate.
    intros [= _ <-]. apply string_literal_shorter in E. lia.
  - assert (Hkw : forall p b, Js.startsWith p s = true -> (0 < String.length p)%nat ->
                    Parsed b (Js.drop (String.length p) s) = Parsed v rest -> (String.length rest < String.length s)%nat).
    { intros p b Hp Hpos H. apply startsWith_length in Hp.
      assert (Hr : rest = Js.drop (String.length p) s) by congruence.
      rewrite Hr, drop_length. lia. }
    destruct (Js.startsWith "true" s) eqn:E1; [apply (Hkw "true" _ E1); cbn; lia|].
    destruct (Js.startsWith "false" s) eqn:E2; [apply (Hkw "false" _ E2); cbn; lia|].
    destruct (Js.startsWith "null" s) eqn:E3; [apply (Hkw "null" _ E3); cbn; lia|].
    destruct (number_literal s) as [[x r]|] eqn:E; [|discriminate].
    intros [= _ <-]. apply number_literal_shorter in E. exact E.
Qed.

Lemma scalar_fuel s : scalar s <> OutOfFuel.
Proof.
  unfold scalar.
  destruct (after 34 s).
  - pose proof (string_literal_fuel s0). destruct (string_literal s0); congruence.
  - repeat match goal with |- context [if ?b then _ else _] => destruct b end; try discriminate.
    destruct (number_literal s) as [[x r]|]; discriminate.
Qed.

(** With fuel above twice the length of the text, the parser never runs
    out, and what it leaves is shorter than what it was given. *)
Lemma parser_fuel fuel :
  (forall s, (2 * String.length s + 1 <= fuel)%nat ->
     parse_value fuel s <> OutOfFuel
     /\ forall v rest, parse_value fuel s = Parsed v rest -> (String.length rest < String.length s)%nat)
  /\ (forall s acc, (2 * String.length s + 2 <= fuel)%nat ->
     parse_elements fuel s acc <> OutOfFuel
     /\ forall v rest, parse_elements fuel s acc = Parsed v rest -> (String.length rest < String.length s)%nat)
  /\ (forall s acc, (2 * String.length s + 2 <= fuel)%nat ->
     parse_members fuel s acc <> OutOfFuel
     /\ forall v rest, parse_members fuel s acc = Parsed v rest -> (String.length rest < String.length s)%nat).
Proof.
  induction fuel as [|fuel (IHv & IHe & IHm)].
  - repeat split; intros; lia.
  - split; [|split].
    + intros s Hf. cbn [parse_value].
      pose proof (skip_ws_length s) as Hs.
      destruct (after 123 (skip_ws s)) as [r|] eqn:Hobj.
      * apply after_length in Hobj.
        pose proof (skip_ws_length r) as Hr.
        destruct (after 125 (skip_ws r)) as [r'|] eqn:Hclose.
        -- apply after_length in Hclose. split; [discriminate|].
           intros v rest [= _ <-]. lia.
        -- destruct (IHm r [] ltac:(lia)) as [Hne Hlt]. split; [exact Hne|].
           intros v rest H. apply Hlt in H. lia.
      * destruct (after 91 (skip_ws s)) as [r|] eqn:Harr.
        -- apply after_length in Harr.
           pose proof (skip_ws_length r) as Hr.
           destruct (after 93 (skip_ws r)) as [r'|] eqn:Hclose.
           ++ apply after_length in Hclose. split; [discriminate|].
              intros v rest [= _ <-]. lia.
           ++ destruct (IHe r [] ltac:(lia)) as [Hne Hlt]. split; [exact Hne|].
              intros v rest H. apply Hlt in H. lia.
        -- split; [apply scalar_fuel|].
           intros v rest H. apply scalar_shorter in H. lia.
    + intros s acc Hf. cbn [parse_elements].
      destruct (IHv s ltac:(lia)) as [Hne Hlt].
      destruct (parse_value fuel s) as [v rest| |] eqn:E; [|split; discriminate|congruence].
      specialize (Hlt v rest eq_refl).
      pose proof (skip_ws_length rest) as Hr.
      destruct (after 44 (skip_ws rest)) as [r|] eqn:Hcomma.
      * apply after_length in Hcomma.
        destruct (IHe r (acc ++ [v])%list ltac:(lia)) as [Hne' Hlt']. split; [exact Hne'|].
        intros v' rest' H. apply Hlt' in H. lia.
      * destruct (after 93 (skip_ws rest)) as [r|] eqn:Hclose; [|split; discriminate].
        apply after_length in Hclose. split; [discriminate|].
        intros v' rest' [= _ <-]. lia.
    + intros s acc Hf. cbn [parse_members].
      pose proof (skip_ws_length s) as Hs.
      destruct (after 34 (skip_ws s)) as [r|] eqn:Hq; [|split; discriminate].
      apply after_length in Hq.
      pose proof (string_literal_fuel r) as Hsf.
      destruct (string_literal r) as [k rest| |] eqn:Hk; [|split; discriminate|congruence].
      apply string_literal_shorter in Hk.
      pose proof (skip_ws_length rest) as Hr.
      destruct (after 58 (skip_ws rest)) as [r1|] eqn:Hcolon; [|split; discriminate].
      apply after_length in Hcolon.
      destruct (IHv r1 ltac:(lia)) as [Hne Hlt].
      destruct (parse_value fuel r1) as [v rest1| |] eqn:E; [|split; discriminate|congruence].
      specialize (Hlt v rest1 eq_refl).
      pose proof (skip_ws_length rest1) as Hr1.
      destruct (after 44 (skip_ws rest1)) as [r2|] eqn:Hcomma.
      * apply after_length in Hcomma.
        destruct (IHm r2 (define k v acc) ltac:(lia)) as [Hne' Hlt']. split; [exact Hne'|].
        intros v' rest' H. apply Hlt' in H. lia.
      * destruct (after 125 (skip_ws rest1)) as [r2|] eqn:Hclose; [|split; discriminate].
        apply after_length in Hclose. split; [discriminate|].
        intros v' rest' [= _ <-]. lia.
Qed.

(** [JSON.parse] never gives up for lack of fuel: a [None] is a syntax error. *)
Lemma parse_value_fuel (text : string) :
  parse_value (2 * String.length text + 1) text <> OutOfFuel.
Proof. apply (proj1 (parser_fuel (2 * String.length text + 1))). lia. Qed.

(** So a refused text is a malformed value or a value followed by more
    than white space. *)
Lemma parse_refused (text : string) :
  parse text = None ->
  parse_value (2 * String.length text + 1) text = Malformed
  \/ exists v rest,
       parse_value (2 * String.length text + 1) text = Parsed v rest
       /\ skip_ws rest <> "".
Proof.
  unfold parse. pose proof (parse_value_fuel text) as Hfuel.
  destruct (parse_value (2 * String.length text + 1) text) as [v rest| |];
    [|auto|congruence].
  destruct (String.eqb_spec (skip_ws rest) ""); [discriminate|].
  intros _. right. eauto.
Qed.

End ParserFuel.

(** ** Order-preserving selections *)

Section Subseq.
Context {A : Type}.
Implicit Types l : list A.

Lemma subseq_refl l : subseq l l.
Proof. induction l; constructor; assumption. Qed.

Lemma subseq_nil_l l : subseq [] l.
Proof. induction l; constructor; assumption. Qed.

Lemma subseq_trans l1 l2 l3 : subseq l1 l2 -> subseq l2 l3 -> subseq l1 l3.
Proof.
  intros H12 H23. revert l1 H12.
  induction H23 as [|x l2 l3 _ IH|x l2 l3 _ IH]; intros l1 H12.
  - assumption.
  - apply subseq_skip, IH, H12.
  - inversion H12; subst.
    + apply subseq_skip, IH. assumption.
    + apply subseq_take, IH. assumption.
Qed.

Lemma subseq_filter (p : A -> bool) l : subseq (filter p l) l.
Proof.
  induction l as [|x l IH]; simpl.
  - constructor.
  - destruct (p x); constructor; assumption.
Qed.

Lemma subseq_firstn n l : subseq (firstn n l) l.
Proof.
  revert l. induction n as [|n IH]; intros [|x l]; simpl.
  - constructor.
  - apply subseq_nil_l.
  - constructor.
  - apply subseq_take, IH.
Qed.

Lemma subseq_skipn n l : subseq (skipn n l) l.
Proof.
  revert l. induction n as [|n IH]; intros [|x l]; simpl.
  - constructor.
  - apply subseq_refl.
  - constructor.
  - apply subseq_skip, IH.
Qed.

Lemma subseq_Forall (P : A -> Prop) l1 l2 : subseq l1 l2 -> Forall P l2 -> Forall P l1.
Proof.
  induction 1 as [|x l1 l2 _ IH|x l1 l2 _ IH]; intros HF.
  - constructor.
  - inversion HF; subst. auto.
  - inversion HF; subst. constructor; auto.
Qed.

Lemma subseq_length l1 l2 : subseq l1 l2 -> (List.length l1 <= List.length l2)%nat.
Proof. induction 1; simpl; lia. Qed.

(** [slice] selects a contiguous run. *)
Lemma slice_subseq (i j : Z) l : subseq (Js.slice i j l) l.
Proof.
  unfold Js.slice.
  eapply subseq_trans; [apply subseq_firstn | apply subseq_skipn].
Qed.

Lemma slice_prefix (n : Z) l : 0 <= n -> Js.slice 0 n l = firstn (Z.to_nat n) l.
Proof.
  intros Hn. unfold Js.slice, Js.clamp_index.
  change (0 <? 0) with false. cbv iota.
  destruct (n <? 0) eqn:E; [apply Z.ltb_lt in E; lia|].
  rewrite (Z.min_l 0) by lia. change (Z.to_nat 0) with O. cbn [skipn].
  destruct (Z.le_ge_cases n (Z.of_nat (List.length l))) as [H|H].
  - rewrite (Z.min_l n) by lia. f_equal. lia.
  - rewrite (Z.min_r n) by lia.
    rewrite !firstn_all2; [reflexivity | lia | lia].
Qed.

Lemma firstn_filter_fixed (p : A -> bool) n l :
  filter p (firstn n (filter p l)) = firstn n (filter p l).
Proof.
  apply forallb_filter_id. apply forallb_forall.
  apply Forall_forall.
  apply (subseq_Forall _ _ _ (subseq_firstn n (filter p l))).
  apply Forall_forall. intros y Hy. apply filter_In in Hy. tauto.
Qed.

End Subseq.

(** ** File triage *)

Section Triage.
Import PullRequestHandler.

Lemma keep_not_removed m f : keep m f = true -> status f <> "removed".
Proof.
  unfold keep. destruct (String.eqb_spec (status f) "removed"); [discriminate | auto].
Qed.

Lemma keep_within_limit m f : keep m f = true -> changes f <= m.
Proof.
  unfold keep.
  destruct (status f =? "removed")%string; [discriminate|].
  destruct (Js.some _ skipPatterns); [discriminate|].
  destruct (negb (hasReviewableExtension f)); [discriminate|].
  destruct (changes f >? m) eqn:E; [discriminate|].
  intros _. rewrite Z.gtb_ltb in E. apply Z.ltb_ge in E. exact E.
Qed.

Lemma keep_not_skipped m f :
  keep m f = true -> Forall (fun p => test p (filename f) = false) skipPatterns.
Proof.
  unfold keep.
  destruct (status f =? "removed")%string; [discriminate|].
  destruct (Js.some _ skipPatterns) eqn:E; [discriminate|].
  intros _. apply Forall_forall. intros p Hp.
  unfold Js.some in E.
  destruct (test p (filename f)) eqn:T; [|reflexivity].
  assert (existsb (fun p => test p (filename f)) skipPatterns = true)
    by (apply existsb_exists; eauto).
  congruence.
Qed.

Lemma keep_reviewable m f : keep m f = true -> hasReviewableExtension f = true.
Proof.
  unfold keep.
  destruct (status f =? "removed")%string; [discriminate|].
  destruct (Js.some _ skipPatterns); [discriminate|].
  destruct (hasReviewableExtension f); [reflexivity | discriminate].
Qed.

(** The filter keeps exactly the files that no exclusion rule drops. *)
Lemma keep_iff m f :
  keep m f = true
  <-> status f <> "removed"
      /\ Forall (fun p => test p (filename f) = false) skipPatterns
      /\ hasReviewableExtension f = true
      /\ changes f <= m.
Proof.
  split.
  - intros H. repeat split.
    + apply (keep_not_removed m f H).
    + apply (keep_not_skipped m f H).
    + apply (keep_reviewable m f H).
    + apply (keep_within_limit m f H).
  - intros (Hst & Hskip & Hext & Hch). unfold keep.
    destruct (String.eqb_spec (status f) "removed"); [contradiction|].
    destruct (Js.some _ skipPatterns) eqn:E.
    + unfold Js.some in E. apply existsb_exists in E. destruct E as (p & Hp & Ht).
      rewrite Forall_forall in Hskip. rewrite (Hskip p Hp) in Ht. discriminate.
    + rewrite Hext. cbn.
      destruct (changes f >? m) eqn:G; [|reflexivity].
      rewrite Z.gtb_ltb in G. apply Z.ltb_lt in G. lia.
Qed.

(** Scenario D: of [README.md] and [main.py], triage keeps [main.py]. *)
Example filterReviewableFiles_scenario_D :
  filterReviewableFiles empty_env [Sample.readme_md; Sample.main_py] = [Sample.main_py].
Proof. vm_compute. reflexivity. Qed.

(** Whatever the limits, the selection is drawn from the input in order
    and every selected file passed the filter. *)
Lemma filterReviewableFiles_selects e files :
  subseq (filterReviewableFiles e files) files
  /\ Forall (fun f => keep (maxLinesPerFile e) f = true) (filterReviewableFiles e files).
Proof.
  unfold filterReviewableFiles. split.
  - eapply subseq_trans; [apply slice_subseq | apply subseq_filter].
  - eapply subseq_Forall; [apply slice_subseq|].
    apply Forall_forall. intros f Hf. apply filter_In in Hf. tauto.
Qed.

Lemma filterReviewableFiles_prefix e files :
  0 <= maxFiles e ->
  filterReviewableFiles e files
  = firstn (Z.to_nat (maxFiles e)) (filter (keep (maxLinesPerFile e)) files).
Proof. intros H. unfold filterReviewableFiles. apply slice_prefix, H. Qed.

(** C3 (as amended).  For every input list and every environment whose
    effective file limit is not negative, the selection holds no removed
    file, holds at most [maxFiles] files, holds no file whose change count
    exceeds [maxLinesPerFile], and is the first [maxFiles] survivors of
    the exclusion rules, in the order of the input. *)
Theorem filterReviewableFiles_bounds (e : Env) (files : list ChangedFile) :
  0 <= maxFiles e ->
  triage_postcondition e files (filterReviewableFiles e files).
Proof.
  intros Hmax.
  destruct (filterReviewableFiles_selects e files) as [Hsub Hkeep].
  unfold triage_postcondition. repeat split.
  - eapply Forall_impl; [|exact Hkeep]. intros f. apply keep_not_removed.
  - rewrite (filterReviewableFiles_prefix e files Hmax).
    rewrite length_firstn. lia.
  - eapply Forall_impl; [|exact Hkeep]. intros f. apply keep_within_limit.
  - exact Hsub.
  - apply filterReviewableFiles_prefix, Hmax.
Qed.

(** When the repository service reports [changes] as the sum of additions
    and deletions, as GitHub does, that sum is within the limit too. *)
Lemma filterReviewableFiles_additions_deletions e files :
  Forall (fun f => changes f = additions f + deletions f) files ->
  Forall (fun f => additions f + deletions f <= maxLinesPerFile e)
         (filterReviewableFiles e files).
Proof.
  intros Hsum.
  destruct (filterReviewableFiles_selects e files) as [Hsub Hkeep].
  pose proof (subseq_Forall _ _ _ Hsub Hsum) as Hsum'.
  rewrite Forall_forall in *. intros f Hf.
  rewrite <- (Hsum' f Hf). apply keep_within_limit, Hkeep, Hf.
Qed.

Lemma filterReviewableFiles_bounds_witness :
  0 <= maxFiles empty_env
  /\ triage_postcondition empty_env
       [Sample.readme_md; Sample.main_py; Sample.old_js; Sample.huge_ts; Sample.app_js]
       [Sample.main_py; Sample.app_js].
Proof.
  split.
  - vm_compute. discriminate.
  - apply (filterReviewableFiles_bounds empty_env
             [Sample.readme_md; Sample.main_py; Sample.old_js; Sample.huge_ts; Sample.app_js]).
    vm_compute. discriminate.
Defined.

(** C3 (as stated) fails: with [MAX_FILES_TO_REVIEW=-1] the call
    [slice(0, -1)] drops the last survivor only, and the one file returned
    is more than the limit of [-1]. *)
Lemma filterReviewableFiles_negative_limit :
  ~ (forall e files, triage_postcondition e files (filterReviewableFiles e files)).
Proof.
  intros H.
  destruct (H Sample.env_negative_limit [Sample.app_js; Sample.main_py]) as (_ & Hlen & _).
  vm_compute in Hlen. apply Hlen. reflexivity.
Qed.

(** C8 (as amended).  For every input list and every environment whose
    effective file limit is not negative, the selection is a function of
    the input and the two limits, and selecting from its own output gives
    that output back. *)
Theorem filterReviewableFiles_idempotent (e : Env) (files : list ChangedFile) :
  0 <= maxFiles e ->
  triage_deterministic e files /\ triage_idempotent e files.
Proof.
  intros Hmax. split.
  - intros e' Hf Hl. unfold filterReviewableFiles. rewrite Hf, Hl. reflexivity.
  - unfold triage_idempotent.
    rewrite (filterReviewableFiles_prefix e files Hmax).
    rewrite (filterReviewableFiles_prefix e _ Hmax).
    rewrite firstn_filter_fixed, firstn_firstn, Nat.min_id. reflexivity.
Qed.

Lemma filterReviewableFiles_idempotent_witness :
  0 <= maxFiles empty_env
  /\ triage_deterministic empty_env [Sample.readme_md; Sample.main_py; Sample.app_js]
  /\ triage_idempotent empty_env [Sample.readme_md; Sample.main_py; Sample.app_js].
Proof.
  split.
  - vm_compute. discriminate.
  - apply (filterReviewableFiles_idempotent empty_env
             [Sample.readme_md; Sample.main_py; Sample.app_js]).
    vm_compute. discriminate.
Defined.

(** C8 (as stated) fails: with [MAX_FILES_TO_REVIEW=-1] every application
    drops one more file. *)
Lemma filterReviewableFiles_not_idempotent :
  ~ (forall e files, triage_deterministic e files /\ triage_idempotent e files).
Proof.
  intros H.
  destruct (H Sample.env_negative_limit [Sample.app_js; Sample.main_py; Sample.util_go])
    as [_ Hid].
  vm_compute in Hid. discriminate Hid.
Qed.

End Triage.

(** ** The monad *)

Lemma bind_ret_l {A B : Type} (x : A) (k : A -> M B) w tr : bind (ret x) k w tr = k x w tr.
Proof. reflexivity. Qed.

Lemma bind_log {B : Type} lvl msg (k : unit -> M B) w tr :
  bind (log lvl msg) k w tr = k tt w (tr ++ [Log lvl msg])%list.
Proof. reflexivity. Qed.

Lemma bind_env {B : Type} (k : Env -> M B) w tr : bind env k w tr = k (process_env w) w tr.
Proof. reflexivity. Qed.

(** ** Response parsing *)

Section Parsing.
Import CodeAnalysisService.

Lemma member_own v key : v <> Json.JNull -> member v key = inr (own v key).
Proof. destruct v; try reflexivity. congruence. Qed.

Lemma or_default_defaulted x dflt : or_default x dflt = defaulted x dflt.
Proof. reflexivity. Qed.

Lemma toFinding_renders file c :
  c <> Json.JNull -> exists f, toFinding file c = inr f /\ renders file c f.
Proof.
  intros Hc. unfold toFinding. rewrite !(member_own c) by assumption.
  eexists. split; [reflexivity|]. unfold renders. cbn. repeat split; reflexivity.
Qed.

Lemma toFinding_null file : exists e, toFinding file Json.JNull = inl e.
Proof. eexists. reflexivity. Qed.

Lemma map_throwing_renders file items :
  Forall (fun c => c <> Json.JNull) items ->
  exists out, map_throwing (toFinding file) items = inr out /\ Forall2 (renders file) items out.
Proof.
  induction 1 as [|c items Hc _ IH]; cbn.
  - exists []. split; [reflexivity | constructor].
  - destruct (toFinding_renders file c Hc) as (f & -> & Hf).
    destruct IH as (out & -> & Hout).
    exists (f :: out). split; [reflexivity | constructor; assumption].
Qed.

Lemma map_throwing_null file items :
  In Json.JNull items -> exists e, map_throwing (toFinding file) items = inl e.
Proof.
  induction items as [|c items IH]; intros Hin; [destruct Hin|].
  cbn [map_throwing].
  destruct (toFinding file c) as [e|f] eqn:E; [eauto|].
  destruct Hin as [->|Hin].
  - destruct (toFinding_null file) as (e & He). congruence.
  - destruct (IH Hin) as (e & ->). eauto.
Qed.

(** C4.  For every file, a backend text that is not valid JSON, or that
    decodes to a value without a [comments] key, or whose [comments] is not
    an array, makes the parser return the empty list; nothing is thrown, and
    the only effect is one log entry. *)
Theorem parseAIResponse_unusable (text : string) (file : ChangedFile) (w : World) (tr : trace) :
  unusable_response text ->
  exists lvl msg,
    parseAIResponse text file w tr = (inr [], (tr ++ [Log lvl msg])%list).
Proof.
  unfold parseAIResponse, try_catch, bind, lift, JSON_parse.
  intros [Hp | [(v & Hp & Hown) | (v & c & Hp & Hown & Harr)]]; rewrite Hp.
  - exists error, "Failed to parse AI response". reflexivity.
  - destruct v; cbn in Hown |- *; try rewrite Hown;
      first [ exists error, "Failed to parse AI response"; reflexivity
            | exists warn, "Invalid AI response format"; reflexivity ].
  - destruct v; cbn in Hown; try discriminate.
    cbn. rewrite Hown. cbn. rewrite Harr.
    exists warn, "Invalid AI response format".
    destruct (Json.truthy c); reflexivity.
Qed.

Lemma parseAIResponse_unusable_witness :
  (unusable_response "The file looks fine to me."
   /\ unusable_response Sample.no_comments_key
   /\ unusable_response Sample.comments_text)
  /\ exists lvl msg,
       parseAIResponse Sample.comments_text Sample.app_js Sample.quiet_world []
       = (inr [], [Log lvl msg]).
Proof.
  assert (H3 : unusable_response Sample.comments_text).
  { right. right. eexists. eexists.
    split; [vm_compute; reflexivity|]. split; vm_compute; reflexivity. }
  split.
  - split; [left; vm_compute; reflexivity|].
    split; [|exact H3].
    right. left. eexists. split; vm_compute; reflexivity.
  - exact (parseAIResponse_unusable Sample.comments_text Sample.app_js Sample.quiet_world [] H3).
Defined.

(** C10 (as amended).  For every backend text that decodes to an object
    whose [comments] is an array of [n] elements, none of them [null], the
    parser returns exactly [n] findings, one per element in array order,
    each with the file's name as path, with the decoded severity when it is
    present and truthy and [info] otherwise, and with the decoded category
    when it is present and truthy and [general] otherwise.  There is no cap
    on [n], and nothing is logged. *)
Theorem parseAIResponse_maps_comments
    (text : string) (file : ChangedFile) (props : list (string * Json.value))
    (items : list Json.value) (w : World) (tr : trace) :
  Json.parse text = Some (Json.JObject props) ->
  Json.assoc "comments" props = Some (Json.JArray items) ->
  Forall (fun c => c <> Json.JNull) items ->
  exists out,
    parseAIResponse text file w tr = (inr out, tr)
    /\ List.length out = List.length items
    /\ Forall2 (renders file) items out.
Proof.
  intros Hp Hc Hitems.
  destruct (map_throwing_renders file items Hitems) as (out & Hmap & Hout).
  exists out. split; [|split].
  - unfold parseAIResponse, try_catch, bind, lift, JSON_parse.
    rewrite Hp. cbn. rewrite Hc. cbn. rewrite Hmap. reflexivity.
  - symmetry. eapply Forall2_length, Hout.
  - exact Hout.
Qed.

Lemma parseAIResponse_maps_comments_witness :
  (Json.parse Sample.six_comments
   = Some (Json.JObject [("comments", Json.JArray Sample.six_items)])
   /\ Forall (fun c => c <> Json.JNull) Sample.six_items)
  /\ exists out,
       parseAIResponse Sample.six_comments Sample.app_js Sample.quiet_world [] = (inr out, [])
       /\ List.length out = 6%nat
       /\ Forall2 (renders Sample.app_js) Sample.six_items out.
Proof.
  assert (Hp : Json.parse Sample.six_comments
               = Some (Json.JObject [("comments", Json.JArray Sample.six_items)]))
    by (vm_compute; reflexivity).
  assert (Hitems : Forall (fun c => c <> Json.JNull) Sample.six_items)
    by (repeat constructor; discriminate).
  split; [split; assumption|].
  exact (parseAIResponse_maps_comments Sample.six_comments Sample.app_js
           [("comments", Json.JArray Sample.six_items)] Sample.six_items
           Sample.quiet_world [] Hp eq_refl Hitems).
Defined.

(** The six findings of the sample: an empty severity is replaced like an
    absent one. *)
Example parseAIResponse_six_severities :
  exists out,
    parseAIResponse Sample.six_comments Sample.app_js Sample.quiet_world [] = (inr out, [])
    /\ map severity out
       = [ Json.JString "info"; Json.JString "error"; Json.JString "info";
           Json.JString "info"; Json.JString "info"; Json.JString "info" ]
    /\ map category out = repeat (Json.JString "general") 6.
Proof. eexists. split; [vm_compute; reflexivity|]. split; reflexivity. Qed.

(** When some element is [null], reading its [line] throws, the handler of
    the parser catches it, and no finding at all is returned. *)
Lemma parseAIResponse_null_comment text file props items w tr :
  Json.parse text = Some (Json.JObject props) ->
  Json.assoc "comments" props = Some (Json.JArray items) ->
  In Json.JNull items ->
  parseAIResponse text file w tr
  = (inr [], (tr ++ [Log error "Failed to parse AI response"])%list).
Proof.
  intros Hp Hc Hin.
  destruct (map_throwing_null file items Hin) as (e & Hmap).
  unfold parseAIResponse, try_catch, bind, lift, JSON_parse.
  rewrite Hp. cbn. rewrite Hc. cbn. rewrite Hmap. reflexivity.
Qed.

(** C10 (as stated) fails: the one-element array [[null]] yields no finding. *)
Lemma parseAIResponse_drops_null_comment :
  ~ returns_every_comment Sample.comments_null Sample.app_js.
Proof.
  intros H.
  destruct (H [("comments", Json.JArray [Json.JNull])] [Json.JNull] Sample.quiet_world [])
    as (out & tr' & Hrun & Hlen).
  - vm_compute. reflexivity.
  - reflexivity.
  - vm_compute in Hrun. injection Hrun as <- _. discriminate Hlen.
Qed.

End Parsing.

(** ** Per-file analysis and the batch *)

Section Analysis.
Import CodeAnalysisService.

Lemma isBinaryFile_true file :
  In (getFileExtension (filename file)) binaryExtensions \/ binary file = true ->
  isBinaryFile file = true.
Proof.
  unfold isBinaryFile, Js.array_includes. intros [Hext | Hflag].
  - apply orb_true_iff. left. apply existsb_exists.
    exists (getFileExtension (filename file)). split; [assumption | apply String.eqb_refl].
  - rewrite Hflag. apply orb_true_r.
Qed.

(** C9.  For every file whose extension is in the binary-extension list or
    whose binary flag is set, the per-file analysis returns the empty list
    after two debug entries; the backend is not invoked. *)
Theorem analyzeFile_binary (file : ChangedFile) (context : Context) (w : World) (tr : trace) :
  In (getFileExtension (filename file)) binaryExtensions \/ binary file = true ->
  analyzeFile file context w tr
  = (inr [], (tr ++ [Log debug "Analyzing file"; Log debug "Skipping binary file"])%list)
  /\ backend_calls (snd (analyzeFile file context w tr)) = backend_calls tr.
Proof.
  intros Hbin. apply isBinaryFile_true in Hbin.
  assert (Hrun : analyzeFile file context w tr
                 = (inr [], (tr ++ [Log debug "Analyzing file"; Log debug "Skipping binary file"])%list)).
  { unfold analyzeFile. rewrite bind_log, Hbin, bind_log. cbn.
    rewrite <- app_assoc. reflexivity. }
  split; [exact Hrun|].
  rewrite Hrun. cbn [snd]. unfold backend_calls.
  rewrite filter_app. cbn. rewrite app_nil_r. reflexivity.
Qed.

Lemma analyzeFile_binary_witness :
  (In (getFileExtension (filename Sample.logo_png)) binaryExtensions
   \/ binary Sample.logo_png = true)
  /\ analyzeFile Sample.logo_png Sample.context Sample.world_timeout_main_py []
     = (inr [], [Log debug "Analyzing file"; Log debug "Skipping binary file"]).
Proof.
  assert (H : In (getFileExtension (filename Sample.logo_png)) binaryExtensions
              \/ binary Sample.logo_png = true).
  { left. vm_compute. tauto. }
  split; [exact H|].
  exact (proj1 (analyzeFile_binary Sample.logo_png Sample.context
                  Sample.world_timeout_main_py [] H)).
Defined.

Lemma analyzeFiles_step_run context file results w tr :
  analyzeFiles_step context file results w tr
  = match analyzeFile file context w tr with
    | (inr found, tr1) => (inr (results ++ found)%list, tr1)
    | (inl _, tr1) => (inr results, (tr1 ++ [Log error "Failed to analyze file"])%list)
    end.
Proof.
  unfold analyzeFiles_step, try_catch, bind.
  destruct (analyzeFile file context w tr) as [[e|found] tr1]; [reflexivity|].
  destruct found; cbn; [rewrite app_nil_r|]; reflexivity.
Qed.

Lemma analyzeFiles_loop_run context w files results tr :
  analyzeFiles_loop context files results w tr
  = (inr (results ++ List.concat (fst (contributions context w files tr)))%list,
     snd (contributions context w files tr)).
Proof.
  revert results tr. induction files as [|file rest IH]; intros results tr.
  - cbn. rewrite app_nil_r. reflexivity.
  - cbn [analyzeFiles_loop contributions]. unfold bind at 1.
    rewrite analyzeFiles_step_run.
    destruct (analyzeFile file context w tr) as [[e|found] tr1].
    + rewrite IH.
      destruct (contributions context w rest _) as [cs tr2]. reflexivity.
    + rewrite IH.
      destruct (contributions context w rest tr1) as [cs tr2]. cbn.
      rewrite <- app_assoc. reflexivity.
Qed.

Lemma contributions_length context w files tr :
  List.length (fst (contributions context w files tr)) = List.length files.
Proof.
  revert tr. induction files as [|file rest IH]; intros tr; [reflexivity|].
  cbn [contributions].
  destruct (analyzeFile file context w tr) as [[e|found] tr1].
  - specialize (IH (tr1 ++ [Log error "Failed to analyze file"])%list).
    destruct (contributions context w rest _) as [cs tr2]. cbn in *. congruence.
  - specialize (IH tr1).
    destruct (contributions context w rest tr1) as [cs tr2]. cbn in *. congruence.
Qed.

(** C5.  For every list of files, whatever the world answers, the batch
    analysis does not throw; the per-file analysis runs on every file in
    order, also after one of them has thrown; a file whose analysis throws
    contributes no finding; and the result is the concatenation of the
    contributions. *)
Theorem analyzeFiles_tolerates_failures
    (files : list ChangedFile) (context : Context) (w : World) (tr : trace) :
  let run := contributions context w files (tr ++ [Log info "Starting code analysis"])%list in
  analyzeFiles files context w tr
  = (inr (List.concat (fst run)), (snd run ++ [Log info "Code analysis completed"])%list)
  /\ List.length (fst run) = List.length files.
Proof.
  cbv zeta. split; [|apply contributions_length].
  unfold analyzeFiles. rewrite bind_log. unfold bind at 1.
  rewrite analyzeFiles_loop_run. cbn [app]. rewrite bind_log. reflexivity.
Qed.

(** Scenario E: the backend times out on [main.py]; [app.js], the sibling
    that follows, is still analysed and its finding is the result. *)
Example analyzeFiles_timeout_on_main_py :
  exists found tr',
    analyzeFiles [Sample.main_py; Sample.app_js] Sample.context Sample.world_timeout_main_py []
    = (inr [found], tr')
    /\ path found = "app.js"
    /\ backend_calls tr' = 2%nat
    /\ fst (contributions Sample.context Sample.world_timeout_main_py
              [Sample.main_py; Sample.app_js] [Log info "Starting code analysis"])
       = [[]; [found]].
Proof.
  eexists. eexists. split; [vm_compute; reflexivity|].
  split; [reflexivity|]. split; vm_compute; reflexivity.
Qed.

End Analysis.

(** ** Signature verification *)

Section Verification.
Import WebhookAuth.

(** With a secret configured and a signature present, the verifier is the
    digest, the comparison, and their three outcomes. *)
Lemma validateWebhookSignature_configured req w tr secret signature :
  GITHUB_WEBHOOK_SECRET (process_env w) = Some secret -> secret <> "" ->
  x_hub_signature_256 req = Some signature -> signature <> "" ->
  validateWebhookSignature req w tr
  = match Crypto.createHmac_update_digest secret (JSON_stringify (req_body req)) with
    | inl _ => rejected "Signature validation failed" "Signature validation error" tr
    | inr digest =>
        match Crypto.timingSafeEqual signature ("sha256=" ++ digest) with
        | inl _ => rejected "Signature validation failed" "Signature validation error" tr
        | inr false => rejected "Invalid signature" "Invalid webhook signature" tr
        | inr true =>
            (inr Next, (tr ++ [Log debug "Webhook signature validated successfully"])%list)
        end
    end.
Proof.
  intros Hsecret Hs Hsig Hg.
  unfold validateWebhookSignature. rewrite bind_env, Hsecret, Hsig.
  destruct secret as [|a secret]; [congruence|].
  destruct signature as [|b signature]; [congruence|].
  unfold try_catch, bind, lift.
  destruct (Crypto.createHmac_update_digest (String a secret) _) as [e|digest]; [reflexivity|].
  cbn -[Crypto.timingSafeEqual].
  destruct (Crypto.timingSafeEqual (String b signature) _) as [e|[|]]; reflexivity.
Qed.

(** C6.  With a secret configured and a signature header present, the
    verifier never throws; and whenever the digest computation or the
    comparison throws (an undefined payload, buffers of different lengths),
    the answer is a 401 and one error entry. *)
Theorem validateWebhookSignature_catches
    (req : Request) (w : World) (tr : trace) (secret signature : string) :
  GITHUB_WEBHOOK_SECRET (process_env w) = Some secret -> secret <> "" ->
  x_hub_signature_256 req = Some signature -> signature <> "" ->
  (exists outcome tr', validateWebhookSignature req w tr = (inr outcome, tr'))
  /\ (signature_check_raises secret signature (JSON_stringify (req_body req)) ->
      validateWebhookSignature req w tr
      = (inr (Respond (unauthorized "Signature validation failed")),
         (tr ++ [Log error "Signature validation error"])%list)).
Proof.
  intros Hsecret Hs Hsig Hg.
  rewrite (validateWebhookSignature_configured req w tr secret signature Hsecret Hs Hsig Hg).
  unfold signature_check_raises, rejected.
  destruct (Crypto.createHmac_update_digest secret _) as [e|digest].
  - split; [eauto | reflexivity].
  - destruct (Crypto.timingSafeEqual signature _) as [e|[|]].
    + split; [eauto | reflexivity].
    + split; [eauto | intros (e & He); discriminate He].
    + split; [eauto | intros (e & He); discriminate He].
Qed.

Lemma validateWebhookSignature_catches_witness :
  signature_check_raises "s3cr3t" "sha256=abc" (JSON_stringify (req_body Sample.short_signature))
  /\ validateWebhookSignature Sample.short_signature Sample.world_secret []
     = (inr (Respond (unauthorized "Signature validation failed")),
        [Log error "Signature validation error"]).
Proof.
  assert (H : signature_check_raises "s3cr3t" "sha256=abc"
                (JSON_stringify (req_body Sample.short_signature))).
  { vm_compute. eexists. reflexivity. }
  split; [exact H|].
  refine (proj2 (validateWebhookSignature_catches Sample.short_signature Sample.world_secret []
                   "s3cr3t" "sha256=abc" _ _ _ _) H).
  - reflexivity.
  - discriminate.
  - reflexivity.
  - discriminate.
Defined.

(** C7.  With no secret configured (unset or empty), every request passes,
    whatever its body and its signature header: one warning is logged and
    the route runs next. *)
Theorem validateWebhookSignature_without_secret (req : Request) (w : World) (tr : trace) :
  GITHUB_WEBHOOK_SECRET (process_env w) = None
  \/ GITHUB_WEBHOOK_SECRET (process_env w) = Some "" ->
  let tr' := (tr ++ [Log warn "Webhook secret not configured, skipping signature validation"])%list in
  validateWebhookSignature req w tr = (inr Next, tr')
  /\ WebhookRoute.post_github req w tr = WebhookRoute.route req w tr'.
Proof.
  intros Hsecret. cbv zeta.
  assert (Hrun : validateWebhookSignature req w tr
                 = (inr Next,
                    (tr ++ [Log warn "Webhook secret not configured, skipping signature validation"])%list)).
  { unfold validateWebhookSignature. rewrite bind_env.
    destruct Hsecret as [-> | ->]; reflexivity. }
  split; [exact Hrun|].
  unfold WebhookRoute.post_github, bind. rewrite Hrun. reflexivity.
Qed.

Lemma validateWebhookSignature_without_secret_witness :
  (GITHUB_WEBHOOK_SECRET (process_env Sample.quiet_world) = None
   \/ GITHUB_WEBHOOK_SECRET (process_env Sample.quiet_world) = Some "")
  /\ validateWebhookSignature Sample.unsigned Sample.quiet_world []
     = (inr Next, [Log warn "Webhook secret not configured, skipping signature validation"]).
Proof.
  split; [left; reflexivity|].
  refine (proj1 (validateWebhookSignature_without_secret Sample.unsigned Sample.quiet_world [] _)).
  left. reflexivity.
Defined.

Lemma timingSafeEqual_same a : Crypto.timingSafeEqual a a = inr true.
Proof.
  unfold Crypto.timingSafeEqual. rewrite Nat.eqb_refl, String.eqb_refl. reflexivity.
Qed.

Lemma timingSafeEqual_differ a b :
  a <> b -> Crypto.timingSafeEqual a b = inr false \/ exists e, Crypto.timingSafeEqual a b = inl e.
Proof.
  intros Hab. unfold Crypto.timingSafeEqual.
  destruct (Nat.eqb _ _); [left | right; eauto].
  destruct (String.eqb_spec a b); [contradiction | reflexivity].
Qed.

(** What the verifier does accept: the HMAC of [JSON.stringify(req.body)],
    the body as the JSON middleware decoded and the verifier serialised it
    again. *)
Lemma validateWebhookSignature_accepts_reserialized w tr secret body event delivery :
  GITHUB_WEBHOOK_SECRET (process_env w) = Some secret -> secret <> "" ->
  validateWebhookSignature
    {| x_hub_signature_256 := Some (sign secret (Json.stringify body));
       x_github_event := event; x_github_delivery := delivery; req_body := Some body |} w tr
  = (inr Next, (tr ++ [Log debug "Webhook signature validated successfully"])%list).
Proof.
  intros Hsecret Hs.
  set (req := {| x_hub_signature_256 := Some (sign secret (Json.stringify body));
                 x_github_event := event; x_github_delivery := delivery;
                 req_body := Some body |}).
  assert (Hg : sign secret (Json.stringify body) <> "") by (unfold sign; cbn; discriminate).
  rewrite (validateWebhookSignature_configured req w tr secret
             (sign secret (Json.stringify body)) Hsecret Hs eq_refl Hg).
  cbn [req req_body JSON_stringify option_map Crypto.createHmac_update_digest].
  fold (sign secret (Json.stringify body)).
  rewrite timingSafeEqual_same. reflexivity.
Qed.

(** Any other signature header is answered with a 401. *)
Lemma validateWebhookSignature_rejects_other w tr secret signature body event delivery :
  GITHUB_WEBHOOK_SECRET (process_env w) = Some secret -> secret <> "" ->
  signature <> sign secret (Json.stringify body) ->
  exists reason tr',
    validateWebhookSignature
      {| x_hub_signature_256 := Some signature;
         x_github_event := event; x_github_delivery := delivery; req_body := Some body |} w tr
    = (inr (Respond (unauthorized reason)), tr').
Proof.
  intros Hsecret Hs Hneq.
  set (req := {| x_hub_signature_256 := Some signature;
                 x_github_event := event; x_github_delivery := delivery;
                 req_body := Some body |}).
  destruct (String.eqb_spec signature "") as [Hg|Hg].
  - unfold validateWebhookSignature. rewrite bind_env, Hsecret.
    destruct secret as [|a secret]; [congruence|]. subst req signature. cbn.
    do 2 eexists. reflexivity.
  - rewrite (validateWebhookSignature_configured req w tr secret signature Hsecret Hs eq_refl Hg).
    cbn [req req_body JSON_stringify option_map Crypto.createHmac_update_digest].
    fold (sign secret (Json.stringify body)).
    destruct (timingSafeEqual_differ _ _ Hneq) as [-> | (e & ->)];
      unfold rejected; do 2 eexists; reflexivity.
Qed.

End Verification.

(** ** Signed raw bodies *)

Section RawBody.
Import WebhookAuth.

(** C1.  The delivery of the raw body [{"action": "opened"}] signed with the
    HMAC of that raw body under the configured secret is rejected: the
    verifier signs [JSON.stringify(req.body)], which is [{"action":"opened"}],
    and answers 401 [Invalid signature]. *)
Theorem validateWebhookSignature_rejects_signed_raw_body (tr : trace) :
  let req := Sample.signed_delivery "s3cr3t" Sample.raw_opened in
  GITHUB_WEBHOOK_SECRET (process_env Sample.world_secret) = Some "s3cr3t"
  /\ x_hub_signature_256 req = Some (sign "s3cr3t" Sample.raw_opened)
  /\ req_body req = Express.json_body Sample.raw_opened
  /\ req_body req = Some (Json.JObject [("action", Json.JString "opened")])
  /\ validateWebhookSignature req Sample.world_secret tr
     = (inr (Respond (unauthorized "Invalid signature")),
        (tr ++ [Log error "Invalid webhook signature"])%list).
Proof.
  cbv zeta. repeat split; vm_compute; reflexivity.
Qed.

(** The same secret accepts the same decoded body when the sender signs the
    serialisation that the verifier rebuilds. *)
Example validateWebhookSignature_accepts_compact_body (tr : trace) :
  exists body,
    Express.json_body Sample.raw_opened = Some body
    /\ WebhookAuth.validateWebhookSignature
         {| x_hub_signature_256 := Some (sign "s3cr3t" (Json.stringify body));
            x_github_event := Some "pull_request";
            x_github_delivery := None;
            req_body := Some body |} Sample.world_secret tr
       = (inr Next, (tr ++ [Log debug "Webhook signature validated successfully"])%list).
Proof.
  exists (Json.JObject [("action", Json.JString "opened")]).
  split; [vm_compute; reflexivity|].
  apply validateWebhookSignature_accepts_reserialized; [reflexivity | discriminate].
Qed.

End RawBody.

(** ** Dispatch *)

(** C2.  Dispatching a [pull_request] event never reaches the pipeline: the
    table holds the [pullRequestHandler] object, calling it throws a
    [TypeError], and [handle] logs the failure and throws it again.  No file
    is fetched, the backend is not called, nothing is published. *)
Theorem WebhookHandler_handle_pull_request
    (payload : Payload) (metadata : Metadata) (w : World) (tr : trace) :
  WebhookHandler.handle (Some "pull_request") payload metadata w tr
  = (inl (TypeError "handler is not a function"),
     (tr ++ [Log error "Failed to handle pull_request event"])%list)
  /\ fetches (snd (WebhookHandler.handle (Some "pull_request") payload metadata w tr)) = fetches tr
  /\ backend_calls (snd (WebhookHandler.handle (Some "pull_request") payload metadata w tr))
     = backend_calls tr
  /\ publications (snd (WebhookHandler.handle (Some "pull_request") payload metadata w tr))
     = publications tr.
Proof.
  split; [reflexivity|].
  change (snd (WebhookHandler.handle (Some "pull_request") payload metadata w tr))
    with (tr ++ [Log error "Failed to handle pull_request event"])%list.
  unfold fetches, backend_calls, publications.
  rewrite !filter_app. cbn. rewrite !app_nil_r. auto.
Qed.

(** The webhook caller sees a 500 for every verified [pull_request] delivery. *)
Lemma route_pull_request req body w tr :
  x_github_event req = Some "pull_request" ->
  req_body req = Some body ->
  WebhookRoute.route req w tr
  = (inr {| statusCode := 500;
            json := [("error", Some "Webhook processing failed");
                     ("delivery", x_github_delivery req)] |},
     (tr ++ [Log info "Webhook received";
             Log error "Failed to handle pull_request event";
             Log error "Webhook processing failed"])%list).
Proof.
  intros Hev Hbody. unfold WebhookRoute.route, try_catch, bind.
  rewrite Hev, Hbody. cbn. rewrite <- !app_assoc. reflexivity.
Qed.

(** Scenario A delivered to [POST /webhook/github]: the answer is a 500. *)
Example post_github_scenario_A :
  WebhookRoute.payload_of Sample.body_A = Sample.scenario_A
  /\ exists tr,
       WebhookRoute.post_github Sample.delivery_A Sample.world_A []
       = (inr {| statusCode := 500;
                 json := [("error", Some "Webhook processing failed");
                          ("delivery", Some "72d3162e-cc78-11e3-81ab-4c9367dc0958")] |}, tr)
       /\ fetches tr = 0%nat /\ backend_calls tr = 0%nat /\ publications tr = 0%nat.
Proof.
  split; [vm_compute; reflexivity|].
  eexists. split; [vm_compute; reflexivity|]. repeat split.
Qed.

(** The two sibling entries of the table are functions and do run. *)
Lemma WebhookHandler_handle_review payload metadata w tr :
  WebhookHandler.handle (Some "pull_request_review") payload metadata w tr
  = (inr tt,
     (tr ++ [Log info "Pull request review event received";
             Log info "Successfully handled pull_request_review event"])%list).
Proof. cbn. rewrite <- app_assoc. reflexivity. Qed.

(** ** The pipeline's gates *)

(** Scenario C: an action other than [opened] and [synchronize] does no work. *)
Lemma PullRequestHandler_handle_other_action payload metadata w tr :
  action payload <> "opened" -> action payload <> "synchronize" ->
  PullRequestHandler.handle payload metadata w tr
  = (inr tt, (tr ++ [Log info ("Ignoring PR action: " ++ action payload)])%list).
Proof.
  intros H1 H2. unfold PullRequestHandler.handle, Js.array_includes. cbn [existsb].
  destruct (String.eqb_spec (action payload) "opened"); [contradiction|].
  destruct (String.eqb_spec (action payload) "synchronize"); [contradiction|].
  reflexivity.
Qed.

Lemma PullRequestHandler_handle_draft payload metadata w tr :
  action payload = "opened" \/ action payload = "synchronize" ->
  draft (pull_request payload) = true ->
  PullRequestHandler.handle payload metadata w tr
  = (inr tt, (tr ++ [Log info "Processing pull request"; Log info "Skipping draft PR"])%list).
Proof.
  intros Hact Hdraft. unfold PullRequestHandler.handle, Js.array_includes. cbn [existsb].
  destruct Hact as [-> | ->]; cbn [String.eqb Ascii.eqb Bool.eqb orb negb andb];
    unfold try_catch, bind; cbn; rewrite Hdraft; cbn; rewrite <- app_assoc; reflexivity.
Qed.

(** Scenario B: a pull request whose author is a [Bot] is not fetched. *)
Lemma PullRequestHandler_handle_bot payload metadata w tr :
  action payload = "opened" \/ action payload = "synchronize" ->
  draft (pull_request payload) = false ->
  user_type (user (pull_request payload)) = "Bot" ->
  PullRequestHandler.handle payload metadata w tr
  = (inr tt, (tr ++ [Log info "Processing pull request"; Log info "Skipping bot PR"])%list).
Proof.
  intros Hact Hdraft Hbot. unfold PullRequestHandler.handle, Js.array_includes. cbn [existsb].
  destruct Hact as [-> | ->]; cbn [String.eqb Ascii.eqb Bool.eqb orb negb andb];
    unfold try_catch, bind; cbn; rewrite Hdraft, Hbot; cbn; rewrite <- app_assoc; reflexivity.
Qed.

(** Scenario A on the pipeline itself, called as [pullRequestHandler.handle]:
    the files are fetched once, [app.js] is triaged in, the backend (here the
    mock) is called once, and its finding is published in one batch. *)
Example PullRequestHandler_handle_scenario_A :
  exists tr finding,
    PullRequestHandler.handle Sample.scenario_A Sample.metadata Sample.world_A [] = (inr tt, tr)
    /\ PullRequestHandler.filterReviewableFiles empty_env [Sample.app_js] = [Sample.app_js]
    /\ fetches tr = 1%nat
    /\ backend_calls tr = 1%nat
    /\ filter is_publication tr = [PostReviewComments "octo" "demo" 7 [finding]]
    /\ path finding = "app.js"
    /\ CodeAnalysisService.parseAIResponse
         (Json.stringify (Json.JObject [("comments", Json.JArray [AIService.mockComment])]))
         Sample.app_js Sample.world_A []
       = (inr [finding], []).
Proof.
  eexists. eexists. split; [vm_compute; reflexivity|].
  repeat split; vm_compute; reflexivity.
Qed.

(** * Further properties *)

(** ** Bookkeeping of effects *)

Section Effects.
Context {A : Type} (p : event -> bool).

Lemma count_app (tr1 tr2 : trace) :
  count p (tr1 ++ tr2)%list = (count p tr1 + count p tr2)%nat.
Proof. unfold count. rewrite filter_app, length_app. reflexivity. Qed.

Lemma adds_run (m : M A) k w tr :
  adds p m k -> exists evs, snd (m w tr) = (tr ++ evs)%list /\ count p evs = k.
Proof. intros [H]. apply H. Qed.

Lemma adds_count (m : M A) k w tr :
  adds p m k -> count p (snd (m w tr)) = (count p tr + k)%nat.
Proof. intros H. destruct (adds_run m k w tr H) as (evs & -> & <-). apply count_app. Qed.

Lemma never_throws_run (m : M A) w tr : never_throws m -> exists x, fst (m w tr) = inr x.
Proof. intros [H]. apply H. Qed.

Lemma adds_ret (x : A) : adds p (ret x) 0.
Proof. constructor. intros w tr. exists []. cbn. rewrite app_nil_r. auto. Qed.

Lemma adds_throw (e : exn) : adds p (@throw A e) 0.
Proof. constructor. intros w tr. exists []. cbn. rewrite app_nil_r. auto. Qed.

Lemma adds_lift (r : exn + A) : adds p (lift r) 0.
Proof. destruct r; [apply adds_throw | apply adds_ret]. Qed.

Lemma adds_remote ev (answer : World -> trace -> exn + A) :
  adds p (remote ev answer) (if p ev then 1 else 0).
Proof.
  constructor. intros w tr. exists [ev]. cbn. split; [reflexivity|].
  unfold count. cbn. destruct (p ev); reflexivity.
Qed.

Lemma adds_remote_quiet ev (answer : World -> trace -> exn + A) :
  p ev = false -> adds p (remote ev answer) 0.
Proof. intros H. pose proof (adds_remote ev answer) as Hl. rewrite H in Hl. exact Hl. Qed.

Lemma never_throws_ret (x : A) : never_throws (ret x).
Proof. constructor. intros w tr. eexists. reflexivity. Qed.

Lemma never_throws_try (m : M A) h :
  (forall e, never_throws (h e)) -> never_throws (try_catch m h).
Proof.
  intros Hh. constructor. intros w tr. unfold try_catch.
  destruct (m w tr) as [[e|x] tr']; [apply never_throws_run, Hh | eexists; reflexivity].
Qed.

Lemma adds_try (m : M A) h k :
  adds p m k -> (forall e, adds p (h e) 0) -> adds p (try_catch m h) k.
Proof.
  intros Hm Hh. constructor. intros w tr. unfold try_catch.
  destruct (adds_run m k w tr Hm) as (evs & Hevs & Hk).
  destruct (m w tr) as [[e|x] tr']; cbn in Hevs; subst tr'.
  - destruct (adds_run (h e) 0 w (tr ++ evs)%list (Hh e)) as (evs' & -> & Hk').
    exists (evs ++ evs')%list. rewrite app_assoc, count_app. split; [reflexivity | lia].
  - exists evs. auto.
Qed.

End Effects.

Section EffectsBind.
Context {A B : Type} (p : event -> bool).

Lemma adds_emit ev : adds p (emit ev) (if p ev then 1 else 0).
Proof.
  constructor. intros w tr. exists [ev]. cbn. split; [reflexivity|].
  unfold count. cbn. destruct (p ev); reflexivity.
Qed.

Lemma adds_log lvl msg : adds p (log lvl msg) (if p (Log lvl msg) then 1 else 0).
Proof. apply adds_emit. Qed.

Lemma adds_log_quiet lvl msg : p (Log lvl msg) = false -> adds p (log lvl msg) 0.
Proof. intros H. pose proof (adds_log lvl msg) as Hl. rewrite H in Hl. exact Hl. Qed.

Lemma adds_log_one lvl msg : p (Log lvl msg) = true -> adds p (log lvl msg) 1.
Proof. intros H. pose proof (adds_log lvl msg) as Hl. rewrite H in Hl. exact Hl. Qed.

Lemma adds_emit_quiet ev : p ev = false -> adds p (emit ev) 0.
Proof. intros H. pose proof (adds_emit ev) as Hl. rewrite H in Hl. exact Hl. Qed.

Lemma adds_env : adds p env 0.
Proof. constructor. intros w tr. exists []. cbn. rewrite app_nil_r. auto. Qed.

Lemma never_throws_log lvl msg : never_throws (log lvl msg).
Proof. constructor. intros w tr. eexists. reflexivity. Qed.

Lemma never_throws_env : never_throws env.
Proof. constructor. intros w tr. eexists. reflexivity. Qed.

Lemma never_throws_bind (m : M A) (f : A -> M B) :
  never_throws m -> (forall x, never_throws (f x)) -> never_throws (bind m f).
Proof.
  intros Hm Hf. constructor. intros w tr. unfold bind.
  destruct (never_throws_run m w tr Hm) as (x & Hx).
  destruct (m w tr) as [[e|y] tr']; cbn in Hx; [discriminate|].
  apply never_throws_run, Hf.
Qed.

(** What follows a computation that cannot throw adds to what it added. *)
Lemma adds_bind (m : M A) (f : A -> M B) a b :
  adds p m a -> never_throws m -> (forall x, adds p (f x) b) -> adds p (bind m f) (a + b).
Proof.
  intros Hm Hnt Hf. constructor. intros w tr. unfold bind.
  destruct (adds_run p m a w tr Hm) as (evs & Hevs & Hk).
  destruct (never_throws_run m w tr Hnt) as (x & Hx).
  destruct (m w tr) as [[e|y] tr']; cbn in Hevs, Hx; [discriminate|]. subst tr'.
  destruct (adds_run p (f y) b w (tr ++ evs)%list (Hf y)) as (evs' & -> & Hk').
  exists (evs ++ evs')%list. rewrite app_assoc, count_app. split; [reflexivity | lia].
Qed.

(** What follows adds nothing: the count is that of the first part, thrown
    or not. *)
Lemma adds_bind_quiet (m : M A) (f : A -> M B) a :
  adds p m a -> (forall x, adds p (f x) 0) -> adds p (bind m f) a.
Proof.
  intros Hm Hf. constructor. intros w tr. unfold bind.
  destruct (adds_run p m a w tr Hm) as (evs & Hevs & Hk).
  destruct (m w tr) as [[e|y] tr']; cbn in Hevs; subst tr'.
  - exists evs. auto.
  - destruct (adds_run p (f y) 0 w (tr ++ evs)%list (Hf y)) as (evs' & -> & Hk').
    exists (evs ++ evs')%list. rewrite app_assoc, count_app. split; [reflexivity | lia].
Qed.

End EffectsBind.

(** Goals [adds p m 0] and [never_throws m] over the constructs of the monad. *)
Ltac quiet :=
  repeat first
    [ apply adds_ret | apply adds_throw | apply adds_lift | apply adds_env
    | apply adds_log_quiet; reflexivity
    | apply adds_emit_quiet; reflexivity
    | apply adds_remote_quiet; reflexivity
    | apply adds_try; [|intro]
    | apply adds_bind_quiet; [|intro]
    | match goal with
      | |- adds _ (if ?b then _ else _) _ => destruct b
      | |- adds _ (match ?x with _ => _ end) _ => destruct x
      end ].

Ltac total :=
  repeat first
    [ apply never_throws_ret | apply never_throws_log | apply never_throws_env
    | apply never_throws_try; intro
    | apply never_throws_bind; [|intro]
    | match goal with
      | |- never_throws (if ?b then _ else _) => destruct b
      | |- never_throws (match ?x with _ => _ end) => destruct x
      end ].


(** ** File data *)

Section FileData.
Import CodeAnalysisService.

(** The content request of [getFileContent], as [getFileData] uses it. *)
Lemma getFileContent_guarded owner repo file_path w tr :
  exists evs,
    try_catch
      (c <- GitHubService.getFileContent owner repo file_path "HEAD" ;; ret (Some c))
      (fun _ => log warn "Could not fetch file content, using patch only" ;; ret None) w tr
    = (inr match octokit_getContent w (tr ++ [Log debug "Fetching file content"])%list
                   owner repo file_path "HEAD" with
           | inr data =>
               if String.eqb (data_type data) "file" then Some (data_content data) else None
           | inl _ => None
           end,
       (tr ++ evs)%list)
    /\ filter is_content_request evs = [GetContent owner repo file_path "HEAD"]
    /\ count is_backend_call evs = 0%nat
    /\ count is_fetch evs = 0%nat
    /\ count is_publication evs = 0%nat
    /\ count is_post evs = 0%nat.
Proof.
  unfold GitHubService.getFileContent, try_catch, bind, remote, log, emit, ret, throw.
  destruct (octokit_getContent w _ owner repo file_path "HEAD") as [e|data].
  - eexists. rewrite <- !app_assoc. split; [reflexivity|]. repeat split.
  - destruct (String.eqb (data_type data) "file"); cbn.
    + eexists. rewrite <- !app_assoc. split; [reflexivity|]. repeat split.
    + eexists. rewrite <- !app_assoc. split; [reflexivity|]. repeat split.
Qed.

Lemma getFileData_some file context w tr :
  exists data, fst (getFileData file context w tr) = inr (Some data).
Proof.
  unfold getFileData.
  destruct (String.eqb (status file) "added").
  - eexists. reflexivity.
  - destruct (getFileContent_guarded (content_owner context) (content_repo context)
                (filename file) w tr) as (evs & Hrun & _).
    unfold try_catch at 1. cbv zeta. unfold bind at 1.
    fold (content_owner context). fold (content_repo context).
    rewrite Hrun. eexists. reflexivity.
Qed.

Lemma getFileData_no_backend file context :
  adds is_backend_call (getFileData file context) 0.
Proof. unfold getFileData, GitHubService.getFileContent. quiet. Qed.

(** X1.  [getFileData] always returns file data.  For an added file it asks
    the repository nothing and hands over the patch alone.  For any other
    file it asks once for the content, at reference [HEAD] of the repository
    named by [context.repository], and falls back to the patch alone when
    the call fails or the entry is not a file. *)
Theorem getFileData_degrades (file : ChangedFile) (context : Context) (w : World) (tr : trace) :
  let added := String.eqb (status file) "added" in
  exists evs,
    getFileData file context w tr
    = (inr (Some {| fd_content := if added then None else content_answer w tr file context;
                    fd_patch := patch file;
                    fd_isNewFile := added |}),
       (tr ++ evs)%list)
    /\ filter is_content_request evs = (if added then [] else [content_request file context])
    /\ count is_backend_call evs = 0%nat
    /\ count is_fetch evs = 0%nat
    /\ count is_publication evs = 0%nat.
Proof.
  cbv zeta. unfold getFileData.
  destruct (String.eqb (status file) "added") eqn:Hst.
  - exists []. unfold try_catch. cbn. rewrite app_nil_r. repeat split.
  - destruct (getFileContent_guarded (content_owner context) (content_repo context)
                (filename file) w tr) as (evs & Hrun & Hreq & Hb & Hf & Hp & _).
    exists evs. split; [|repeat split; assumption].
    unfold try_catch at 1. cbv zeta. unfold bind at 1.
    fold (content_owner context). fold (content_repo context).
    rewrite Hrun. reflexivity.
Qed.

End FileData.


(** ** The parser on every text *)

Section ParsingTotal.
Import CodeAnalysisService.

Lemma toFinding_well_formed file c f : toFinding file c = inr f -> well_formed file f.
Proof.
  unfold toFinding.
  destruct (member c "line") as [e|l]; [discriminate|].
  destruct (member c "body") as [e|b]; [discriminate|].
  destruct (member c "severity") as [e|s]; [discriminate|].
  destruct (member c "category") as [e|g]; [discriminate|].
  destruct (member c "suggestion") as [e|u]; [discriminate|].
  intros [= <-]. unfold well_formed, or_default. cbn.
  repeat split.
  - destruct s as [x|]; [destruct (Json.truthy x) eqn:E; [exact E|]|]; reflexivity.
  - destruct g as [x|]; [destruct (Json.truthy x) eqn:E; [exact E|]|]; reflexivity.
Qed.

Lemma map_throwing_well_formed file items out :
  map_throwing (toFinding file) items = inr out ->
  Forall (well_formed file) out /\ List.length out = List.length items.
Proof.
  revert out. induction items as [|c items IH]; intros out; cbn.
  - intros [= <-]. split; [constructor | reflexivity].
  - destruct (toFinding file c) as [e|f] eqn:Hf; [discriminate|].
    destruct (map_throwing (toFinding file) items) as [e|fs]; [discriminate|].
    intros [= <-]. destruct (IH fs eq_refl) as [Hall Hlen].
    split; [constructor; [eapply toFinding_well_formed, Hf | exact Hall] | cbn; lia].
Qed.

(** X2.  On every text the parser returns and does not throw.  Every
    finding it returns carries the file's name as path and a truthy severity
    and category.  It logs at most one entry, and when it logs one it
    returns no finding. *)
Theorem parseAIResponse_total (text : string) (file : ChangedFile) (w : World) (tr : trace) :
  exists out evs,
    parseAIResponse text file w tr = (inr out, (tr ++ evs)%list)
    /\ Forall (well_formed file) out
    /\ ((evs = [] \/ exists lvl msg, evs = [Log lvl msg] /\ out = [])).
Proof.
  unfold parseAIResponse, try_catch, bind, lift, JSON_parse.
  destruct (Json.parse text) as [v|].
  2:{ exists [], [Log error "Failed to parse AI response"]. cbn. eauto 10. }
  cbn. destruct (member v "comments") as [e|comments].
  { exists [], [Log error "Failed to parse AI response"]. cbn. eauto 10. }
  cbn. destruct (negb (truthy comments) || negb (isArray comments)) eqn:Hbad.
  { exists [], [Log warn "Invalid AI response format"]. cbn. eauto 10. }
  destruct comments as [[| | | |items|]|]; try solve [exists [], []; cbn; rewrite app_nil_r; auto].
  destruct (map_throwing (toFinding file) items) as [e|out] eqn:Hmap; cbn.
  - exists [], [Log error "Failed to parse AI response"]. eauto 10.
  - exists out, []. rewrite app_nil_r. split; [reflexivity|].
    split; [apply (map_throwing_well_formed file items out Hmap) | auto].
Qed.

End ParsingTotal.

(** ** Backend invocations *)

Section BackendCalls.
Import CodeAnalysisService.

Lemma analyzeCode_adds_one prompt : adds is_backend_call (AIService.analyzeCode prompt) 1.
Proof.
  unfold AIService.analyzeCode.
  apply (adds_bind _ _ _ 0 1); [apply adds_env | apply never_throws_env |]. intros e.
  apply adds_bind_quiet; [apply adds_log_one; reflexivity|].
  intros _. unfold AIService.analyzeWithOpenAI, AIService.analyzeWithAnthropic,
    AIService.analyzeWithMock. quiet.
Qed.

Lemma analyzeFile_rest_adds_one prompt file :
  adds is_backend_call
    (aiResponse <- AIService.analyzeCode prompt ;;
     comments <- parseAIResponse aiResponse file ;;
     log debug "File analysis completed" ;;
     ret comments) 1.
Proof.
  apply adds_bind_quiet; [apply analyzeCode_adds_one|]. intros r.
  unfold parseAIResponse. quiet.
Qed.

Lemma analyzeFile_adds file context :
  adds is_backend_call (analyzeFile file context) (if analysed file then 1 else 0).
Proof.
  constructor. intros w tr. unfold analyzeFile, analysed. rewrite bind_log.
  destruct (isBinaryFile file); cbn [negb].
  - rewrite bind_log. cbn. eexists. rewrite <- app_assoc. split; reflexivity.
  - unfold bind at 1.
    destruct (getFileData_some file context w (tr ++ [Log debug "Analyzing file"])%list)
      as (data & Hdata).
    destruct (adds_run is_backend_call _ 0 w (tr ++ [Log debug "Analyzing file"])%list
                (getFileData_no_backend file context)) as (evs & Hevs & Hb).
    destruct (getFileData file context w (tr ++ [Log debug "Analyzing file"])%list)
      as [r tr1]. cbn in Hdata, Hevs. subst r tr1.
    match goal with
    | |- context [bind (AIService.analyzeCode ?pr) ?k] =>
        destruct (adds_run is_backend_call _ 1 w
                    ((tr ++ [Log debug "Analyzing file"]) ++ evs)%list
                    (analyzeFile_rest_adds_one pr file)) as (evs' & Hrun & Hone)
    end.
    rewrite Hrun. exists ([Log debug "Analyzing file"] ++ evs ++ evs')%list.
    rewrite <- !app_assoc. split; [reflexivity|].
    rewrite !count_app, Hb, Hone. reflexivity.
Qed.

Lemma analyzeFiles_step_adds context file results :
  adds is_backend_call (analyzeFiles_step context file results) (if analysed file then 1 else 0).
Proof.
  unfold analyzeFiles_step. apply adds_try.
  - apply adds_bind_quiet; [apply analyzeFile_adds|]. intros found. quiet.
  - intros e. quiet.
Qed.

Lemma analyzeFiles_step_total context file results :
  never_throws (analyzeFiles_step context file results).
Proof. unfold analyzeFiles_step. total. Qed.

Lemma analyzeFiles_loop_adds context files results :
  adds is_backend_call (analyzeFiles_loop context files results)
       (List.length (filter analysed files)).
Proof.
  revert results. induction files as [|file rest IH]; intros results; cbn [analyzeFiles_loop].
  - apply adds_ret.
  - replace (List.length (filter analysed (file :: rest)))
      with ((if analysed file then 1 else 0) + List.length (filter analysed rest))%nat
      by (cbn; destruct (analysed file); reflexivity).
    apply adds_bind;
      [apply analyzeFiles_step_adds | apply analyzeFiles_step_total | intros r; apply IH].
Qed.

(** X3.  The batch analysis invokes the backend exactly once for every file
    that is not binary and not at all for a binary one, whatever the world
    answers and whichever files fail. *)
Theorem analyzeFiles_backend_calls
    (files : list ChangedFile) (context : Context) (w : World) (tr : trace) :
  backend_calls (snd (analyzeFiles files context w tr))
  = (backend_calls tr + List.length (filter analysed files))%nat.
Proof.
  apply (adds_count is_backend_call).
  unfold analyzeFiles.
  replace (List.length (filter analysed files))
    with (0 + List.length (filter analysed files))%nat by reflexivity.
  apply adds_bind; [apply adds_log_quiet; reflexivity | apply never_throws_log |].
  intros _. apply adds_bind_quiet; [apply analyzeFiles_loop_adds|].
  intros results. quiet.
Qed.

End BackendCalls.


(** ** The pipeline *)

Section Pipeline.
Import PullRequestHandler.

Lemma getPullRequestFiles_run owner repo n w tr :
  GitHubService.getPullRequestFiles owner repo n w tr
  = match octokit_listFiles w (tr ++ [Log debug "Fetching PR files"])%list owner repo n with
    | inr files =>
        (inr files,
         (tr ++ [Log debug "Fetching PR files"; ListFiles owner repo n;
                 Log debug "Fetched PR files"])%list)
    | inl e =>
        (inl e,
         (tr ++ [Log debug "Fetching PR files"; ListFiles owner repo n;
                 Log error "Failed to fetch PR files"])%list)
    end.
Proof.
  unfold GitHubService.getPullRequestFiles, try_catch, bind, remote, log, emit, ret, throw.
  destruct (octokit_listFiles w _ owner repo n); rewrite <- !app_assoc; reflexivity.
Qed.

Lemma log_all_run lvl msgs w tr :
  log_all lvl msgs w tr = (inr tt, (tr ++ map (Log lvl) msgs)%list).
Proof.
  revert tr. induction msgs as [|m msgs IH]; intros tr; cbn [log_all map].
  - cbn. rewrite app_nil_r. reflexivity.
  - rewrite bind_log, IH, <- app_assoc. reflexivity.
Qed.

Lemma filterReviewableFiles_logged_run files w tr :
  filterReviewableFiles_logged files w tr
  = (inr (filterReviewableFiles (process_env w) files),
     (tr ++ size_warnings (process_env w) files)%list).
Proof.
  unfold filterReviewableFiles_logged. rewrite bind_env. unfold bind.
  rewrite log_all_run. unfold size_warnings. rewrite map_map. reflexivity.
Qed.

Lemma analyzeFiles_run files context w tr :
  CodeAnalysisService.analyzeFiles files context w tr
  = (inr (List.concat (fst (contributions context w files
                              (tr ++ [Log info "Starting code analysis"])%list))),
     (snd (contributions context w files (tr ++ [Log info "Starting code analysis"])%list)
      ++ [Log info "Code analysis completed"])%list).
Proof.
  unfold CodeAnalysisService.analyzeFiles. rewrite bind_log. unfold bind at 1.
  rewrite analyzeFiles_loop_run. cbn [app]. rewrite bind_log. reflexivity.
Qed.

Lemma gates_open_inv payload :
  gates_open payload = true ->
  Js.array_includes (action payload) ["opened"; "synchronize"] = true
  /\ draft (pull_request payload) = false
  /\ String.eqb (user_type (user (pull_request payload))) "Bot" = false.
Proof.
  unfold gates_open. intros H.
  apply andb_prop in H. destruct H as [H Hbot].
  apply andb_prop in H. destruct H as [Hact Hdraft].
  apply negb_true_iff in Hdraft, Hbot. auto.
Qed.

Lemma filterReviewableFiles_nil e : filterReviewableFiles e [] = [].
Proof.
  pose proof (subseq_length _ _ (slice_subseq 0 (maxFiles e)
                (filter (keep (maxLinesPerFile e)) []))) as H.
  unfold filterReviewableFiles.
  destruct (Js.slice 0 (maxFiles e) (filter (keep (maxLinesPerFile e)) []));
    [reflexivity | cbn in H; lia].
Qed.

Lemma size_warnings_logs e files :
  filter (fun ev => negb (is_log ev)) (size_warnings e files) = [].
Proof.
  unfold size_warnings.
  induction (filter (tooLarge (maxLinesPerFile e)) files) as [|f l IH]; [reflexivity|].
  cbn. exact IH.
Qed.

(** The pipeline behind its gates. *)
Lemma handle_gates_open payload metadata w tr :
  gates_open payload = true ->
  handle payload metadata w tr
  = try_catch
      (files <- GitHubService.getPullRequestFiles
                  (owner_login (repository payload)) (name (repository payload))
                  (number (pull_request payload)) ;;
       if Z.of_nat (List.length files) =? 0 then
         log info "No files to review" ;; ret tt
       else
         reviewableFiles <- filterReviewableFiles_logged files ;;
         if Z.of_nat (List.length reviewableFiles) =? 0 then
           log info "No reviewable files found" ;; ret tt
         else
           log info "Starting code analysis" ;;
           analysisResults <- CodeAnalysisService.analyzeFiles reviewableFiles
                                (context_of payload) ;;
           ReviewCommentService.postReviewComments
             (owner_login (repository payload)) (name (repository payload))
             (number (pull_request payload)) analysisResults ;;
           log info "Pull request review completed" ;;
           ret tt)
      (fun e => log error "Failed to process pull request" ;; throw e)
      w (tr ++ [Log info "Processing pull request"])%list.
Proof.
  intros H. destruct (gates_open_inv payload H) as (Hact & Hdraft & Hbot).
  unfold handle. rewrite Hact. cbn [negb]. rewrite bind_log.
  unfold try_catch. rewrite Hdraft, Hbot. reflexivity.
Qed.

(** X4.  When a gate is closed (another action, a draft, a bot's pull
    request), the pipeline returns normally and leaves log entries only:
    it lists no files, calls no backend, publishes nothing. *)
Theorem handle_gated (payload : Payload) (metadata : Metadata) (w : World) (tr : trace) :
  gates_open payload = false ->
  exists evs,
    handle payload metadata w tr = (inr tt, (tr ++ evs)%list)
    /\ forallb is_log evs = true.
Proof.
  unfold gates_open, handle. intros H.
  destruct (Js.array_includes (action payload) ["opened"; "synchronize"]); cbn [negb].
  - rewrite bind_log. unfold try_catch.
    destruct (draft (pull_request payload)).
    + rewrite bind_log. eexists. cbn. rewrite <- app_assoc. split; reflexivity.
    + destruct (String.eqb (user_type (user (pull_request payload))) "Bot");
        [|discriminate H].
      rewrite bind_log. eexists. cbn. rewrite <- app_assoc. split; reflexivity.
  - rewrite bind_log. eexists. split; reflexivity.
Qed.

Lemma handle_gated_witness :
  gates_open Fixture.closed = false
  /\ exists evs,
       handle Fixture.closed Sample.metadata Sample.world_A [] = (inr tt, evs)
       /\ forallb is_log evs = true.
Proof.
  split; [reflexivity|].
  exact (handle_gated Fixture.closed Sample.metadata Sample.world_A [] eq_refl).
Defined.

(** X5.  When the gates are open and listing the files fails, the pipeline
    throws that same error after one request: nothing is analysed and
    nothing is published. *)
Theorem handle_fetch_failure
    (payload : Payload) (metadata : Metadata) (w : World) (tr : trace) (e : exn) :
  gates_open payload = true ->
  listing w tr payload = inl e ->
  handle payload metadata w tr
  = (inl e,
     (tr ++ [Log info "Processing pull request"; Log debug "Fetching PR files";
             list_request payload; Log error "Failed to fetch PR files";
             Log error "Failed to process pull request"])%list).
Proof.
  intros Hadm Hlist. rewrite (handle_gates_open payload metadata w tr Hadm).
  unfold try_catch, bind at 1. rewrite getPullRequestFiles_run.
  unfold listing in Hlist. rewrite <- app_assoc. cbn [app]. rewrite Hlist.
  cbn. rewrite <- !app_assoc. reflexivity.
Qed.

Lemma handle_fetch_failure_witness :
  (gates_open Sample.scenario_A = true
   /\ listing Fixture.unreachable [] Sample.scenario_A = inl (Error "Not Found"))
  /\ handle Sample.scenario_A Sample.metadata Fixture.unreachable []
     = (inl (Error "Not Found"),
        [Log info "Processing pull request"; Log debug "Fetching PR files";
         list_request Sample.scenario_A; Log error "Failed to fetch PR files";
         Log error "Failed to process pull request"]).
Proof.
  split; [split; reflexivity|].
  exact (handle_fetch_failure Sample.scenario_A Sample.metadata Fixture.unreachable []
           (Error "Not Found") eq_refl eq_refl).
Defined.

(** X6.  When the gates are open and triage keeps no file (the list is empty
    or every file is excluded), the pipeline returns normally after its one
    request: the backend is not called and nothing is published. *)
Theorem handle_nothing_to_review
    (payload : Payload) (metadata : Metadata) (w : World) (tr : trace)
    (files : list ChangedFile) :
  gates_open payload = true ->
  listing w tr payload = inr files ->
  filterReviewableFiles (process_env w) files = [] ->
  exists evs,
    handle payload metadata w tr = (inr tt, (tr ++ evs)%list)
    /\ filter (fun ev => negb (is_log ev)) evs = [list_request payload].
Proof.
  intros Hadm Hlist Hnone. rewrite (handle_gates_open payload metadata w tr Hadm).
  unfold try_catch, bind at 1. rewrite getPullRequestFiles_run.
  unfold listing in Hlist. rewrite <- app_assoc. cbn [app]. rewrite Hlist.
  destruct files as [|file files].
  - cbn. eexists. rewrite <- !app_assoc. split; reflexivity.
  - cbn [List.length Z.of_nat]. cbn [Z.eqb]. unfold bind at 1.
    rewrite filterReviewableFiles_logged_run, Hnone.
    cbn [List.length Z.of_nat Z.eqb]. rewrite bind_log.
    exists ([Log info "Processing pull request"; Log debug "Fetching PR files";
             list_request payload; Log debug "Fetched PR files"]
            ++ size_warnings (process_env w) (file :: files)
            ++ [Log info "No reviewable files found"])%list.
    split.
    + unfold ret, list_request. repeat rewrite <- app_assoc. reflexivity.
    + rewrite !filter_app, size_warnings_logs. reflexivity.
Qed.

Lemma handle_nothing_to_review_witness :
  (gates_open Sample.scenario_A = true
   /\ listing Fixture.docs_only [] Sample.scenario_A = inr [Sample.readme_md]
   /\ filterReviewableFiles (process_env Fixture.docs_only) [Sample.readme_md] = [])
  /\ exists evs,
       handle Sample.scenario_A Sample.metadata Fixture.docs_only [] = (inr tt, evs)
       /\ filter (fun ev => negb (is_log ev)) evs = [list_request Sample.scenario_A].
Proof.
  assert (H : filterReviewableFiles (process_env Fixture.docs_only) [Sample.readme_md] = [])
    by (vm_compute; reflexivity).
  split; [split; [reflexivity | split; [reflexivity | exact H]]|].
  exact (handle_nothing_to_review Sample.scenario_A Sample.metadata Fixture.docs_only []
           [Sample.readme_md] eq_refl eq_refl H).
Defined.

(** X7.  When the gates are open and triage keeps some files, the pipeline
    analyses them in triage order, publishes the concatenation of their
    findings in one batch, and throws exactly when the publisher does. *)
Theorem handle_publishes_batch
    (payload : Payload) (metadata : Metadata) (w : World) (tr : trace)
    (files : list ChangedFile) :
  gates_open payload = true ->
  listing w tr payload = inr files ->
  filterReviewableFiles (process_env w) files <> [] ->
  let run := contributions (context_of payload) w
               (filterReviewableFiles (process_env w) files)
               (analysis_start w tr payload files) in
  let batch := List.concat (fst run) in
  let tr' := (snd run ++ [Log info "Code analysis completed"])%list in
  handle payload metadata w tr
  = match reviewComment_post w tr' (owner_login (repository payload))
            (name (repository payload)) (number (pull_request payload)) batch with
    | inr _ =>
        (inr tt,
         (tr' ++ [publication payload batch; Log info "Pull request review completed"])%list)
    | inl e =>
        (inl e,
         (tr' ++ [publication payload batch; Log error "Failed to process pull request"])%list)
    end.
Proof.
  intros Hadm Hlist Hsome. cbv zeta.
  rewrite (handle_gates_open payload metadata w tr Hadm).
  unfold try_catch, bind at 1. rewrite getPullRequestFiles_run.
  unfold listing in Hlist. rewrite <- app_assoc. cbn [app]. rewrite Hlist.
  destruct files as [|file files]; [contradiction Hsome; apply filterReviewableFiles_nil|].
  cbn [List.length Z.of_nat]. cbn [Z.eqb]. unfold bind at 1.
  rewrite filterReviewableFiles_logged_run.
  destruct (filterReviewableFiles (process_env w) (file :: files)) as [|kept rest] eqn:Hkept;
    [contradiction Hsome; reflexivity|].
  cbn [List.length Z.of_nat]. cbn [Z.eqb]. rewrite bind_log. unfold bind at 1.
  rewrite analyzeFiles_run.
  unfold analysis_start, list_request.
  repeat rewrite <- app_assoc. cbn [app].
  unfold bind, ReviewCommentService.postReviewComments, remote, publication.
  destruct (reviewComment_post w _ _ _ _ _); cbn; rewrite <- !app_assoc; reflexivity.
Qed.

Lemma handle_publishes_batch_witness :
  (gates_open Sample.scenario_A = true
   /\ listing Sample.world_A [] Sample.scenario_A = inr [Sample.app_js]
   /\ filterReviewableFiles (process_env Sample.world_A) [Sample.app_js] <> [])
  /\ exists batch evs,
       handle Sample.scenario_A Sample.metadata Sample.world_A [] = (inr tt, evs)
       /\ filter is_publication evs = [publication Sample.scenario_A batch]
       /\ List.length batch = 1%nat.
Proof.
  assert (H : filterReviewableFiles (process_env Sample.world_A) [Sample.app_js] <> [])
    by (vm_compute; discriminate).
  split; [split; [reflexivity | split; [reflexivity | exact H]]|].
  pose proof (handle_publishes_batch Sample.scenario_A Sample.metadata Sample.world_A []
                [Sample.app_js] eq_refl eq_refl H) as Hrun.
  cbv zeta in Hrun. eexists. eexists. split; [exact Hrun|].
  split; vm_compute; reflexivity.
Defined.

End Pipeline.


(** ** The mock backend *)

Section Mock.
Import CodeAnalysisService.

Lemma mock_response_decodes :
  JSON_parse (Json.stringify (Json.JObject [("comments", Json.JArray [AIService.mockComment])]))
  = inr (Json.JObject [("comments", Json.JArray [AIService.mockComment])]).
Proof. vm_compute. reflexivity. Qed.

Lemma analyzeCode_mock prompt w tr :
  AIService.detectProvider (process_env w) = mock ->
  AIService.analyzeCode prompt w tr
  = (inr (Json.stringify (Json.JObject [("comments", Json.JArray [AIService.mockComment])])),
     (tr ++ [Log debug "Starting AI code analysis"; Log info "Using mock AI response";
             Timer 1000; Log debug "AI analysis completed"])%list).
Proof.
  intros Hmock. unfold AIService.analyzeCode. rewrite bind_env, Hmock, bind_log.
  unfold try_catch, bind, AIService.analyzeWithMock, bind, log, emit, ret.
  rewrite <- !app_assoc. reflexivity.
Qed.

Lemma getFileData_no_post file context : adds is_post (getFileData file context) 0.
Proof. unfold getFileData, GitHubService.getFileContent. quiet. Qed.

(** With the mock selected, the analysis of a file that is not binary
    returns one finding, the canned comment bound to the file. *)
Lemma analyzeFile_mock_run (file : ChangedFile) (context : Context) (w : World) (tr : trace) :
  AIService.detectProvider (process_env w) = mock ->
  analysed file = true ->
  exists finding evs,
    analyzeFile file context w tr = (inr [finding], (tr ++ evs)%list)
    /\ renders file AIService.mockComment finding
    /\ count is_post evs = 0%nat
    /\ count is_backend_call evs = 1%nat.
Proof.
  intros Hmock Hfile. unfold analysed in Hfile. apply negb_true_iff in Hfile.
  unfold analyzeFile. rewrite bind_log, Hfile. unfold bind at 1.
  destruct (getFileData_some file context w (tr ++ [Log debug "Analyzing file"])%list)
    as (data & Hdata).
  destruct (adds_run is_post _ 0 w (tr ++ [Log debug "Analyzing file"])%list
              (getFileData_no_post file context)) as (evs & Hevs & Hpost).
  destruct (adds_run is_backend_call _ 0 w (tr ++ [Log debug "Analyzing file"])%list
              (getFileData_no_backend file context)) as (evs' & Hevs' & Hcalls).
  destruct (getFileData file context w (tr ++ [Log debug "Analyzing file"])%list) as [r tr1].
  cbn in Hdata, Hevs, Hevs'. subst r tr1. apply app_inv_head in Hevs'. subst evs'.
  unfold bind at 1. rewrite (analyzeCode_mock _ w _ Hmock).
  unfold bind at 1. unfold parseAIResponse, try_catch, bind at 1.
  rewrite mock_response_decodes. cbn.
  eexists. exists ([Log debug "Analyzing file"] ++ evs
                   ++ [Log debug "Starting AI code analysis"; Log info "Using mock AI response";
                       Timer 1000; Log debug "AI analysis completed";
                       Log debug "File analysis completed"])%list.
  split; [rewrite <- !app_assoc; reflexivity|].
  split; [repeat split|].
  rewrite !count_app, Hpost, Hcalls. split; reflexivity.
Qed.

Lemma analyzeFile_binary_run file context w tr :
  analysed file = false ->
  analyzeFile file context w tr
  = (inr [], (tr ++ [Log debug "Analyzing file"; Log debug "Skipping binary file"])%list).
Proof.
  unfold analysed. intros H. apply negb_false_iff in H.
  unfold analyzeFile. rewrite bind_log, H, bind_log. cbn.
  rewrite <- app_assoc. reflexivity.
Qed.

Lemma contributions_mock context w files :
  AIService.detectProvider (process_env w) = mock ->
  forall tr, exists evs,
    snd (contributions context w files tr) = (tr ++ evs)%list
    /\ count is_post evs = 0%nat
    /\ Forall2 (fun file finding => renders file AIService.mockComment finding)
         (filter analysed files)
         (List.concat (fst (contributions context w files tr))).
Proof.
  intros Hmock. induction files as [|file rest IH]; intros tr.
  - exists []. cbn. rewrite app_nil_r. repeat split. constructor.
  - cbn [contributions filter]. destruct (analysed file) eqn:Hfile.
    + destruct (analyzeFile_mock_run file context w tr Hmock Hfile)
        as (finding & evs & -> & Hrenders & Hpost & _).
      destruct (IH (tr ++ evs)%list) as (evs' & Hsnd & Hpost' & Hall).
      destruct (contributions context w rest (tr ++ evs)%list) as [cs tr2].
      cbn [fst snd] in *. subst tr2. exists (evs ++ evs')%list.
      rewrite <- app_assoc. split; [reflexivity|].
      rewrite count_app, Hpost, Hpost'. split; [reflexivity|].
      cbn [List.concat app]. constructor; assumption.
    + rewrite (analyzeFile_binary_run file context w tr Hfile).
      destruct (IH (tr ++ [Log debug "Analyzing file"; Log debug "Skipping binary file"])%list)
        as (evs' & Hsnd & Hpost' & Hall).
      destruct (contributions context w rest _) as [cs tr2].
      cbn [fst snd] in *. subst tr2.
      exists ([Log debug "Analyzing file"; Log debug "Skipping binary file"] ++ evs')%list.
      rewrite <- app_assoc. split; [reflexivity|].
      rewrite count_app, Hpost'. split; [reflexivity | exact Hall].
Qed.

(** X8.  With no provider key configured, the batch analysis returns one
    finding for every file that is not binary, in the order of the files:
    the canned comment of the mock bound to that file.  It sends no request
    to a provider. *)
Theorem analyzeFiles_mock
    (files : list ChangedFile) (context : Context) (w : World) (tr : trace) :
  AIService.detectProvider (process_env w) = mock ->
  exists findings evs,
    analyzeFiles files context w tr = (inr findings, (tr ++ evs)%list)
    /\ Forall2 (fun file finding => renders file AIService.mockComment finding)
         (filter analysed files) findings
    /\ count is_post evs = 0%nat.
Proof.
  intros Hmock. rewrite analyzeFiles_run.
  destruct (contributions_mock context w files Hmock
              (tr ++ [Log info "Starting code analysis"])%list) as (evs & Hsnd & Hpost & Hall).
  eexists. exists ([Log info "Starting code analysis"] ++ evs
                   ++ [Log info "Code analysis completed"])%list.
  split; [rewrite Hsnd, <- !app_assoc; reflexivity|].
  split; [exact Hall|].
  rewrite !count_app, Hpost. reflexivity.
Qed.

Lemma analyzeFiles_mock_witness :
  AIService.detectProvider (process_env Sample.world_A) = mock
  /\ exists findings evs,
       analyzeFiles [Sample.logo_png; Sample.main_py; Sample.app_js] Sample.context
         Sample.world_A [] = (inr findings, evs)
       /\ Forall2 (fun file finding => renders file AIService.mockComment finding)
            [Sample.main_py; Sample.app_js] findings
       /\ count is_post evs = 0%nat.
Proof.
  split; [reflexivity|].
  exact (analyzeFiles_mock [Sample.logo_png; Sample.main_py; Sample.app_js] Sample.context
           Sample.world_A [] eq_refl).
Defined.

End Mock.


(** ** Dispatch of every event *)

Section Dispatch.

Lemma array_includes_In x l : Js.array_includes x l = true <-> In x l.
Proof.
  unfold Js.array_includes. rewrite existsb_exists. split.
  - intros (y & Hy & Heq). apply String.eqb_eq in Heq. subst. exact Hy.
  - intros H. exists x. split; [exact H | apply String.eqb_refl].
Qed.

Lemma handlers_elsewhere name :
  Js.array_includes name answering_events = false ->
  WebhookHandler.handlers name = WebhookHandler.Undefined
  /\ Js.array_includes name raising_events = false.
Proof.
  intros H. unfold Js.array_includes in H. cbn in H.
  repeat match type of H with
         | (_ || _)%bool = false => apply orb_false_iff in H; destruct H as [? H]
         end.
  unfold WebhookHandler.handlers, Js.array_includes, raising_events.
  cbn [existsb WebhookHandler.returning_builtins WebhookHandler.throwing_builtins].
  repeat match goal with
         | E : String.eqb name ?lit = false |- _ => rewrite E; clear E
         end.
  split; reflexivity.
Qed.

(** X9.  Whatever the event, the dispatcher calls no collaborator: it leaves
    log entries only.  It returns normally for every event name except
    [pull_request] and the inherited names that cannot be called, on which
    it throws a [TypeError]; an unknown name is logged and ignored. *)
Theorem WebhookHandler_handle_outcome
    (event : option string) (payload : Payload) (metadata : Metadata) (w : World) (tr : trace) :
  exists evs,
    snd (WebhookHandler.handle event payload metadata w tr) = (tr ++ evs)%list
    /\ forallb is_log evs = true
    /\ (if Js.array_includes (WebhookHandler.show event) raising_events
        then exists message,
               fst (WebhookHandler.handle event payload metadata w tr) = inl (TypeError message)
        else fst (WebhookHandler.handle event payload metadata w tr) = inr tt).
Proof.
  unfold WebhookHandler.handle.
  set (name := WebhookHandler.show event). clearbody name.
  destruct (Js.array_includes name answering_events) eqn:Hk.
  - apply array_includes_In in Hk. cbn in Hk.
    repeat (destruct Hk as [<-|Hk]; [cbn; eexists; rewrite <- ?app_assoc;
                                     split; [reflexivity|]; split; [reflexivity|];
                                     first [reflexivity | eexists; reflexivity]|]).
    contradiction.
  - destruct (handlers_elsewhere name Hk) as [-> ->].
    cbn. eexists. split; [reflexivity|]. split; reflexivity.
Qed.

End Dispatch.


(** ** The endpoint *)

Section Endpoint.
Import WebhookAuth.

Lemma WebhookHandler_handle_logs event payload metadata w tr :
  exists evs,
    snd (WebhookHandler.handle event payload metadata w tr) = (tr ++ evs)%list
    /\ forallb is_log evs = true.
Proof.
  unfold WebhookHandler.handle.
  set (name := WebhookHandler.show event). clearbody name.
  destruct (Js.array_includes name answering_events) eqn:Hk.
  - apply array_includes_In in Hk. cbn in Hk.
    repeat (destruct Hk as [<-|Hk];
            [cbn; eexists; rewrite <- ?app_assoc; split; reflexivity|]).
    contradiction.
  - destruct (handlers_elsewhere name Hk) as [-> _].
    cbn. eexists. split; reflexivity.
Qed.

Lemma validateWebhookSignature_outcome req w tr :
  exists outcome evs,
    validateWebhookSignature req w tr = (inr outcome, (tr ++ evs)%list)
    /\ forallb is_log evs = true
    /\ (outcome = Next \/ exists reason, outcome = Respond (unauthorized reason)).
Proof.
  destruct (GITHUB_WEBHOOK_SECRET (process_env w)) as [secret|] eqn:Hsecret.
  2:{ unfold validateWebhookSignature. rewrite bind_env, Hsecret.
      do 2 eexists. split; [reflexivity|]. split; [reflexivity | auto]. }
  destruct (String.eqb_spec secret "") as [->|Hs].
  { unfold validateWebhookSignature. rewrite bind_env, Hsecret.
    do 2 eexists. split; [reflexivity|]. split; [reflexivity | auto]. }
  destruct (x_hub_signature_256 req) as [signature|] eqn:Hsig.
  2:{ unfold validateWebhookSignature. rewrite bind_env, Hsecret, Hsig.
      destruct secret; [congruence|].
      do 2 eexists. split; [reflexivity|]. split; [reflexivity | right; eexists; reflexivity]. }
  destruct (String.eqb_spec signature "") as [->|Hg].
  { unfold validateWebhookSignature. rewrite bind_env, Hsecret, Hsig.
    destruct secret; [congruence|].
    do 2 eexists. split; [reflexivity|]. split; [reflexivity | right; eexists; reflexivity]. }
  rewrite (validateWebhookSignature_configured req w tr secret signature Hsecret Hs Hsig Hg).
  unfold rejected.
  destruct (Crypto.createHmac_update_digest secret _) as [e|digest].
  { do 2 eexists. split; [reflexivity|]. split; [reflexivity | right; eexists; reflexivity]. }
  destruct (Crypto.timingSafeEqual signature _) as [e|[|]];
    do 2 eexists; (split; [reflexivity|]); (split; [reflexivity|]);
    first [left; reflexivity | right; eexists; reflexivity].
Qed.

Lemma route_outcome req w tr :
  exists res evs,
    WebhookRoute.route req w tr = (inr res, (tr ++ evs)%list)
    /\ forallb is_log evs = true
    /\ (statusCode res = 200 \/ statusCode res = 500).
Proof.
  unfold WebhookRoute.route, try_catch, bind at 1.
  destruct (req_body req) as [body|].
  - cbn [ret]. rewrite bind_log. unfold bind at 1.
    destruct (WebhookHandler_handle_logs (x_github_event req) (WebhookRoute.payload_of body)
                {| delivery := x_github_delivery req; signature := x_hub_signature_256 req |}
                w (tr ++ [Log info "Webhook received"])%list) as (evs & Hevs & Hlogs).
    destruct (WebhookHandler.handle _ _ _ w _) as [[e|[]] tr1]; cbn in Hevs; subst tr1.
    + do 2 eexists. cbn. rewrite <- !app_assoc. split; [reflexivity|].
      split; [|right; reflexivity].
      rewrite forallb_app, forallb_app, Hlogs. reflexivity.
    + do 2 eexists. cbn. rewrite <- !app_assoc. split; [reflexivity|].
      split; [|left; reflexivity].
      rewrite forallb_app, Hlogs. reflexivity.
  - do 2 eexists. cbn. split; [reflexivity|]. split; [reflexivity | right; reflexivity].
Qed.

(** X10.  [POST /webhook/github] never throws and answers every request with
    status 200, 401 or 500.  Whatever the request, it calls no collaborator:
    the run leaves log entries only. *)
Theorem post_github_answers (req : Request) (w : World) (tr : trace) :
  exists res evs,
    WebhookRoute.post_github req w tr = (inr res, (tr ++ evs)%list)
    /\ In (statusCode res) [200; 401; 500]
    /\ forallb is_log evs = true.
Proof.
  unfold WebhookRoute.post_github, bind.
  destruct (validateWebhookSignature_outcome req w tr)
    as (outcome & evs & -> & Hlogs & [-> | (reason & ->)]).
  - destruct (route_outcome req w (tr ++ evs)%list) as (res & evs' & -> & Hlogs' & Hstatus).
    exists res, (evs ++ evs')%list. rewrite <- app_assoc. split; [reflexivity|].
    split; [cbn; destruct Hstatus as [-> | ->]; auto|].
    rewrite forallb_app, Hlogs, Hlogs'. reflexivity.
  - exists (unauthorized reason), evs. split; [reflexivity|].
    split; [cbn; auto | exact Hlogs].
Qed.

(** X11.  With a secret configured, the verifier lets a request through
    exactly when its signature header is ["sha256="] followed by the hex
    HMAC-SHA256, under the secret, of [JSON.stringify(req.body)]; every
    other header, and a missing one, gets a 401. *)
Theorem validateWebhookSignature_accepts_iff
    (req : Request) (w : World) (tr : trace) (secret : string) (body : Json.value) :
  GITHUB_WEBHOOK_SECRET (process_env w) = Some secret -> secret <> "" ->
  req_body req = Some body ->
  (fst (validateWebhookSignature req w tr) = inr Next
   <-> x_hub_signature_256 req = Some (sign secret (Json.stringify body)))
  /\ (fst (validateWebhookSignature req w tr) = inr Next
      \/ exists reason,
           fst (validateWebhookSignature req w tr) = inr (Respond (unauthorized reason))).
Proof.
  intros Hsecret Hs Hbody.
  assert (Hsign : sign secret (Json.stringify body) <> "") by (unfold sign; cbn; discriminate).
  destruct (x_hub_signature_256 req) as [signature|] eqn:Hsig.
  2:{ assert (Hrun : fst (validateWebhookSignature req w tr)
                     = inr (Respond (unauthorized "Missing signature"))).
      { unfold validateWebhookSignature. rewrite bind_env, Hsecret, Hsig.
        destruct secret; [congruence | reflexivity]. }
      rewrite Hrun. split; [split; discriminate | right; eexists; reflexivity]. }
  destruct (String.eqb_spec signature "") as [->|Hg].
  { assert (Hrun : fst (validateWebhookSignature req w tr)
                   = inr (Respond (unauthorized "Missing signature"))).
    { unfold validateWebhookSignature. rewrite bind_env, Hsecret, Hsig.
      destruct secret; [congruence | reflexivity]. }
    rewrite Hrun. split; [|right; eexists; reflexivity].
    split; [discriminate|]. intros H.
    assert (sign secret (Json.stringify body) = "") by congruence. contradiction. }
  rewrite (validateWebhookSignature_configured req w tr secret signature Hsecret Hs Hsig Hg).
  rewrite Hbody. cbn [JSON_stringify option_map Crypto.createHmac_update_digest].
  fold (sign secret (Json.stringify body)).
  unfold Crypto.timingSafeEqual, rejected.
  destruct (Nat.eqb (String.length signature) _) eqn:Hlen.
  - destruct (String.eqb_spec signature (sign secret (Json.stringify body))) as [->|Hne];
      cbn [fst].
    + split; [tauto | left; reflexivity].
    + split; [|right; eexists; reflexivity].
      split; [discriminate|]. intros H.
      assert (signature = sign secret (Json.stringify body)) by congruence. contradiction.
  - cbn [fst]. split; [|right; eexists; reflexivity].
    split; [discriminate|]. intros H.
    assert (signature = sign secret (Json.stringify body)) by congruence. subst signature.
    rewrite Nat.eqb_refl in Hlen. discriminate.
Qed.

Lemma validateWebhookSignature_accepts_iff_witness :
  (GITHUB_WEBHOOK_SECRET (process_env Sample.world_secret) = Some "s3cr3t"
   /\ "s3cr3t" <> ""
   /\ req_body Fixture.signed_A = Some Sample.body_A)
  /\ fst (validateWebhookSignature Fixture.signed_A Sample.world_secret []) = inr Next.
Proof.
  split; [split; [reflexivity | split; [discriminate | reflexivity]]|].
  apply (proj1 (validateWebhookSignature_accepts_iff Fixture.signed_A Sample.world_secret []
                  "s3cr3t" Sample.body_A eq_refl ltac:(discriminate) eq_refl)).
  reflexivity.
Defined.

End Endpoint.

(** ** Extensions: triage and analysis agree *)

Section Extensions.
Import PullRequestHandler CodeAnalysisService.

Lemma toLowerCase_cons a r :
  Js.toLowerCase (String a r)
  = if Js.byte_of a =? 226 then
      match r with
      | String b (String c r') =>
          if (Js.byte_of b =? 132) && (Js.byte_of c =? 170)
          then String "k" (Js.toLowerCase r')
          else String a (Js.toLowerCase r)
      | _ => String (Js.lower_ascii a) (Js.toLowerCase r)
      end
    else if Js.byte_of a =? 196 then
      match r with
      | String b r' =>
          if Js.byte_of b =? 176
          then String "i" (String (Js.chr 204) (String (Js.chr 135) (Js.toLowerCase r')))
          else String a (Js.toLowerCase r)
      | _ => String (Js.lower_ascii a) (Js.toLowerCase r)
      end
    else String (Js.lower_ascii a) (Js.toLowerCase r).
Proof. destruct a as [[] [] [] [] [] [] [] []]; reflexivity. Qed.

Lemma lower_ascii_dot a : Ascii.eqb (Js.lower_ascii a) "." = Ascii.eqb a ".".
Proof. destruct a as [[] [] [] [] [] [] [] []]; reflexivity. Qed.

Lemma lower_ascii_high a : (Js.byte_of a =? 226) || (Js.byte_of a =? 196) = true ->
  Js.lower_ascii a = a.
Proof. destruct a as [[] [] [] [] [] [] [] []]; intros H; try reflexivity; discriminate H. Qed.

Lemma toLowerCase_dot t : Js.toLowerCase (String "." t) = String "." (Js.toLowerCase t).
Proof. rewrite toLowerCase_cons. reflexivity. Qed.

(** Lowering the case works on each side of a dot separately. *)
Lemma toLowerCase_app_dot n : forall pre t,
  (String.length pre <= n)%nat ->
  Js.toLowerCase (pre ++ String "." t) = Js.toLowerCase pre ++ String "." (Js.toLowerCase t).
Proof.
  induction n as [|n IH]; intros [|a p] t Hn; cbn [String.length] in Hn; try lia;
    try (cbn [append]; apply toLowerCase_dot).
  cbn [append]. rewrite (toLowerCase_cons a (p ++ String "." t)), (toLowerCase_cons a p).
  destruct (Js.byte_of a =? 226) eqn:H226.
  - rewrite (lower_ascii_high a) by (rewrite H226; reflexivity).
    destruct p as [|b [|c p']].
    + cbn [append]. rewrite toLowerCase_dot. destruct t; reflexivity.
    + pose proof (IH (String b "") t ltac:(cbn in *; lia)) as E.
      cbn [append] in E |- *. rewrite E.
      change (Js.byte_of "." =? 170) with false. rewrite andb_false_r. reflexivity.
    + pose proof (IH (String b (String c p')) t ltac:(cbn in *; lia)) as E.
      cbn [append] in E |- *.
      destruct ((Js.byte_of b =? 132) && (Js.byte_of c =? 170)).
      * rewrite (IH p' t) by (cbn in *; lia). reflexivity.
      * rewrite E. reflexivity.
  - destruct (Js.byte_of a =? 196) eqn:H196.
    + rewrite (lower_ascii_high a) by (rewrite H196; apply orb_true_r).
      destruct p as [|b p'].
      * cbn [append]. rewrite toLowerCase_dot. reflexivity.
      * pose proof (IH (String b p') t ltac:(cbn in *; lia)) as E.
        cbn [append] in E |- *.
        destruct (Js.byte_of b =? 176).
        -- rewrite (IH p' t) by (cbn in *; lia). reflexivity.
        -- rewrite E. reflexivity.
    + rewrite (IH p t) by lia. reflexivity.
Qed.

Lemma toLowerCase_dotless n : forall t,
  (String.length t <= n)%nat -> dotless t = true -> dotless (Js.toLowerCase t) = true.
Proof.
  induction n as [|n IH]; intros [|a t] Hn Ht; cbn [String.length] in Hn; try lia;
    try reflexivity.
  cbn [dotless] in Ht. apply andb_prop in Ht. destruct Ht as [Ha Ht].
  rewrite toLowerCase_cons.
  assert (Hdef : dotless (String (Js.lower_ascii a) (Js.toLowerCase t)) = true).
  { cbn [dotless]. rewrite lower_ascii_dot, Ha. apply IH; [lia | exact Ht]. }
  assert (Hsame : dotless (String a (Js.toLowerCase t)) = true).
  { cbn [dotless]. rewrite Ha. apply IH; [lia | exact Ht]. }
  destruct (Js.byte_of a =? 226).
  - destruct t as [|b [|c t']]; try exact Hdef.
    destruct ((Js.byte_of b =? 132) && (Js.byte_of c =? 170)); [|exact Hsame].
    cbn [dotless] in Ht |- *.
    apply andb_prop in Ht. destruct Ht as [_ Ht].
    apply andb_prop in Ht. destruct Ht as [_ Ht].
    apply IH; [cbn in Hn; lia | exact Ht].
  - destruct (Js.byte_of a =? 196); [|exact Hdef].
    destruct t as [|b t']; try exact Hdef.
    destruct (Js.byte_of b =? 176); [|exact Hsame].
    cbn [dotless] in Ht |- *.
    apply andb_prop in Ht. destruct Ht as [_ Ht].
    apply IH; [cbn in Hn; lia | exact Ht].
Qed.

Lemma dotless_app_dot x t : dotless (x ++ String "." t) = false.
Proof.
  induction x as [|a x IH]; cbn [append dotless]; [reflexivity|].
  rewrite IH. apply andb_false_r.
Qed.

(** Two ways of cutting a text at its last dot are the same. *)
Lemma last_dot_unique p : forall x e t,
  p ++ String "." e = x ++ String "." t ->
  dotless e = true -> dotless t = true -> e = t.
Proof.
  induction p as [|a p IH]; intros [|b x] e t H He Ht; cbn [append] in H.
  - congruence.
  - assert (e = x ++ String "." t) by congruence. subst e.
    rewrite dotless_app_dot in He. discriminate.
  - assert (t = p ++ String "." e) by congruence. subst t.
    rewrite dotless_app_dot in Ht. discriminate.
  - apply (IH x e t); [congruence | exact He | exact Ht].
Qed.

Lemma lastIndexOf_from_dot s : forall i found,
  (dotless s = true /\ Js.lastIndexOf_from "." s i found = found)
  \/ (exists pre t,
        s = pre ++ String "." t /\ dotless t = true
        /\ Js.lastIndexOf_from "." s i found = i + Z.of_nat (String.length pre)).
Proof.
  induction s as [|a s IH]; intros i found; [left; split; reflexivity|].
  cbn [Js.lastIndexOf_from dotless].
  destruct (IH (i + 1) (if Ascii.eqb a "." then i else found))
    as [[Hs Hr] | (pre & t & -> & Ht & Hr)].
  - destruct (Ascii.eqb a ".") eqn:Ha.
    + right. exists "", s. apply Ascii.eqb_eq in Ha. subst a.
      repeat split; [exact Hs | rewrite Hr; cbn; lia].
    + left. split; [exact Hs | exact Hr].
  - right. exists (String a pre), t.
    repeat split; [exact Ht | rewrite Hr; cbn [String.length]; lia].
Qed.

Lemma drop_app pre s : Js.drop (String.length pre) (pre ++ s) = s.
Proof. induction pre as [|a pre IH]; [destruct s; reflexivity | exact IH]. Qed.

(** The extension of a name without a dot is empty; otherwise it is the
    part from the last dot on, in lower case. *)
Lemma getFileExtension_cases name :
  (dotless name = true /\ getFileExtension name = "")
  \/ (exists pre t,
        name = pre ++ String "." t /\ dotless t = true
        /\ getFileExtension name = String "." (Js.toLowerCase t)).
Proof.
  unfold getFileExtension, Js.lastIndexOf.
  destruct (lastIndexOf_from_dot name 0 (-1)) as [[Hs ->] | (pre & t & -> & Ht & ->)].
  - left. split; [exact Hs | reflexivity].
  - right. exists pre, t. repeat split; [exact Ht|].
    destruct (0 + Z.of_nat (String.length pre) =? -1) eqn:E; [apply Z.eqb_eq in E; lia|].
    unfold Js.substring_from.
    replace (Z.to_nat (Z.max 0 (0 + Z.of_nat (String.length pre)))) with (String.length pre)
      by lia.
    rewrite drop_app. apply toLowerCase_dot.
Qed.

Lemma endsWith_inv suffix s : Js.endsWith suffix s = true -> exists p, s = p ++ suffix.
Proof.
  induction s as [|a s IH]; cbn [Js.endsWith]; intros H.
  - rewrite orb_false_r in H. apply String.eqb_eq in H. exists "". exact H.
  - apply orb_prop in H. destruct H as [H | H].
    + apply String.eqb_eq in H. exists "". exact H.
    + destruct (IH H) as [p ->]. exists (String a p). reflexivity.
Qed.

Lemma endsWith_app p suffix : Js.endsWith suffix (p ++ suffix) = true.
Proof.
  induction p as [|a p IH]; cbn [append].
  - destruct suffix; cbn [Js.endsWith]; rewrite String.eqb_refl; reflexivity.
  - cbn [Js.endsWith]. rewrite IH. apply orb_true_r.
Qed.

(** Every reviewable extension is a dot followed by a text without dots. *)
Lemma reviewableExtensions_shape ext :
  In ext reviewableExtensions -> exists e, ext = String "." e /\ dotless e = true.
Proof.
  intros H. cbn in H.
  repeat (destruct H as [<- | H]; [eexists; split; reflexivity|]). contradiction.
Qed.

Lemma hasReviewableExtension_In file :
  hasReviewableExtension file = true ->
  In (getFileExtension (filename file)) reviewableExtensions.
Proof.
  unfold hasReviewableExtension, Js.some. intros H.
  apply existsb_exists in H. destruct H as (ext & Hin & Hend).
  destruct (reviewableExtensions_shape ext Hin) as (e & -> & He).
  apply endsWith_inv in Hend. destruct Hend as [p Hp].
  destruct (getFileExtension_cases (filename file))
    as [[Hname _] | (pre & t & Hname & Ht & ->)].
  - apply (toLowerCase_dotless _ _ (le_n _)) in Hname.
    rewrite Hp, dotless_app_dot in Hname. discriminate.
  - rewrite Hname, (toLowerCase_app_dot _ pre t (le_n _)) in Hp.
    apply (toLowerCase_dotless _ _ (le_n _)) in Ht.
    symmetry in Hp. apply last_dot_unique in Hp; [|exact He | exact Ht].
    subst e. exact Hin.
Qed.

Lemma In_hasReviewableExtension file :
  In (getFileExtension (filename file)) reviewableExtensions ->
  hasReviewableExtension file = true.
Proof.
  intros Hin. unfold hasReviewableExtension, Js.some. apply existsb_exists.
  exists (getFileExtension (filename file)). split; [exact Hin|].
  destruct (getFileExtension_cases (filename file))
    as [[_ Hext] | (pre & t & Hname & _ & Hext)].
  - rewrite Hext in Hin. cbn in Hin.
    repeat (destruct Hin as [Hin | Hin]; [discriminate Hin|]). contradiction.
  - rewrite Hext, Hname, (toLowerCase_app_dot _ pre t (le_n _)). apply endsWith_app.
Qed.

Lemma reviewable_known ext :
  In ext reviewableExtensions ->
  getLanguageFromExtension ext <> "text"
  /\ In ext (map fst languageMap)
  /\ Js.array_includes ext binaryExtensions = false.
Proof.
  intros H. cbn in H.
  repeat (destruct H as [<- | H];
          [split; [vm_compute; discriminate | split; [cbn; tauto | reflexivity]]|]).
  contradiction.
Qed.

(** X12.  Triage and analysis read the extension of a name in the same way:
    the lower-cased name ends with a reviewable extension exactly when the
    extension that the analysis computes (the part from the last dot on,
    lower-cased) is one of the reviewable ones.  The two lists of languages
    and of reviewable extensions have the same keys. *)
Theorem hasReviewableExtension_agrees (file : ChangedFile) :
  (hasReviewableExtension file = true
   <-> In (getFileExtension (filename file)) reviewableExtensions)
  /\ map fst languageMap = reviewableExtensions.
Proof.
  split; [split; [apply hasReviewableExtension_In | apply In_hasReviewableExtension]|].
  reflexivity.
Qed.

(** X13.  Every file that triage selects is analysed as source code: its
    extension has a language of its own in the table (it is never given the
    default [text]), it is not among the binary extensions, and so
    [isBinaryFile] skips it only when the repository flags it as binary. *)
Theorem triaged_file_language (e : Env) (files : list ChangedFile) (file : ChangedFile) :
  In file (filterReviewableFiles e files) ->
  language_of file <> "text"
  /\ In (getFileExtension (filename file)) (map fst languageMap)
  /\ isBinaryFile file = binary file.
Proof.
  intros Hin.
  destruct (filterReviewableFiles_selects e files) as [_ Hkeep].
  rewrite Forall_forall in Hkeep.
  pose proof (hasReviewableExtension_In file (keep_reviewable _ _ (Hkeep file Hin))) as Hext.
  destruct (reviewable_known _ Hext) as (Hlang & Hkey & Hbin).
  unfold language_of, isBinaryFile. rewrite Hbin. auto.
Qed.

Lemma triaged_file_language_witness :
  In Sample.main_py (filterReviewableFiles empty_env [Sample.readme_md; Sample.main_py])
  /\ language_of Sample.main_py <> "text"
  /\ In (getFileExtension (filename Sample.main_py)) (map fst languageMap)
  /\ isBinaryFile Sample.main_py = binary Sample.main_py.
Proof.
  assert (H : In Sample.main_py
                (filterReviewableFiles empty_env [Sample.readme_md; Sample.main_py]))
    by (vm_compute; auto).
  split; [exact H|].
  exact (triaged_file_language empty_env [Sample.readme_md; Sample.main_py] Sample.main_py H).
Defined.

End Extensions.

(** ** The backend call *)

Section Backend.
Import AIService.

(** X14.  [analyzeCode] hands back what the selected backend answers, text or
    error, unchanged.  It sends one request, to the provider that
    [detectProvider] selects, and none when the mock is selected. *)
Theorem analyzeCode_passes_through (prompt : Prompt) (w : World) (tr : trace) :
  exists evs,
    analyzeCode prompt w tr
    = (backend_answer w (tr ++ [Log debug "Starting AI code analysis"])%list prompt,
       (tr ++ evs)%list)
    /\ filter is_post evs = provider_requests (process_env w) prompt.
Proof.
  unfold analyzeCode, backend_answer, provider_requests.
  rewrite bind_env, bind_log.
  destruct (detectProvider (process_env w)).
  - unfold try_catch, bind at 1, analyzeWithOpenAI, remote.
    destruct (openai_completion w _ prompt) as [e|text].
    + exists [Log debug "Starting AI code analysis"; Post openai prompt;
              Log error "AI analysis failed"].
      cbn. rewrite <- !app_assoc. split; reflexivity.
    + exists [Log debug "Starting AI code analysis"; Post openai prompt;
              Log debug "AI analysis completed"].
      cbn. rewrite <- !app_assoc. split; reflexivity.
  - unfold try_catch, bind at 1, analyzeWithAnthropic, remote.
    destruct (anthropic_message w _ prompt) as [e|text].
    + exists [Log debug "Starting AI code analysis"; Post anthropic prompt;
              Log error "AI analysis failed"].
      cbn. rewrite <- !app_assoc. split; reflexivity.
    + exists [Log debug "Starting AI code analysis"; Post anthropic prompt;
              Log debug "AI analysis completed"].
      cbn. rewrite <- !app_assoc. split; reflexivity.
  - exists [Log debug "Starting AI code analysis"; Log info "Using mock AI response";
            Timer 1000; Log debug "AI analysis completed"].
    unfold try_catch, bind, analyzeWithMock, bind, log, emit, ret.
    rewrite <- !app_assoc. split; reflexivity.
Qed.

End Backend.

(** ** The health report *)

Section Health.
Import WebhookAuth.




End Health.

(** ** An empty selection *)

Section Empty.
Import PullRequestHandler.

Lemma parseInt_or_nonzero input dflt : dflt <> 0 -> Js.parseInt_or input dflt <> 0.
Proof.
  intros Hd. unfold Js.parseInt_or.
  destruct (Js.parseInt input) as [n|]; [|exact Hd].
  destruct (n =? 0) eqn:E; [exact Hd | apply Z.eqb_neq, E].
Qed.

Lemma filter_nil_iff {A : Type} (p : A -> bool) l :
  filter p l = [] <-> Forall (fun x => p x = false) l.
Proof.
  induction l as [|x l IH]; cbn [filter].
  - split; [constructor | reflexivity].
  - destruct (p x) eqn:E.
    + split; [discriminate|]. intros H. inversion H; congruence.
    + rewrite IH. split; [intros H; constructor; assumption | intros H; inversion H; assumption].
Qed.

(** X16.  The file limit is never zero: [MAX_FILES_TO_REVIEW=0] counts as
    unset.  So under a limit that is not negative, triage selects nothing
    exactly when the filter drops every file of the pull request. *)
Theorem filterReviewableFiles_empty_iff (e : Env) (files : list ChangedFile) :
  0 <= maxFiles e ->
  1 <= maxFiles e
  /\ (filterReviewableFiles e files = []
      <-> Forall (fun f => keep (maxLinesPerFile e) f = false) files).
Proof.
  intros Hmax.
  assert (Hpos : 1 <= maxFiles e).
  { pose proof (parseInt_or_nonzero (MAX_FILES_TO_REVIEW e) 20 ltac:(discriminate)) as H.
    fold (maxFiles e) in H. lia. }
  split; [exact Hpos|].
  rewrite (filterReviewableFiles_prefix e files Hmax), <- filter_nil_iff.
  destruct (Z.to_nat (maxFiles e)) as [|k] eqn:Hk; [lia|].
  destruct (filter (keep (maxLinesPerFile e)) files); cbn [firstn];
    split; try reflexivity; discriminate.
Qed.

Lemma filterReviewableFiles_empty_iff_witness :
  0 <= maxFiles empty_env
  /\ 1 <= maxFiles empty_env
  /\ (filterReviewableFiles empty_env [Sample.readme_md; Sample.old_js] = []
      <-> Forall (fun f => keep (maxLinesPerFile empty_env) f = false)
                 [Sample.readme_md; Sample.old_js]).
Proof.
  assert (H : 0 <= maxFiles empty_env) by (vm_compute; discriminate).
  split; [exact H|].
  exact (filterReviewableFiles_empty_iff empty_env [Sample.readme_md; Sample.old_js] H).
Defined.

End Empty.

(** ** The status of the route *)

Section RouteStatus.

Lemma WebhookHandler_handle_result event payload metadata w tr :
  if Js.array_includes (WebhookHandler.show event) raising_events
  then exists message,
         fst (WebhookHandler.handle event payload metadata w tr) = inl (TypeError message)
  else fst (WebhookHandler.handle event payload metadata w tr) = inr tt.
Proof.
  unfold WebhookHandler.handle.
  set (name := WebhookHandler.show event). clearbody name.
  destruct (Js.array_includes name answering_events) eqn:Hk.
  - apply array_includes_In in Hk. cbn in Hk.
    repeat (destruct Hk as [<-|Hk]; [cbn; first [reflexivity | eexists; reflexivity]|]).
    contradiction.
  - destruct (handlers_elsewhere name Hk) as [-> ->]. reflexivity.
Qed.

(** X17.  After the middleware, the route answers 500 exactly when the
    request has no parsed body or the dispatcher throws on its event name,
    and 200 otherwise; either answer echoes the delivery header.  A
    [pull_request] delivery is therefore always answered 500. *)
Theorem route_status (req : Request) (w : World) (tr : trace) :
  exists res,
    fst (WebhookRoute.route req w tr) = inr res
    /\ statusCode res = (if fails req then 500 else 200)
    /\ In ("delivery", x_github_delivery req) (json res)
    /\ (x_github_event req = Some "pull_request" -> statusCode res = 500).
Proof.
  assert (Hpr : x_github_event req = Some "pull_request" -> fails req = true).
  { intros H. unfold fails. rewrite H. destruct (req_body req); reflexivity. }
  unfold fails in *. unfold WebhookRoute.route, try_catch, bind at 1.
  destruct (req_body req) as [body|].
  - cbn [ret]. rewrite bind_log. unfold bind at 1.
    pose proof (WebhookHandler_handle_result (x_github_event req)
                  (WebhookRoute.payload_of body)
                  {| delivery := x_github_delivery req;
                     signature := x_hub_signature_256 req |}
                  w (tr ++ [Log info "Webhook received"])%list) as Hres.
    destruct (Js.array_includes (WebhookHandler.show (x_github_event req)) raising_events).
    + destruct Hres as [message Hres].
      destruct (WebhookHandler.handle _ _ _ w _) as [r tr1]. cbn [fst] in Hres. subst r.
      eexists. cbn. split; [reflexivity|]. split; [reflexivity|]. split; [right; left; reflexivity | intros _; reflexivity].
    + destruct (WebhookHandler.handle _ _ _ w _) as [r tr1]. cbn [fst] in Hres. subst r.
      eexists. cbn. split; [reflexivity|]. split; [reflexivity|].
      split; [right; left; reflexivity | intros H; discriminate (Hpr H)].
  - eexists. cbn. split; [reflexivity|]. split; [reflexivity|]. split; [right; left; reflexivity | intros _; reflexivity].
Qed.

End RouteStatus.
